(** * MindTracker back end: daily entries, habit streaks, goal progress

    A shallow embedding of the Express route handlers of the MindTracker
    back end (routes/habits.js, routes/moods.js, routes/goals.js) and of the
    Mongoose models they use (Habit, HabitEntry, Mood, Goal).

    Conventions of the embedding.
    - A JavaScript [Date] is its number of milliseconds since the epoch, a [Z].
    - A JavaScript number is a double.  A field that holds integers is a [Z],
      the integer that the double holds; a quotient is a rational [Q], and
      the division and multiplication that produce it round to the nearest
      double ([JS.toDouble]: 53 significant bits, ties to even; the range of
      the exponent is not bounded).
    - A handler reads the clock several times ([moment()], [new Date()]); one
      instant [now] is passed to it and used for all of them.
    - [moment] works in the server's local time zone, taken here as a fixed
      offset [utcOffset] (in milliseconds) from UTC.
    - An ObjectId is a [nat].  A collection looked up by [_id] only is a
      [gmap] from ids to documents; a collection that is queried by range is
      the list of its documents in insertion order, each carrying its [_id].
    - A request body comes in two forms.  The raw form ([RawBody] and the
      like) is [req.body] as the handler receives it: a validated field
      holds a JavaScript value ([JS.Value]: the validators accept a number
      or a boolean written as a string), and the body may carry, beside
      the declared keys, the keys of the schema that are fields of the
      embedded document (entries: [habit], [user], [date]; moods: [user],
      [date], [sleep]).  The remaining keys of the two schemas ([mood],
      [difficulty], [timeSpent], [location] of an entry; [activities],
      [weather], [tags] of a mood) are not embedded, and a body is taken
      not to carry them.  The typed form ([Body] and the like) is what
      Mongoose casts the declared fields to; it is also the body of a
      client that sends JSON booleans and numbers and the declared keys
      only.  Each handler is given on both forms; on a collection that
      satisfies its invariant, and for integers that a double holds
      exactly, the handler on the typed form is the raw handler at such a
      body ([postProgressRaw_ofBody], [postEntryRaw_ofBody],
      [postMoodRaw_ofBody], [putMoodRaw_ofBody]).
    - Stored documents pass their schema validators.  The [catch] branch of
      a handler (status 500) is [ServerError]; the raw handlers reach it when
      a value does not cast, a schema validator fails or a unique index
      refuses a write, and nothing is written then. *)

From Stdlib Require Import ZArith QArith Qround Qpower Lia Lqa Sorted.
From stdpp Require Import base list gmap strings pretty.

Local Open Scope Z_scope.

(** ** HTTP outcome of a handler *)

Inductive Response (A : Type) : Type :=
| Ok (a : A)          (* res.json({ success: true, ... }) *)
| BadRequest          (* res.status(400): validationResult not empty *)
| NotFound            (* res.status(404) *)
| ServerError.        (* res.status(500): the catch branch *)

Arguments Ok {A} a.
Arguments BadRequest {A}.
Arguments NotFound {A}.
Arguments ServerError {A}.

(** ** JavaScript helpers *)

Module JS.

(** *** Numbers *)

(** [2^e], for an exponent of either sign. *)
Definition pow2 (e : Z) : Q := Qpower 2 e.

(** The binary exponent [e] of a positive rational: [2^e <= x < 2^(e+1)]. *)
Definition ilog2 (x : Q) : Z :=
  let e := Z.log2 (Qnum x) - Z.log2 (Z.pos (Qden x)) in
  if Qle_bool (pow2 e) x then e else e - 1.

(** The nearest integer, halves to the even one. *)
Definition roundHalfEven (y : Q) : Z :=
  let f := Qfloor y in
  match Qcompare (y - inject_Z f) (1 # 2) with
  | Lt => f
  | Gt => f + 1
  | Eq => if Z.even f then f else f + 1
  end.

(** The double nearest to a positive rational: a significand of 53 bits. *)
Definition nearest (x : Q) : Q :=
  let e := ilog2 x in
  (inject_Z (roundHalfEven (x * pow2 (52 - e))) * pow2 (e - 52))%Q.

(** The double that an exact result [x] is rounded to. *)
Definition toDouble (x : Q) : Q :=
  match Qcompare x 0 with
  | Eq => 0%Q
  | Gt => nearest x
  | Lt => (- nearest (- x))%Q
  end.

(** [x / y] and [x * y] on doubles. *)
Definition div (x y : Q) : Q := toDouble (x / y).
Definition mul (x y : Q) : Q := toDouble (x * y).

(** The double nearest to an integer, and [a + b] on doubles that hold
    integers. *)
Definition roundInt (z : Z) : Z := Qfloor (toDouble (inject_Z z)).
Definition add (a b : Z) : Z := roundInt (a + b).

(** The unit roundoff of a double, [2^-53]: the relative error of one
    rounding is at most this. *)
Definition unitRoundoff : Q := 1 # 9007199254740992.

(** [Math.round]: nearest integer, halves towards plus infinity. *)
Definition mathRound (x : Q) : Z := Qfloor (x + (1 # 2)).

(** [Math.ceil]. *)
Definition mathCeil (x : Q) : Z := Qceiling x.

(** [a >= b] where [b] may be [undefined]: the comparison with
    [undefined] is false. *)
Definition geOpt (a : Z) (b : option Z) : bool :=
  match b with
  | Some b' => b' <=? a
  | None => false
  end.

(** [x || 0] for a numeric field that may be missing. *)
Definition orZero (x : option Z) : Z := default 0 x.

(** *** Strings

    A string is the list of its characters, the code points below 256. *)

(** White space and line terminators: tab, line feed, vertical tab, form
    feed, carriage return, space, no-break space. *)
Definition isWhiteSpace (c : Ascii.ascii) : bool :=
  let n := Ascii.nat_of_ascii c in
  ((9 <=? n) && (n <=? 13) || (n =? 32) || (n =? 160))%nat.

Fixpoint trimStart (s : string) : string :=
  match s with
  | String c s' => if isWhiteSpace c then trimStart s' else s
  | EmptyString => EmptyString
  end.

Fixpoint trimEnd (s : string) : string :=
  match s with
  | EmptyString => EmptyString
  | String c s' =>
      match trimEnd s' with
      | EmptyString => if isWhiteSpace c then EmptyString else String c EmptyString
      | t => String c t
      end
  end.

(** [String.prototype.trim], the setter of a schema path with [trim: true]. *)
Definition trim (s : string) : string := trimEnd (trimStart s).

(** The value of a decimal digit. *)
Definition digit (c : Ascii.ascii) : option Z :=
  let n := Z.of_nat (Ascii.nat_of_ascii c) in
  if (48 <=? n) && (n <=? 57) then Some (n - 48) else None.

Fixpoint digits (acc : Z) (s : string) : option Z :=
  match s with
  | EmptyString => Some acc
  | String c s' =>
      match digit c with
      | Some d => digits (10 * acc + d) s'
      | None => None
      end
  end.

(** The integer that a string of the shape [/^[-+]?[0-9]+$/] denotes (the
    signs are the characters 43 and 45), [None] for any other string. *)
Definition integerOfString (s : string) : option Z :=
  match s with
  | EmptyString => None
  | String c s' =>
      if (Ascii.nat_of_ascii c =? 43)%nat then
        if String.eqb s' "" then None else digits 0 s'
      else if (Ascii.nat_of_ascii c =? 45)%nat then
        if String.eqb s' "" then None else Z.opp <$> digits 0 s'
      else digits 0 s
  end.

(** [String(n)] for an integer below [10^21] in absolute value: its
    decimal digits.  (Larger numbers print with an exponent.) *)
Definition numberToString (n : Z) : string := pretty n.

(** *** The value of a body field

    A boolean, a number or a string, as [JSON.parse] leaves it; a number is
    given by the integer it holds (a number that is not an integer fails
    every validator of these routes, as [VNum (-1)] does). *)
Inductive Value :=
| VBool (b : bool)
| VNum (n : Z)
| VStr (s : string).

(** Truthiness: the test of [if (v)]. *)
Definition truthy (v : Value) : bool :=
  match v with
  | VBool b => b
  | VNum n => negb (n =? 0)
  | VStr s => negb (String.eqb s "")
  end.

(** express-validator's [isBoolean()]: the value, written as a string, is
    one of 'true', 'false', '1', '0'. *)
Definition isBoolean (v : Value) : bool :=
  match v with
  | VBool _ => true
  | VNum n => (n =? 0) || (n =? 1)
  | VStr s =>
      String.eqb s "true" || String.eqb s "false"
      || String.eqb s "1" || String.eqb s "0"
  end.

(** Mongoose's cast to Boolean; [None] is a CastError. *)
Definition toBoolean (v : Value) : option bool :=
  match v with
  | VBool b => Some b
  | VNum n => if n =? 1 then Some true else if n =? 0 then Some false else None
  | VStr s =>
      if String.eqb s "true" || String.eqb s "1" || String.eqb s "yes" then Some true
      else if String.eqb s "false" || String.eqb s "0" || String.eqb s "no" then Some false
      else None
  end.

(** The options [{ min, max }] of [isInt]. *)
Definition within (min max : option Z) (n : Z) : bool :=
  match min with Some lo => lo <=? n | None => true end
  && match max with Some hi => n <=? hi | None => true end.

(** express-validator's [isInt({ min, max })]: the value, written as a
    string, has the shape [/^[-+]?[0-9]+$/] and lies within the bounds.  A
    number of [10^21] or more is written with an exponent and fails. *)
Definition isInt (min max : option Z) (v : Value) : bool :=
  match v with
  | VBool _ => false
  | VNum n => (Z.abs n <? 10 ^ 21) && within min max n
  | VStr s =>
      match integerOfString s with
      | Some n => within min max n
      | None => false
      end
  end.

(** Mongoose's cast to Number, [Number(v)]; [None] is a CastError.  The
    strings that reach it here are an accepted value of [isInt] or the
    digits of a number followed by one. *)
Definition toNumber (v : Value) : option Z :=
  match v with
  | VBool b => Some (if b then 1 else 0)
  | VNum n => Some n
  | VStr s => roundInt <$> integerOfString s
  end.

(** [a + v] for a number [a]: the sum of two numbers, and the
    concatenation of [String(a)] and [v] when [v] is a string. *)
Definition plus (a : Z) (v : Value) : Value :=
  match v with
  | VBool b => VNum (add a (if b then 1 else 0))
  | VNum n => VNum (add a n)
  | VStr s => VStr (numberToString a +:+ s)
  end.

(** *** Arrays *)

(** Insertion of [x] in front of the first element it does not follow
    under the comparator [cmp]; [x] is the earlier element. *)
Fixpoint insertBy {A : Type} (cmp : A → A → Z) (x : A) (l : list A) : list A :=
  match l with
  | [] => [x]
  | y :: l' => if cmp x y <=? 0 then x :: l else y :: insertBy cmp x l'
  end.

(** [Array.prototype.sort(cmp)], which is stable. *)
Definition sortBy {A : Type} (cmp : A → A → Z) (l : list A) : list A :=
  foldr (insertBy cmp) [] l.

(** [arr.forEach(f)] for a callback that mutates the element it is given:
    the elements at the positions listed in [order] are updated in turn.
    The array method itself visits the positions [0 .. length - 1]. *)
Definition forEachIn {A : Type} (order : list nat) (f : A → A) (arr : list A) : list A :=
  foldl (λ a i, alter f i a) arr order.

Definition forEach {A : Type} (f : A → A) (arr : list A) : list A :=
  forEachIn (seq 0 (length arr)) f arr.

End JS.

(** ** Mongoose queries on a collection kept as a list of documents *)

Module Mongo.

(** Model.findOne(filter): the first matching document, [None] for [null]. *)
Definition findOne {A : Type} (filter : A → bool) (docs : list A) : option A :=
  List.find filter docs.

(** Model.findByIdAndUpdate(id, update, { new: true }): the document with
    this [_id] is updated and returned, [None] for [null].  [ident] reads
    the [_id] of a document. *)
Fixpoint findByIdAndUpdate {A : Type} (ident : A → nat) (id : nat) (upd : A → A)
    (docs : list A) : list A * option A :=
  match docs with
  | [] => ([], None)
  | d :: docs' =>
      if (ident d =? id)%nat then (upd d :: docs', Some (upd d))
      else let r := findByIdAndUpdate ident id upd docs' in (d :: r.1, r.2)
  end.

(** Model.findOneAndUpdate(filter, update, { new: true }): the first
    matching document is updated and returned, [None] for [null]. *)
Fixpoint findOneAndUpdate {A : Type} (filter : A → bool) (upd : A → A)
    (docs : list A) : list A * option A :=
  match docs with
  | [] => ([], None)
  | d :: docs' =>
      if filter d then (upd d :: docs', Some (upd d))
      else let r := findOneAndUpdate filter upd docs' in (d :: r.1, r.2)
  end.

(** Model.findOneAndDelete(filter): the first matching document is removed
    and returned, [None] for [null]. *)
Fixpoint findOneAndDelete {A : Type} (filter : A → bool) (docs : list A)
    : list A * option A :=
  match docs with
  | [] => ([], None)
  | d :: docs' =>
      if filter d then (docs', Some d)
      else let r := findOneAndDelete filter docs' in (d :: r.1, r.2)
  end.

(** A unique index on [key]: the write of [d'] in place of the document
    with its [_id] is refused (E11000) when another document has the key of
    [d']. *)
Definition duplicateKey {A K : Type} `{EqDecision K} (ident : A → nat) (key : A → K)
    (d' : A) (docs : list A) : bool :=
  bool_decide (Exists (λ d, ident d ≠ ident d' ∧ key d = key d') docs).

End Mongo.

(** ** Wall-clock days (moment.js) *)

Module Clock.

Definition msPerDay : Z := 1000 * 60 * 60 * 24.

(** [moment(t).startOf('day').toDate()] in a zone [off] ms east of UTC. *)
Definition startOfDay (off t : Z) : Z := t - (t + off) `mod` msPerDay.

(** [moment(t).endOf('day').toDate()]: 23:59:59.999 of the same day. *)
Definition endOfDay (off t : Z) : Z := startOfDay off t + msPerDay - 1.

(** [moment(t).subtract(n, 'days')]. *)
Definition subtractDays (n t : Z) : Z := t - n * msPerDay.

(** The Mongo range filter [{ $gte: lo, $lt: hi }]. *)
Definition inRange (lo hi d : Z) : bool := (lo <=? d) && (d <? hi).

End Clock.

(** ** Goals (models/Goal.js, routes/goals.js) *)

Module Goals.

Inductive Status := active | completed | paused | cancelled.

Definition Status_eqb (a b : Status) : bool :=
  match a, b with
  | active, active | completed, completed
  | paused, paused | cancelled, cancelled => true
  | _, _ => false
  end.

Record Milestone := mkMilestone {
  ms_title : string;
  ms_targetValue : Z;
  ms_completed : bool;
  ms_completedAt : option Z
}.

Record ProgressEntry := mkProgressEntry {
  pr_date : Z;
  pr_value : Z;
  pr_notes : option string
}.

Record Goal := mkGoal {
  user : nat;
  title : string;
  targetValue : option Z;      (* required only for some goal types *)
  currentValue : Z;
  deadline : Z;
  status : Status;
  milestones : list Milestone;
  progress : list ProgressEntry
}.

(** goalSchema.virtual('progressPercentage'):
      if (this.targetValue && this.targetValue > 0)
        return Math.min(Math.round((this.currentValue / this.targetValue) * 100), 100);
      return 0; *)
Definition progressPercentage (g : Goal) : Z :=
  match targetValue g with
  | Some tv =>
      if negb (tv =? 0) && (0 <? tv)
      then Z.min (JS.mathRound
                    (JS.mul (JS.div (inject_Z (currentValue g)) (inject_Z tv)) 100))
                 100
      else 0
  | None => 0
  end.

(** goalSchema.virtual('daysRemaining').  The quotient is taken exactly:
    for a span of less than 10^8 days the double quotient has the same
    ceiling. *)
Definition daysRemaining (now : Z) (g : Goal) : Z :=
  let diffTime := deadline g - now in
  let diffDays := JS.mathCeil (inject_Z diffTime / inject_Z (1000 * 60 * 60 * 24)) in
  Z.max 0 diffDays.

(** Body of POST /api/goals/:id/progress, typed form: [value] is a JSON
    number. *)
Record ProgressBody := mkProgressBody {
  value : Z;
  notes : option string
}.

(** body('value').isInt({ min: 0 }), body('notes').optional().isLength({ max: 500 }). *)
Definition validationOk (b : ProgressBody) : bool :=
  (0 <=? value b) &&
  match notes b with
  | Some s => (String.length s <=? 500)%nat
  | None => true
  end.

(** The callback of [goal.milestones.forEach]. *)
Definition checkMilestone (cv now : Z) (m : Milestone) : Milestone :=
  if negb (ms_completed m) && (ms_targetValue m <=? cv)
  then {| ms_title := ms_title m; ms_targetValue := ms_targetValue m;
          ms_completed := true; ms_completedAt := Some now |}
  else m.

(** Lines 144-167 of routes/goals.js: the mutation of the loaded goal.
    The sum is the exact one, which is the sum of the doubles up to 2^53. *)
Definition applyProgress (goal : Goal) (b : ProgressBody) (now : Z) : Goal :=
  (* goal.progress.push({ value, notes, date: new Date() }); notes has trim: true *)
  let progress' := progress goal ++
    [{| pr_date := now; pr_value := value b; pr_notes := JS.trim <$> notes b |}] in
  (* goal.currentValue += req.body.value *)
  let cv := currentValue goal + value b in
  (* if (goal.currentValue >= goal.targetValue && goal.status === 'active') *)
  let status' :=
    if JS.geOpt cv (targetValue goal) && Status_eqb (status goal) active
    then completed else status goal in
  (* if (goal.milestones && goal.milestones.length > 0) goal.milestones.forEach(...) *)
  let milestones' :=
    if (0 <? length (milestones goal))%nat
    then JS.forEach (checkMilestone cv now) (milestones goal)
    else milestones goal in
  {| user := user goal; title := title goal; targetValue := targetValue goal;
     currentValue := cv; deadline := deadline goal; status := status';
     milestones := milestones'; progress := progress' |}.

(** Goal.findOne({ _id: id, user: uid }). *)
Definition findOne (goals : gmap nat Goal) (id uid : nat) : option Goal :=
  match goals !! id with
  | Some g => if (user g =? uid)%nat then Some g else None
  | None => None
  end.

(** POST /api/goals/:id/progress. *)
Definition postProgress (goals : gmap nat Goal) (uid id : nat)
    (b : ProgressBody) (now : Z) : gmap nat Goal * Response Goal :=
  if negb (validationOk b) then (goals, BadRequest)
  else match findOne goals id uid with
       | None => (goals, NotFound)
       | Some goal =>
           let goal' := applyProgress goal b now in
           (<[id := goal']> goals, Ok goal')
       end.

(** A sequence of progress requests for one goal, each with its instant. *)
Definition postProgressAll (goals : gmap nat Goal) (uid id : nat)
    (calls : list (ProgressBody * Z)) : gmap nat Goal :=
  foldl (λ gs c, (postProgress gs uid id c.1 c.2).1) goals calls.

(** The mutations of a sequence of accepted requests on the loaded goal. *)
Definition applyAll (g : Goal) (calls : list (ProgressBody * Z)) : Goal :=
  foldl (λ g c, applyProgress g c.1 c.2) g calls.

(** The stored goal [id] after the first [k] requests of [calls]. *)
Definition goalAfter (goals : gmap nat Goal) (uid id : nat)
    (calls : list (ProgressBody * Z)) (k : nat) : option Goal :=
  postProgressAll goals uid id (take k calls) !! id.

(** [req.body] of the same request, raw form.  [isInt] accepts a number
    and a string of digits alike, and the chain has no [toInt()]: the
    handler sees the value as it was sent. *)
Record RawProgressBody := mkRawProgressBody {
  raw_value : JS.Value;
  raw_notes : option string
}.

(** body('value').isInt({ min: 0 }), body('notes').optional().isLength({ max: 500 }). *)
Definition rawValidationOk (b : RawProgressBody) : bool :=
  JS.isInt (Some 0) None (raw_value b) &&
  match raw_notes b with
  | Some s => (String.length s <=? 500)%nat
  | None => true
  end.

(** Lines 144-169 on the raw body; [None] when [goal.save()] throws. *)
Definition applyProgressRaw (goal : Goal) (b : RawProgressBody) (now : Z)
    : option Goal :=
  (* goal.progress.push({ value, notes, date: new Date() }): the record is
     cast to the schema, value to a Number, notes trimmed *)
  v ← JS.toNumber (raw_value b);
  let progress' := progress goal ++
    [{| pr_date := now; pr_value := v; pr_notes := JS.trim <$> raw_notes b |}] in
  (* goal.currentValue += req.body.value: [+] on the value as sent, then
     the cast of the assignment *)
  cv ← JS.toNumber (JS.plus (currentValue goal) (raw_value b));
  (* if (goal.currentValue >= goal.targetValue && goal.status === 'active') *)
  let status' :=
    if JS.geOpt cv (targetValue goal) && Status_eqb (status goal) active
    then completed else status goal in
  (* if (goal.milestones && goal.milestones.length > 0) goal.milestones.forEach(...) *)
  let milestones' :=
    if (0 <? length (milestones goal))%nat
    then JS.forEach (checkMilestone cv now) (milestones goal)
    else milestones goal in
  (* goal.save(): currentValue has min: 0 *)
  if cv <? 0 then None
  else Some {| user := user goal; title := title goal;
               targetValue := targetValue goal; currentValue := cv;
               deadline := deadline goal; status := status';
               milestones := milestones'; progress := progress' |}.

(** POST /api/goals/:id/progress on the raw body. *)
Definition postProgressRaw (goals : gmap nat Goal) (uid id : nat)
    (b : RawProgressBody) (now : Z) : gmap nat Goal * Response Goal :=
  if negb (rawValidationOk b) then (goals, BadRequest)
  else match findOne goals id uid with
       | None => (goals, NotFound)
       | Some goal =>
           match applyProgressRaw goal b now with
           | None => (goals, ServerError)
           | Some goal' => (<[id := goal']> goals, Ok goal')
           end
       end.

(** A typed body as the raw body of a client that sends a JSON number. *)
Definition ofBody (b : ProgressBody) : RawProgressBody :=
  {| raw_value := JS.VNum (value b); raw_notes := notes b |}.

(** A sequence of raw progress requests for one goal, and the stored goal
    after the first [k] of them. *)
Definition postProgressRawAll (goals : gmap nat Goal) (uid id : nat)
    (calls : list (RawProgressBody * Z)) : gmap nat Goal :=
  foldl (λ gs c, (postProgressRaw gs uid id c.1 c.2).1) goals calls.

Definition goalAfterRaw (goals : gmap nat Goal) (uid id : nat)
    (calls : list (RawProgressBody * Z)) (k : nat) : option Goal :=
  postProgressRawAll goals uid id (take k calls) !! id.

(** GET /api/goals/stats. *)
Record UpcomingDeadline := mkUpcoming {
  ud_id : nat;
  ud_title : string;
  ud_daysRemaining : Z;
  ud_progressPercentage : Z
}.

Record Stats := mkStats {
  total : nat;
  st_active : nat;
  st_completed : nat;
  st_paused : nat;
  st_cancelled : nat;
  completionRate : Z;
  averageProgress : Z;
  upcomingDeadlines : list UpcomingDeadline
}.

Definition countStatus (s : Status) (goals : list (nat * Goal)) : nat :=
  length (filter (λ g, Status_eqb (status g.2) s = true) goals).

(** The [stats] object built from the array [goals] that
    Goal.find({ user }) returned (documents with their ids). *)
Definition stats (now : Z) (goals : list (nat * Goal)) : Stats :=
  let n := length goals in
  {| total := n;
     st_active := countStatus active goals;
     st_completed := countStatus completed goals;
     st_paused := countStatus paused goals;
     st_cancelled := countStatus cancelled goals;
     completionRate :=
       if (0 <? n)%nat
       then JS.mathRound
              (JS.mul (JS.div (inject_Z (Z.of_nat (countStatus completed goals)))
                              (inject_Z (Z.of_nat n))) 100)
       else 0;
     averageProgress :=
       if (0 <? n)%nat
       then JS.mathRound
              (JS.div (inject_Z (foldl (λ sum g, sum + progressPercentage g.2) 0 goals))
                      (inject_Z (Z.of_nat n)))
       else 0;
     upcomingDeadlines :=
       (λ g, {| ud_id := g.1; ud_title := title g.2;
                ud_daysRemaining := daysRemaining now g.2;
                ud_progressPercentage := progressPercentage g.2 |})
       <$> take 5
             (JS.sortBy (λ a b, daysRemaining now a.2 - daysRemaining now b.2)
                (filter (λ g, Status_eqb (status g.2) active = true
                              ∧ daysRemaining now g.2 ≤ 7) goals)) |}.

(** The handler: all goals of the caller, then [stats]. *)
Definition getStats (goals : gmap nat Goal) (uid : nat) (now : Z) : Stats :=
  stats now (filter (λ g, user g.2 = uid) (map_to_list goals)).

(** GET /api/goals/:id/progress. *)
Record ProgressView := mkProgressView {
  pv_progress : list ProgressEntry;
  pv_currentValue : Z;
  pv_targetValue : option Z;
  pv_progressPercentage : Z
}.

Definition getProgress (goals : gmap nat Goal) (uid id : nat) : Response ProgressView :=
  match findOne goals id uid with
  | None => NotFound
  | Some goal =>
      Ok {| pv_progress := progress goal;
            pv_currentValue := currentValue goal;
            pv_targetValue := targetValue goal;
            pv_progressPercentage := progressPercentage goal |}
  end.

(** DELETE /api/goals/:id: Goal.findOneAndDelete({ _id: id, user: uid }). *)
Definition deleteGoal (goals : gmap nat Goal) (uid id : nat)
    : gmap nat Goal * Response unit :=
  match findOne goals id uid with
  | None => (goals, NotFound)
  | Some _ => (delete id goals, Ok tt)
  end.

End Goals.

(** ** One document per owner and day

    The two log handlers (habit entries, moods) share one pattern: look for
    the owner's document of today, update it by [_id] if there is one,
    create it otherwise.  The definitions below name that pattern and what
    the unique indexes of the two schemas and the ObjectId generator keep
    true of such a collection; [owner] is the part of the unique index
    beside the date. *)

Module Daily.
Section Daily.
Context {A K : Type} `{EqDecision K}.
Variables (ident : A → nat) (owner : A → K) (date : A → Z).
Variable off : Z.

(** [d] belongs to [k] and lies on the calendar day starting at [day]. *)
Definition sameDay (k : K) (day : Z) (d : A) : Prop :=
  owner d = k ∧ Clock.startOfDay off (date d) = day.

#[global] Instance sameDay_dec k day d : Decision (sameDay k day d) :=
  and_dec (decide (owner d = k)) (decide (Clock.startOfDay off (date d) = day)).

(** The stored documents of [k] for the day starting at [day]. *)
Definition ofDay (k : K) (day : Z) (docs : list A) : list A :=
  filter (sameDay k day) docs.

(** Ids are unique and below the next fresh id, dates are starts of
    days, and no two documents share owner and date. *)
Definition wfDocs (docs : list A) (next : nat) : Prop :=
  NoDup (ident <$> docs)
  ∧ Forall (λ d, (ident d < next)%nat) docs
  ∧ Forall (λ d, Clock.startOfDay off (date d) = date d) docs
  ∧ NoDup ((λ d, (owner d, date d)) <$> docs).

(** Find with [q], then update by [_id] with [upd] or append [new]. *)
Definition upsert (q : A → bool) (upd : A → A) (new : A)
    (docs : list A) (next : nat) : list A * nat * option A :=
  match Mongo.findOne q docs with
  | Some d =>
      let r := Mongo.findByIdAndUpdate ident (ident d) upd docs in
      (r.1, next, r.2)
  | None => (docs ++ [new], S next, Some new)
  end.

End Daily.
End Daily.

(** ** Habits (models/Habit.js, models/HabitEntry.js, routes/habits.js) *)

Module Habit.

Record Stats := mkStats {
  totalCompletions : Z;
  currentStreak : Z;
  longestStreak : Z;
  completionRate : Z;
  lastCompleted : option Z
}.

Record t := mk {
  user : nat;
  name : string;
  isActive : bool;
  stats : Stats
}.

End Habit.

Module HabitEntry.

(** The fields [mood], [difficulty], [timeSpent] and [location] of the
    schema are never read by the handlers and are left out. *)
Record t := mk {
  _id : nat;
  habit : nat;
  user : nat;
  date : Z;
  completed : bool;      (* default: false *)
  value : Z;             (* default: 0 *)
  notes : option string
}.

End HabitEntry.

Module Habits.

(** Body of POST /api/habits/:id/entries, typed form. *)
Record Body := mkBody {
  completed : bool;
  value : option Z;
  notes : option string
}.

(** body('completed').isBoolean(), body('value').optional().isInt({ min: 0 }),
    body('notes').optional().isLength({ max: 500 }). *)
Definition validationOk (b : Body) : bool :=
  match value b with
  | Some v => 0 <=? v
  | None => true
  end &&
  match notes b with
  | Some s => (String.length s <=? 500)%nat
  | None => true
  end.

(** The Habit and HabitEntry collections; [nextId] is the next fresh
    ObjectId for an entry. *)
Record Db := mkDb {
  habits : gmap nat Habit.t;
  entries : list HabitEntry.t;
  nextId : nat
}.

(** Habit.findOne({ _id: id, user: uid }). *)
Definition findHabit (hs : gmap nat Habit.t) (id uid : nat) : option Habit.t :=
  match hs !! id with
  | Some h => if (Habit.user h =? uid)%nat then Some h else None
  | None => None
  end.

(** The filter { habit: id, user: uid, date: { $gte: lo, $lt: hi } }. *)
Definition onDay (id uid : nat) (lo hi : Z) (e : HabitEntry.t) : bool :=
  (HabitEntry.habit e =? id)%nat && (HabitEntry.user e =? uid)%nat
  && Clock.inRange lo hi (HabitEntry.date e).

(** The same filter with [completed: true] added. *)
Definition completedOnDay (id uid : nat) (lo hi : Z) (e : HabitEntry.t) : bool :=
  onDay id uid lo hi e && HabitEntry.completed e.

(** The declared keys of the update document [req.body] applied to an
    entry: the keys that are present are set; [notes] has [trim: true].
    The whole document, with the other keys it may carry, is
    [applyRawBody] below. *)
Definition applyBody (b : Body) (e : HabitEntry.t) : HabitEntry.t :=
  {| HabitEntry._id := HabitEntry._id e;
     HabitEntry.habit := HabitEntry.habit e;
     HabitEntry.user := HabitEntry.user e;
     HabitEntry.date := HabitEntry.date e;
     HabitEntry.completed := completed b;
     HabitEntry.value := default (HabitEntry.value e) (value b);
     HabitEntry.notes :=
       match notes b with
       | Some s => Some (JS.trim s)
       | None => HabitEntry.notes e
       end |}.

(** new HabitEntry({ ...req.body, habit: id, user: uid, date: today }). *)
Definition newEntry (fresh id uid : nat) (today : Z) (b : Body) : HabitEntry.t :=
  {| HabitEntry._id := fresh;
     HabitEntry.habit := id;
     HabitEntry.user := uid;
     HabitEntry.date := today;
     HabitEntry.completed := completed b;
     HabitEntry.value := default 0 (value b);
     HabitEntry.notes := JS.trim <$> notes b |}.

(** Lines 147-173: find today's entry, update it or create it. *)
Definition upsertToday (off : Z) (db : Db) (uid id : nat) (b : Body) (now : Z)
    : list HabitEntry.t * nat * option HabitEntry.t :=
  let today := Clock.startOfDay off now in
  let endOfDay := Clock.endOfDay off today in
  match Mongo.findOne (onDay id uid today endOfDay) (entries db) with
  | Some entry =>
      let r := Mongo.findByIdAndUpdate HabitEntry._id (HabitEntry._id entry)
                 (applyBody b) (entries db) in
      (r.1, nextId db, r.2)
  | None =>
      let entry := newEntry (nextId db) id uid today b in
      (entries db ++ [entry], S (nextId db), Some entry)
  end.

(** Lines 176-196: the update of [habit.stats]; [es] is the entry
    collection as the upsert left it, and [c] the outcome of the test
    [if (req.body.completed)]. *)
Definition updateStats (off : Z) (es : list HabitEntry.t) (uid id : nat)
    (c : bool) (now : Z) (st : Habit.Stats) : Habit.Stats :=
  if c then
    let total := Habit.totalCompletions st + 1 in
    let yesterday := Clock.startOfDay off (Clock.subtractDays 1 now) in
    let yesterdayEntry :=
      Mongo.findOne (completedOnDay id uid yesterday (Clock.endOfDay off yesterday)) es in
    let streak :=
      match yesterdayEntry with
      | Some _ => Habit.currentStreak st + 1
      | None => 1
      end in
    {| Habit.totalCompletions := total;
       Habit.currentStreak := streak;
       Habit.longestStreak := Z.max (Habit.longestStreak st) streak;
       Habit.completionRate := Habit.completionRate st;
       Habit.lastCompleted := Some now |}
  else st.

(** POST /api/habits/:id/entries on a typed body.  The final
    [req.user.updateStreak()] writes the User document only and is not
    part of this state. *)
Definition postEntry (off : Z) (db : Db) (uid id : nat) (b : Body) (now : Z)
    : Db * Response (option HabitEntry.t) :=
  if negb (validationOk b) then (db, BadRequest)
  else match findHabit (habits db) id uid with
       | None => (db, NotFound)
       | Some habit =>
           let '(es, fresh, entry) := upsertToday off db uid id b now in
           let habit' :=
             {| Habit.user := Habit.user habit; Habit.name := Habit.name habit;
                Habit.isActive := Habit.isActive habit;
                Habit.stats :=
                  updateStats off es uid id (completed b) now (Habit.stats habit) |} in
           ({| habits := <[id := habit']> (habits db); entries := es; nextId := fresh |},
            Ok entry)
       end.

(** [req.body] of the same request, raw form.  [completed] and [value] are
    as sent ([isBoolean] and [isInt] accept strings, and the chain has no
    sanitizer); [habit], [user] and [date] are the keys of the HabitEntry
    schema that a body may carry beside the declared ones, already read as
    an ObjectId or a Date.  (A body without [completed] is rejected, as one
    with [VNum 2] is.) *)
Record RawBody := mkRawBody {
  raw_completed : JS.Value;
  raw_value : option JS.Value;
  raw_notes : option string;
  raw_habit : option nat;
  raw_user : option nat;
  raw_date : option Z
}.

(** The validator chain on the raw body. *)
Definition rawValidationOk (b : RawBody) : bool :=
  JS.isBoolean (raw_completed b) &&
  match raw_value b with
  | Some v => JS.isInt (Some 0) None v
  | None => true
  end &&
  match raw_notes b with
  | Some s => (String.length s <=? 500)%nat
  | None => true
  end.

(** Mongoose's cast of the declared fields to the types of the schema;
    [None] is a CastError. *)
Definition castBody (b : RawBody) : option Body :=
  c ← JS.toBoolean (raw_completed b);
  v ← match raw_value b with
      | Some v => Some <$> JS.toNumber v
      | None => Some None
      end;
  Some {| completed := c; value := v; notes := raw_notes b |}.

(** The update document [req.body], whole, applied to an entry:
    HabitEntry.findByIdAndUpdate(entry._id, req.body, ...) sets every key
    of the schema that the body carries. *)
Definition applyRawBody (b : RawBody) (cb : Body) (e : HabitEntry.t) : HabitEntry.t :=
  let e' := applyBody cb e in
  {| HabitEntry._id := HabitEntry._id e';
     HabitEntry.habit := default (HabitEntry.habit e') (raw_habit b);
     HabitEntry.user := default (HabitEntry.user e') (raw_user b);
     HabitEntry.date := default (HabitEntry.date e') (raw_date b);
     HabitEntry.completed := HabitEntry.completed e';
     HabitEntry.value := HabitEntry.value e';
     HabitEntry.notes := HabitEntry.notes e' |}.

(** The key of the unique index { user: 1, habit: 1, date: -1 }. *)
Definition indexKey (e : HabitEntry.t) : nat * nat * Z :=
  (HabitEntry.user e, HabitEntry.habit e, HabitEntry.date e).

(** POST /api/habits/:id/entries on the raw body.  The create path spreads
    [req.body] under [habit], [user] and [date], so that the new entry is
    the one of the cast body; it cannot meet the unique index, since the
    query found no entry of the key dated at the start of today.  The
    update path can. *)
Definition postEntryRaw (off : Z) (db : Db) (uid id : nat) (b : RawBody) (now : Z)
    : Db * Response (option HabitEntry.t) :=
  if negb (rawValidationOk b) then (db, BadRequest)
  else match findHabit (habits db) id uid with
       | None => (db, NotFound)
       | Some habit =>
           let today := Clock.startOfDay off now in
           let endOfDay := Clock.endOfDay off today in
           match castBody b with
           | None => (db, ServerError)
           | Some cb =>
               match Mongo.findOne (onDay id uid today endOfDay) (entries db) with
               | Some entry =>
                   if Mongo.duplicateKey HabitEntry._id indexKey
                        (applyRawBody b cb entry) (entries db)
                   then (db, ServerError)
                   else
                     let r := Mongo.findByIdAndUpdate HabitEntry._id (HabitEntry._id entry)
                                (applyRawBody b cb) (entries db) in
                     let habit' :=
                       {| Habit.user := Habit.user habit; Habit.name := Habit.name habit;
                          Habit.isActive := Habit.isActive habit;
                          Habit.stats :=
                            updateStats off r.1 uid id (JS.truthy (raw_completed b)) now
                              (Habit.stats habit) |} in
                     ({| habits := <[id := habit']> (habits db); entries := r.1;
                         nextId := nextId db |}, Ok r.2)
               | None =>
                   let entry := newEntry (nextId db) id uid today cb in
                   let es := entries db ++ [entry] in
                   let habit' :=
                     {| Habit.user := Habit.user habit; Habit.name := Habit.name habit;
                        Habit.isActive := Habit.isActive habit;
                        Habit.stats :=
                          updateStats off es uid id (JS.truthy (raw_completed b)) now
                            (Habit.stats habit) |} in
                   ({| habits := <[id := habit']> (habits db); entries := es;
                       nextId := S (nextId db) |}, Ok (Some entry))
               end
           end
       end.

(** A typed body as the raw body of a client that sends a JSON boolean, a
    JSON number and the declared keys only. *)
Definition ofBody (b : Body) : RawBody :=
  {| raw_completed := JS.VBool (completed b);
     raw_value := JS.VNum <$> value b;
     raw_notes := notes b;
     raw_habit := None; raw_user := None; raw_date := None |}.

(** The owner key of an entry: (user, habit). *)
Definition owner (e : HabitEntry.t) : nat * nat :=
  (HabitEntry.user e, HabitEntry.habit e).

(** The invariant of the entry collection. *)
Definition wf (off : Z) (db : Db) : Prop :=
  Daily.wfDocs HabitEntry._id owner HabitEntry.date off (entries db) (nextId db).

(** The stored entries of user [uid] and habit [id] for the calendar day
    starting at [day]. *)
Definition entriesOfDay (off : Z) (db : Db) (uid id : nat) (day : Z)
    : list HabitEntry.t :=
  Daily.ofDay owner HabitEntry.date off (uid, id) day (entries db).


(** The [period] switch of GET /api/habits/stats, with the default
    ['week'] of the destructuring. *)
Definition startDate (off now : Z) (period : option string) : Z :=
  let period := default "week"%string period in
  if String.eqb period "week" then
    Clock.startOfDay off (Clock.subtractDays 7 now)
  else if String.eqb period "month" then
    Clock.startOfDay off (Clock.subtractDays 30 now)
  else if String.eqb period "year" then
    Clock.startOfDay off (Clock.subtractDays 365 now)
  else
    Clock.startOfDay off (Clock.subtractDays 7 now).

Record TopHabit := mkTopHabit {
  th_id : nat;
  th_name : string;
  th_streak : Z
}.

Record Stats := mkStats {
  totalHabits : nat;
  totalCompletions : nat;
  completionRate : Z;
  topHabits : list TopHabit
}.

(** The [stats] object built from the two query results. *)
Definition stats (hs : list (nat * Habit.t)) (es : list HabitEntry.t) : Stats :=
  {| totalHabits := length hs;
     totalCompletions := length es;
     completionRate :=
       if (0 <? length hs)%nat
       then JS.mathRound
              (JS.mul (JS.div (inject_Z (Z.of_nat (length es)))
                              (inject_Z (Z.of_nat (length hs) * 7))) 100)
       else 0;
     topHabits :=
       (λ h, {| th_id := h.1; th_name := Habit.name h.2;
                th_streak := Habit.currentStreak (Habit.stats h.2) |})
       <$> take 5
             (JS.sortBy (λ a b, Habit.currentStreak (Habit.stats b.2)
                                - Habit.currentStreak (Habit.stats a.2)) hs) |}.

(** Habit.find({ user: uid, isActive: true }). *)
Definition activeHabits (db : Db) (uid : nat) : list (nat * Habit.t) :=
  filter (λ h, Habit.user h.2 = uid ∧ Habit.isActive h.2 = true)
         (map_to_list (habits db)).

(** HabitEntry.find({ user: uid, date: { $gte: startDate }, completed: true }). *)
Definition completedSince (db : Db) (uid : nat) (start : Z) : list HabitEntry.t :=
  filter (λ e, HabitEntry.user e = uid ∧ start ≤ HabitEntry.date e
               ∧ HabitEntry.completed e = true)
         (entries db).

(** GET /api/habits/stats. *)
Definition getStats (off : Z) (db : Db) (uid : nat) (period : option string)
    (now : Z) : Stats :=
  stats (activeHabits db uid) (completedSince db uid (startDate off now period)).

(** DELETE /api/habits/:id: Habit.findOneAndDelete({ _id: id, user: uid }),
    then HabitEntry.deleteMany({ habit: id }). *)
Definition deleteHabit (db : Db) (uid id : nat) : Db * Response unit :=
  match findHabit (habits db) id uid with
  | None => (db, NotFound)
  | Some _ =>
      ({| habits := delete id (habits db);
          entries := filter (λ e, HabitEntry.habit e ≠ id) (entries db);
          nextId := nextId db |}, Ok tt)
  end.




(** GET /api/habits/:id/entries.  [startDate] and [endDate] are the
    instants that the query strings denote, when they are given; the sort
    is { date: -1 }. *)
Definition getEntries (off : Z) (db : Db) (uid id : nat)
    (startDate endDate : option Z) (now : Z) : list HabitEntry.t :=
  let start :=
    match startDate with
    | Some s => Clock.startOfDay off s
    | None => Clock.startOfDay off (Clock.subtractDays 30 now)
    end in
  let end_ :=
    match endDate with
    | Some e => Clock.endOfDay off e
    | None => Clock.endOfDay off now
    end in
  JS.sortBy (λ a b, HabitEntry.date b - HabitEntry.date a)
    (filter (λ e, HabitEntry.habit e = id ∧ HabitEntry.user e = uid
                  ∧ start ≤ HabitEntry.date e ≤ end_)
       (entries db)).

End Habits.

(** ** Moods (models/Mood.js, routes/moods.js) *)

Module Mood.

Inductive MoodValue := excellent | good | okay | poor | terrible.

Inductive SleepQuality := sleepExcellent | sleepGood | sleepFair | sleepPoor.

Definition MoodValue_eqb (a b : MoodValue) : bool :=
  match a, b with
  | excellent, excellent | good, good | okay, okay
  | poor, poor | terrible, terrible => true
  | _, _ => false
  end.

Record Sleep := mkSleep {
  hours : option Q;
  quality : option SleepQuality
}.

Record t := mk {
  _id : nat;
  user : nat;
  date : Z;
  mood : MoodValue;
  energy : option Z;     (* default: 5 *)
  stress : option Z;     (* default: 5 *)
  sleep : Sleep;
  notes : option string
}.

End Mood.

Module Moods.

(** Body of POST /api/moods, typed form. *)
Record Body := mkBody {
  mood : Mood.MoodValue;
  energy : option Z;
  stress : option Z;
  notes : option string
}.

Definition between1and10 (x : option Z) : bool :=
  match x with
  | Some v => (1 <=? v) && (v <=? 10)
  | None => true
  end.

(** body('mood').isIn([...]) holds by typing;
    body('energy'/'stress').optional().isInt({ min: 1, max: 10 }),
    body('notes').optional().isLength({ max: 1000 }). *)
Definition validationOk (b : Body) : bool :=
  between1and10 (energy b) && between1and10 (stress b) &&
  match notes b with
  | Some s => (String.length s <=? 1000)%nat
  | None => true
  end.

Record Db := mkDb {
  moods : list Mood.t;
  nextId : nat
}.

(** The filter { user: uid, date: { $gte: lo, $lt: hi } }. *)
Definition onDay (uid : nat) (lo hi : Z) (m : Mood.t) : bool :=
  (Mood.user m =? uid)%nat && Clock.inRange lo hi (Mood.date m).

(** The declared keys of the update document { ...req.body, date: today };
    [notes] has [trim: true].  The whole document is [applyRawBody]
    below. *)
Definition applyBody (b : Body) (today : Z) (m : Mood.t) : Mood.t :=
  {| Mood._id := Mood._id m;
     Mood.user := Mood.user m;
     Mood.date := today;
     Mood.mood := mood b;
     Mood.energy := match energy b with Some v => Some v | None => Mood.energy m end;
     Mood.stress := match stress b with Some v => Some v | None => Mood.stress m end;
     Mood.sleep := Mood.sleep m;
     Mood.notes :=
       match notes b with
       | Some s => Some (JS.trim s)
       | None => Mood.notes m
       end |}.

(** new Mood({ ...req.body, user: uid, date: today }), with the schema
    defaults for [energy] and [stress]. *)
Definition newMood (fresh uid : nat) (today : Z) (b : Body) : Mood.t :=
  {| Mood._id := fresh;
     Mood.user := uid;
     Mood.date := today;
     Mood.mood := mood b;
     Mood.energy := Some (default 5 (energy b));
     Mood.stress := Some (default 5 (stress b));
     Mood.sleep := {| Mood.hours := None; Mood.quality := None |};
     Mood.notes := JS.trim <$> notes b |}.

(** POST /api/moods on a typed body. *)
Definition postMood (off : Z) (db : Db) (uid : nat) (b : Body) (now : Z)
    : Db * Response (option Mood.t) :=
  if negb (validationOk b) then (db, BadRequest)
  else
    let today := Clock.startOfDay off now in
    let endOfDay := Clock.endOfDay off today in
    match Mongo.findOne (onDay uid today endOfDay) (moods db) with
    | Some m =>
        let r := Mongo.findByIdAndUpdate Mood._id (Mood._id m)
                   (applyBody b today) (moods db) in
        ({| moods := r.1; nextId := nextId db |}, Ok r.2)
    | None =>
        let m := newMood (nextId db) uid today b in
        ({| moods := moods db ++ [m]; nextId := S (nextId db) |}, Ok (Some m))
    end.

(** [req.body] of the same request, raw form.  [energy] and [stress] are
    as sent; [user], [date] and [sleep] are the keys of the Mood schema
    that a body may carry beside the declared ones.  ([mood] is tested by
    [isIn]: a body with another mood, or without one, is rejected as one
    with an energy of 0 is.) *)
Record RawBody := mkRawBody {
  raw_mood : Mood.MoodValue;
  raw_energy : option JS.Value;
  raw_stress : option JS.Value;
  raw_notes : option string;
  raw_user : option nat;
  raw_date : option Z;
  raw_sleep : option Mood.Sleep
}.

Definition isScale (x : option JS.Value) : bool :=
  match x with
  | Some v => JS.isInt (Some 1) (Some 10) v
  | None => true
  end.

(** The validator chain on the raw body. *)
Definition rawValidationOk (b : RawBody) : bool :=
  isScale (raw_energy b) && isScale (raw_stress b) &&
  match raw_notes b with
  | Some s => (String.length s <=? 1000)%nat
  | None => true
  end.

(** Mongoose's cast of an optional Number. *)
Definition castScale (x : option JS.Value) : option (option Z) :=
  match x with
  | Some v => Some <$> JS.toNumber v
  | None => Some None
  end.

(** The cast of the declared fields; [None] is a CastError. *)
Definition castBody (b : RawBody) : option Body :=
  e ← castScale (raw_energy b);
  s ← castScale (raw_stress b);
  Some {| mood := raw_mood b; energy := e; stress := s; notes := raw_notes b |}.

(** The validators of the [sleep] path: hours has min 0 and max 24. *)
Definition sleepOk (s : Mood.Sleep) : bool :=
  match Mood.hours s with
  | Some h => Qle_bool 0 h && Qle_bool h 24
  | None => true
  end.

(** The schema validators on the undeclared keys of a body. *)
Definition keysOk (sleep : option Mood.Sleep) : bool :=
  match sleep with
  | Some s => sleepOk s
  | None => true
  end.

(** The update document { ...req.body, date: today }, whole: [date] is
    pinned, [user] and [sleep] are written when the body carries them. *)
Definition applyRawBody (b : RawBody) (cb : Body) (today : Z) (m : Mood.t) : Mood.t :=
  let m' := applyBody cb today m in
  {| Mood._id := Mood._id m';
     Mood.user := default (Mood.user m') (raw_user b);
     Mood.date := Mood.date m';
     Mood.mood := Mood.mood m';
     Mood.energy := Mood.energy m';
     Mood.stress := Mood.stress m';
     Mood.sleep := default (Mood.sleep m') (raw_sleep b);
     Mood.notes := Mood.notes m' |}.

(** new Mood({ ...req.body, user: uid, date: today }): [user] and [date]
    are pinned, [sleep] is the body's. *)
Definition newRawMood (fresh uid : nat) (today : Z) (b : RawBody) (cb : Body) : Mood.t :=
  let m' := newMood fresh uid today cb in
  {| Mood._id := Mood._id m';
     Mood.user := Mood.user m';
     Mood.date := Mood.date m';
     Mood.mood := Mood.mood m';
     Mood.energy := Mood.energy m';
     Mood.stress := Mood.stress m';
     Mood.sleep := default (Mood.sleep m') (raw_sleep b);
     Mood.notes := Mood.notes m' |}.

(** The key of the unique index { user: 1, date: -1 }. *)
Definition indexKey (m : Mood.t) : nat * Z := (Mood.user m, Mood.date m).

(** POST /api/moods on the raw body.  The new mood cannot meet the unique
    index, since the query found no mood of the caller dated at the start
    of today; the update can, through a [user] key. *)
Definition postMoodRaw (off : Z) (db : Db) (uid : nat) (b : RawBody) (now : Z)
    : Db * Response (option Mood.t) :=
  if negb (rawValidationOk b) then (db, BadRequest)
  else
    let today := Clock.startOfDay off now in
    let endOfDay := Clock.endOfDay off today in
    match castBody b with
    | None => (db, ServerError)
    | Some cb =>
        if negb (keysOk (raw_sleep b)) then (db, ServerError)
        else
          match Mongo.findOne (onDay uid today endOfDay) (moods db) with
          | Some m =>
              if Mongo.duplicateKey Mood._id indexKey
                   (applyRawBody b cb today m) (moods db)
              then (db, ServerError)
              else
                let r := Mongo.findByIdAndUpdate Mood._id (Mood._id m)
                           (applyRawBody b cb today) (moods db) in
                ({| moods := r.1; nextId := nextId db |}, Ok r.2)
          | None =>
              let m := newRawMood (nextId db) uid today b cb in
              ({| moods := moods db ++ [m]; nextId := S (nextId db) |}, Ok (Some m))
          end
    end.

(** A typed body as the raw body of a client that sends JSON numbers and
    the declared keys only. *)
Definition ofBody (b : Body) : RawBody :=
  {| raw_mood := mood b;
     raw_energy := JS.VNum <$> energy b;
     raw_stress := JS.VNum <$> stress b;
     raw_notes := notes b;
     raw_user := None; raw_date := None; raw_sleep := None |}.

(** The invariant of the mood collection; the owner key is the user. *)
Definition wf (off : Z) (db : Db) : Prop :=
  Daily.wfDocs Mood._id Mood.user Mood.date off (moods db) (nextId db).

(** The stored moods of user [uid] for the calendar day starting at [day]. *)
Definition moodsOfDay (off : Z) (db : Db) (uid : nat) (day : Z) : list Mood.t :=
  Daily.ofDay Mood.user Mood.date off uid day (moods db).

(** The [period] switch of GET /api/moods/stats. *)
Definition startDate (off now : Z) (period : option string) : Z :=
  let period := default "week"%string period in
  if String.eqb period "week" then
    Clock.startOfDay off (Clock.subtractDays 7 now)
  else if String.eqb period "month" then
    Clock.startOfDay off (Clock.subtractDays 30 now)
  else if String.eqb period "year" then
    Clock.startOfDay off (Clock.subtractDays 365 now)
  else
    Clock.startOfDay off (Clock.subtractDays 7 now).

Record MoodCounts := mkMoodCounts {
  excellent : nat; good : nat; okay : nat; poor : nat; terrible : nat
}.

Record SleepQualityCounts := mkSleepQualityCounts {
  sqExcellent : nat; sqGood : nat; sqFair : nat; sqPoor : nat
}.

(** moodCounts[mood.mood]++ *)
Definition incrMood (v : Mood.MoodValue) (c : MoodCounts) : MoodCounts :=
  match v with
  | Mood.excellent => mkMoodCounts (S (excellent c)) (good c) (okay c) (poor c) (terrible c)
  | Mood.good => mkMoodCounts (excellent c) (S (good c)) (okay c) (poor c) (terrible c)
  | Mood.okay => mkMoodCounts (excellent c) (good c) (S (okay c)) (poor c) (terrible c)
  | Mood.poor => mkMoodCounts (excellent c) (good c) (okay c) (S (poor c)) (terrible c)
  | Mood.terrible => mkMoodCounts (excellent c) (good c) (okay c) (poor c) (S (terrible c))
  end.

(** sleepQualityCounts[mood.sleep.quality]++ *)
Definition incrSleepQuality (q : Mood.SleepQuality) (c : SleepQualityCounts)
    : SleepQualityCounts :=
  match q with
  | Mood.sleepExcellent => mkSleepQualityCounts (S (sqExcellent c)) (sqGood c) (sqFair c) (sqPoor c)
  | Mood.sleepGood => mkSleepQualityCounts (sqExcellent c) (S (sqGood c)) (sqFair c) (sqPoor c)
  | Mood.sleepFair => mkSleepQualityCounts (sqExcellent c) (sqGood c) (S (sqFair c)) (sqPoor c)
  | Mood.sleepPoor => mkSleepQualityCounts (sqExcellent c) (sqGood c) (sqFair c) (S (sqPoor c))
  end.

(** The accumulators of the [moods.forEach] loop. *)
Record Totals := mkTotals {
  moodCounts : MoodCounts;
  totalEnergy : Z;
  totalStress : Z;
  totalSleepHours : Q;
  sleepQualityCounts : SleepQualityCounts
}.

Definition initialTotals : Totals :=
  {| moodCounts := mkMoodCounts 0 0 0 0 0;
     totalEnergy := 0; totalStress := 0; totalSleepHours := 0;
     sleepQualityCounts := mkSleepQualityCounts 0 0 0 0 |}.

(** One iteration of the loop. *)
Definition accumulate (acc : Totals) (m : Mood.t) : Totals :=
  {| moodCounts := incrMood (Mood.mood m) (moodCounts acc);
     totalEnergy := totalEnergy acc + JS.orZero (Mood.energy m);
     totalStress := totalStress acc + JS.orZero (Mood.stress m);
     totalSleepHours :=
       match Mood.hours (Mood.sleep m) with
       | Some h => if Qeq_bool h 0 then totalSleepHours acc
                   else JS.toDouble (totalSleepHours acc + h)
       | None => totalSleepHours acc
       end;
     sleepQualityCounts :=
       match Mood.quality (Mood.sleep m) with
       | Some q => incrSleepQuality q (sleepQualityCounts acc)
       | None => sleepQualityCounts acc
       end |}.

Record TrendPoint := mkTrendPoint {
  tp_date : Z;
  tp_mood : Mood.MoodValue;
  tp_energy : option Z;
  tp_stress : option Z
}.

Record Stats := mkStats {
  totalEntries : nat;
  moodDistribution : MoodCounts;
  averageEnergy : Q;
  averageStress : Q;
  averageSleepHours : Q;
  sleepQualityDistribution : SleepQualityCounts;
  recentTrend : list TrendPoint
}.

(** moods.length > 0 ? Math.round((total / moods.length) * 10) / 10 : 0 *)
Definition average (total : Q) (n : nat) : Q :=
  if (0 <? n)%nat
  then JS.div (inject_Z (JS.mathRound
                           (JS.mul (JS.div total (inject_Z (Z.of_nat n))) 10))) 10
  else 0%Q.

(** The [stats] object built from the query result [ms]. *)
Definition stats (ms : list Mood.t) : Stats :=
  let acc := foldl accumulate initialTotals ms in
  {| totalEntries := length ms;
     moodDistribution := moodCounts acc;
     averageEnergy := average (inject_Z (totalEnergy acc)) (length ms);
     averageStress := average (inject_Z (totalStress acc)) (length ms);
     averageSleepHours := average (totalSleepHours acc) (length ms);
     sleepQualityDistribution := sleepQualityCounts acc;
     recentTrend :=
       (λ m, {| tp_date := Mood.date m; tp_mood := Mood.mood m;
                tp_energy := Mood.energy m; tp_stress := Mood.stress m |})
       <$> take 7 ms |}.

(** Mood.find({ user: uid, date: { $gte: startDate } }). *)
Definition moodsSince (db : Db) (uid : nat) (start : Z) : list Mood.t :=
  filter (λ m, Mood.user m = uid ∧ start ≤ Mood.date m) (moods db).

(** GET /api/moods/stats. *)
Definition getStats (off : Z) (db : Db) (uid : nat) (period : option string)
    (now : Z) : Stats :=
  stats (moodsSince db uid (startDate off now period)).

(** [moodCounts[v]] and [sleepQualityCounts[q]]. *)
Definition moodCount (v : Mood.MoodValue) (c : MoodCounts) : nat :=
  match v with
  | Mood.excellent => excellent c
  | Mood.good => good c
  | Mood.okay => okay c
  | Mood.poor => poor c
  | Mood.terrible => terrible c
  end.

Definition sleepQualityCount (q : Mood.SleepQuality) (c : SleepQualityCounts) : nat :=
  match q with
  | Mood.sleepExcellent => sqExcellent c
  | Mood.sleepGood => sqGood c
  | Mood.sleepFair => sqFair c
  | Mood.sleepPoor => sqPoor c
  end.

(** GET /api/moods/today. *)
Definition getToday (off : Z) (db : Db) (uid : nat) (now : Z) : option Mood.t :=
  let today := Clock.startOfDay off now in
  Mongo.findOne (onDay uid today (Clock.endOfDay off today)) (moods db).

(** Body of PUT /api/moods/:id, typed form: every field is optional. *)
Record PutBody := mkPutBody {
  put_mood : option Mood.MoodValue;
  put_energy : option Z;
  put_stress : option Z;
  put_notes : option string
}.

Definition putValidationOk (b : PutBody) : bool :=
  between1and10 (put_energy b) && between1and10 (put_stress b) &&
  match put_notes b with
  | Some s => (String.length s <=? 1000)%nat
  | None => true
  end.

(** The declared keys of the update document [req.body] of the PUT
    handler; the whole document is [applyRawPut] below. *)
Definition applyPut (b : PutBody) (m : Mood.t) : Mood.t :=
  {| Mood._id := Mood._id m;
     Mood.user := Mood.user m;
     Mood.date := Mood.date m;
     Mood.mood := default (Mood.mood m) (put_mood b);
     Mood.energy := match put_energy b with Some v => Some v | None => Mood.energy m end;
     Mood.stress := match put_stress b with Some v => Some v | None => Mood.stress m end;
     Mood.sleep := Mood.sleep m;
     Mood.notes :=
       match put_notes b with
       | Some s => Some (JS.trim s)
       | None => Mood.notes m
       end |}.

(** The filter { _id: id, user: uid }. *)
Definition ownedBy (uid id : nat) (m : Mood.t) : bool :=
  (Mood._id m =? id)%nat && (Mood.user m =? uid)%nat.

(** PUT /api/moods/:id on a typed body. *)
Definition putMood (db : Db) (uid id : nat) (b : PutBody) : Db * Response Mood.t :=
  if negb (putValidationOk b) then (db, BadRequest)
  else
    let r := Mongo.findOneAndUpdate (ownedBy uid id) (applyPut b) (moods db) in
    match r.2 with
    | None => (db, NotFound)
    | Some m => ({| moods := r.1; nextId := nextId db |}, Ok m)
    end.

(** [req.body] of the same request, raw form, with the keys [user],
    [date] and [sleep] that a body may carry beside the declared ones. *)
Record RawPutBody := mkRawPutBody {
  rput_mood : option Mood.MoodValue;
  rput_energy : option JS.Value;
  rput_stress : option JS.Value;
  rput_notes : option string;
  rput_user : option nat;
  rput_date : option Z;
  rput_sleep : option Mood.Sleep
}.

Definition rawPutValidationOk (b : RawPutBody) : bool :=
  isScale (rput_energy b) && isScale (rput_stress b) &&
  match rput_notes b with
  | Some s => (String.length s <=? 1000)%nat
  | None => true
  end.

Definition castPutBody (b : RawPutBody) : option PutBody :=
  e ← castScale (rput_energy b);
  s ← castScale (rput_stress b);
  Some {| put_mood := rput_mood b; put_energy := e; put_stress := s;
          put_notes := rput_notes b |}.

(** The update document [req.body], whole. *)
Definition applyRawPut (b : RawPutBody) (cb : PutBody) (m : Mood.t) : Mood.t :=
  let m' := applyPut cb m in
  {| Mood._id := Mood._id m';
     Mood.user := default (Mood.user m') (rput_user b);
     Mood.date := default (Mood.date m') (rput_date b);
     Mood.mood := Mood.mood m';
     Mood.energy := Mood.energy m';
     Mood.stress := Mood.stress m';
     Mood.sleep := default (Mood.sleep m') (rput_sleep b);
     Mood.notes := Mood.notes m' |}.

(** PUT /api/moods/:id on the raw body: Mood.findOneAndUpdate({ _id: id,
    user: uid }, req.body, { new: true, runValidators: true }).  The update
    is cast and validated before the query is sent. *)
Definition putMoodRaw (db : Db) (uid id : nat) (b : RawPutBody) : Db * Response Mood.t :=
  if negb (rawPutValidationOk b) then (db, BadRequest)
  else
    match castPutBody b with
    | None => (db, ServerError)
    | Some cb =>
        if negb (keysOk (rput_sleep b)) then (db, ServerError)
        else
          match Mongo.findOne (ownedBy uid id) (moods db) with
          | None => (db, NotFound)
          | Some m =>
              if Mongo.duplicateKey Mood._id indexKey (applyRawPut b cb m) (moods db)
              then (db, ServerError)
              else
                let r := Mongo.findOneAndUpdate (ownedBy uid id) (applyRawPut b cb)
                           (moods db) in
                match r.2 with
                | None => (db, NotFound)
                | Some m' => ({| moods := r.1; nextId := nextId db |}, Ok m')
                end
          end
    end.

(** A typed body as a raw body. *)
Definition ofPutBody (b : PutBody) : RawPutBody :=
  {| rput_mood := put_mood b;
     rput_energy := JS.VNum <$> put_energy b;
     rput_stress := JS.VNum <$> put_stress b;
     rput_notes := put_notes b;
     rput_user := None; rput_date := None; rput_sleep := None |}.

(** DELETE /api/moods/:id. *)
Definition deleteMood (db : Db) (uid id : nat) : Db * Response unit :=
  let r := Mongo.findOneAndDelete (ownedBy uid id) (moods db) in
  match r.2 with
  | None => (db, NotFound)
  | Some _ => ({| moods := r.1; nextId := nextId db |}, Ok tt)
  end.

End Moods.

(** ** Specification-side definitions *)

Module Spec.

(** [round(n / d)] for [d > 0] on the exact quotient, halves upwards, in
    integer arithmetic: the floor of [n/d + 1/2]. *)
Definition roundRatio (n d : Z) : Z := (2 * n + d) `div` (2 * d).

(** The spec's formula for the derived percentage:
    [min(round(currentValue/targetValue*100), 100)] when [targetValue > 0],
    else [0] (also when the target is absent). *)
Definition progressPercentage (currentValue : Z) (targetValue : option Z) : Z :=
  match targetValue with
  | Some tv =>
      if 0 <? tv
      then Z.min (roundRatio (currentValue * 100) tv) 100
      else 0
  | None => 0
  end.

(** The sum has reached the target; an absent target is never reached. *)
Definition reached (sum : Z) (targetValue : option Z) : Prop :=
  ∃ tv, targetValue = Some tv ∧ tv ≤ sum.

(** The sum of the deltas of a sequence of progress requests. *)
Definition sumDeltas (calls : list (Goals.ProgressBody * Z)) : Z :=
  foldr (λ c s, Goals.value c.1 + s) 0 calls.

End Spec.

(** * Properties *)

(** ** JavaScript helpers *)

Lemma mathRound_nonneg (x : Q) : (0 <= x)%Q → 0 ≤ JS.mathRound x.
Proof.
  intros Hx. unfold JS.mathRound.
  change 0 with (Qfloor 0). apply Qfloor_resp_le.
  apply Qle_trans with x; [exact Hx|].
  rewrite <- (Qplus_0_r x) at 1. apply Qplus_le_r. discriminate.
Qed.

(** *** Rounding to the nearest double *)

Section DoubleFacts.
Local Open Scope Q_scope.

Lemma pow2_pos (e : Z) : 0 < JS.pow2 e.
Proof. apply Qpower_0_lt. reflexivity. Qed.

Lemma pow2_add (a b : Z) : JS.pow2 (a + b) == JS.pow2 a * JS.pow2 b.
Proof. apply Qpower_plus. discriminate. Qed.

Lemma pow2_nonneg_Z (n : Z) : (0 <= n)%Z → JS.pow2 n == inject_Z (2 ^ n).
Proof. intros Hn. unfold JS.pow2. symmetry. apply (Zpower_Qpower 2 n Hn). Qed.

Lemma pow2_succ (e : Z) : JS.pow2 (e + 1) == 2 * JS.pow2 e.
Proof. rewrite pow2_add. change (JS.pow2 1) with 2. ring. Qed.

Lemma pow2_pred (e : Z) : 2 * JS.pow2 (e - 1) == JS.pow2 e.
Proof. rewrite <- pow2_succ. replace (e - 1 + 1)%Z with e by lia. reflexivity. Qed.

Lemma pow2_le (n m : Z) : (n <= m)%Z → JS.pow2 n <= JS.pow2 m.
Proof. intros H. apply Qpower_le_compat_l; [done|]. discriminate. Qed.

Lemma pow2_lt_inv (n m : Z) : JS.pow2 n < JS.pow2 m → (n < m)%Z.
Proof. intros H. apply (Qpower_lt_compat_l_inv 2); [done|reflexivity]. Qed.

Lemma Q_as_product (x : Q) : x * inject_Z (Z.pos (Qden x)) == inject_Z (Qnum x).
Proof. destruct x as [p q]. unfold Qeq, Qmult, inject_Z. simpl. lia. Qed.

Lemma pow2_log2_bounds (p : Z) :
  (0 < p)%Z →
  JS.pow2 (Z.log2 p) <= inject_Z p ∧ inject_Z p < 2 * JS.pow2 (Z.log2 p).
Proof.
  intros Hp. pose proof (Z.log2_spec p Hp) as [H1 H2].
  pose proof (Z.log2_nonneg p) as Hl.
  rewrite pow2_nonneg_Z by done. split.
  - by rewrite <- Zle_Qle.
  - change 2 with (inject_Z 2). rewrite <- inject_Z_mult, <- Zlt_Qlt.
    replace (Z.succ (Z.log2 p)) with (Z.log2 p + 1)%Z in H2 by lia.
    rewrite Z.pow_add_r in H2 by lia. lia.
Qed.

(** [JS.ilog2] is the binary exponent. *)
Lemma ilog2_spec (x : Q) :
  0 < x → JS.pow2 (JS.ilog2 x) <= x ∧ x < JS.pow2 (JS.ilog2 x + 1).
Proof.
  intros Hx. unfold JS.ilog2.
  assert (0 < Qnum x)%Z as Hp by (destruct x as [n d]; unfold Qlt in Hx; simpl in *; lia).
  pose proof (pow2_log2_bounds (Qnum x) Hp) as [Hp1 Hp2].
  pose proof (pow2_log2_bounds (Z.pos (Qden x)) eq_refl) as [Hq1 Hq2].
  pose proof (Q_as_product x) as Hx'.
  set (lp := Z.log2 (Qnum x)) in *. set (lq := Z.log2 (Z.pos (Qden x))) in *.
  pose proof (pow2_pos lp) as Ha. pose proof (pow2_pos lq) as Hb.
  pose proof (pow2_pos (lp - lq)) as Ht.
  assert (JS.pow2 (lp - lq) * JS.pow2 lq == JS.pow2 lp) as Hab
    by (rewrite <- pow2_add; by replace (lp - lq + lq)%Z with lp by lia).
  pose proof (pow2_succ (lp - lq)) as Hs. pose proof (pow2_pred (lp - lq)) as Hpr.
  set (P := inject_Z (Qnum x)) in *. set (D := inject_Z (Z.pos (Qden x))) in *.
  set (a := JS.pow2 lp) in *. set (b := JS.pow2 lq) in *.
  set (t := JS.pow2 (lp - lq)) in *.
  destruct (Qle_bool t x) eqn:Hle.
  - apply Qle_bool_iff in Hle. split; [done|].
    set (t1 := JS.pow2 (lp - lq + 1)) in *. nra.
  - assert (x < t) as Hlt.
    { apply Qnot_le_lt. intros H. apply Qle_bool_iff in H. congruence. }
    replace (lp - lq - 1 + 1)%Z with (lp - lq)%Z by lia. fold t. split; [|done].
    set (t0 := JS.pow2 (lp - lq - 1)) in *. nra.
Qed.

Lemma ilog2_inject_Z (z : Z) : (0 < z)%Z → JS.ilog2 (inject_Z z) = Z.log2 z.
Proof.
  intros Hz. unfold JS.ilog2. simpl. rewrite Z.sub_0_r.
  destruct (pow2_log2_bounds z Hz) as [Hlo _].
  by rewrite (proj2 (Qle_bool_iff _ _) Hlo).
Qed.

Lemma roundHalfEven_near (y : Q) :
  inject_Z (JS.roundHalfEven y) - (1 # 2) <= y
  ∧ y <= inject_Z (JS.roundHalfEven y) + (1 # 2).
Proof.
  unfold JS.roundHalfEven.
  pose proof (Qfloor_le y) as Hlo. pose proof (Qlt_floor y) as Hhi.
  set (f := Qfloor y) in *.
  rewrite inject_Z_plus in Hhi. change (inject_Z 1) with 1 in Hhi.
  destruct (Qcompare_spec (y - inject_Z f) (1 # 2)) as [He|Hl|Hg].
  - destruct (Z.even f); rewrite ?inject_Z_plus; change (inject_Z 1) with 1; lra.
  - lra.
  - rewrite inject_Z_plus. change (inject_Z 1) with 1. lra.
Qed.

Lemma roundHalfEven_Z (y : Q) (k : Z) : y == inject_Z k → JS.roundHalfEven y = k.
Proof.
  intros Hy. unfold JS.roundHalfEven.
  assert (Qfloor y = k) as -> by (rewrite (Qfloor_comp _ _ Hy); apply Qfloor_Z).
  destruct (Qcompare_spec (y - inject_Z k) (1 # 2)) as [He|Hl|Hg]; [lra|done|lra].
Qed.

Lemma roundHalfEven_nonneg (y : Q) : 0 <= y → (0 <= JS.roundHalfEven y)%Z.
Proof.
  intros Hy. unfold JS.roundHalfEven.
  assert (0 <= Qfloor y)%Z as Hf by (change 0%Z with (Qfloor 0); by apply Qfloor_resp_le).
  destruct (Qcompare _ _); [destruct (Z.even _)| |]; lia.
Qed.

Lemma roundHalfEven_mono (a b : Q) :
  a <= b → (JS.roundHalfEven a <= JS.roundHalfEven b)%Z.
Proof.
  intros Hab. unfold JS.roundHalfEven.
  pose proof (Qfloor_resp_le _ _ Hab) as Hf.
  pose proof (Qfloor_le a) as Ha1. pose proof (Qlt_floor a) as Ha2.
  pose proof (Qfloor_le b) as Hb1. pose proof (Qlt_floor b) as Hb2.
  rewrite inject_Z_plus in Ha2, Hb2. change (inject_Z 1) with 1 in Ha2, Hb2.
  destruct (decide (Qfloor a = Qfloor b)) as [Heq|Hne].
  - rewrite Heq in *. set (f := Qfloor b) in *.
    destruct (Qcompare_spec (a - inject_Z f) (1 # 2)) as [Ea|La|Ga];
      destruct (Qcompare_spec (b - inject_Z f) (1 # 2)) as [Eb|Lb|Gb];
      try lra; try lia; destruct (Z.even f); lia.
  - assert (Qfloor a + 1 <= Qfloor b)%Z as Hlt by lia.
    destruct (Qcompare (a - inject_Z (Qfloor a)) (1 # 2));
      destruct (Qcompare (b - inject_Z (Qfloor b)) (1 # 2));
      repeat (destruct (Z.even _)); lia.
Qed.

(** One rounding moves a positive number by at most its unit roundoff. *)
Lemma nearest_error (x : Q) :
  0 < x →
  x * (1 - JS.unitRoundoff) <= JS.nearest x ∧ JS.nearest x <= x * (1 + JS.unitRoundoff).
Proof.
  intros Hx. unfold JS.nearest.
  destruct (ilog2_spec x Hx) as [Hlo Hhi].
  set (e := JS.ilog2 x) in *.
  pose proof (roundHalfEven_near (x * JS.pow2 (52 - e))) as [Hr1 Hr2].
  set (m := inject_Z (JS.roundHalfEven _)) in *.
  pose proof (pow2_pos (52 - e)) as Hs. pose proof (pow2_pos (e - 52)) as Hu.
  assert (JS.pow2 (52 - e) * JS.pow2 (e - 52) == 1) as Hinv
    by (rewrite <- pow2_add; by replace (52 - e + (e - 52))%Z with 0%Z by lia).
  assert (JS.pow2 (e - 52) == JS.pow2 e * (1 # 4503599627370496)) as Hu'
    by (unfold Z.sub at 1; rewrite pow2_add; reflexivity).
  set (s := JS.pow2 (52 - e)) in *. set (u := JS.pow2 (e - 52)) in *.
  set (t := JS.pow2 e) in *. unfold JS.unitRoundoff.
  assert (x * s * u == x) as Hxsu by (rewrite <- Qmult_assoc, Hinv; ring).
  assert (0 <= (m - x * s + (1 # 2)) * u) as H1 by (apply Qmult_le_0_compat; lra).
  assert (0 <= (x * s + (1 # 2) - m) * u) as H2 by (apply Qmult_le_0_compat; lra).
  split; nra.
Qed.

Lemma nearest_nonneg (x : Q) : 0 < x → 0 <= JS.nearest x.
Proof.
  intros Hx. unfold JS.nearest. apply Qmult_le_0_compat.
  - change 0 with (inject_Z 0). rewrite <- Zle_Qle. apply roundHalfEven_nonneg.
    apply Qmult_le_0_compat; [lra|]. apply Qlt_le_weak, pow2_pos.
  - apply Qlt_le_weak, pow2_pos.
Qed.

(** A rounded positive number stays in its binade. *)
Lemma nearest_bounds (x : Q) :
  0 < x →
  JS.pow2 (JS.ilog2 x) <= JS.nearest x ∧ JS.nearest x <= JS.pow2 (JS.ilog2 x + 1).
Proof.
  intros Hx. unfold JS.nearest.
  destruct (ilog2_spec x Hx) as [Hlo Hhi]. set (e := JS.ilog2 x) in *.
  pose proof (pow2_pos (52 - e)) as Hs. pose proof (pow2_pos (e - 52)) as Hu.
  assert (JS.pow2 e * JS.pow2 (52 - e) == inject_Z (2 ^ 52)) as H52.
  { rewrite <- pow2_add. replace (e + (52 - e))%Z with 52%Z by lia. reflexivity. }
  assert (JS.pow2 (e + 1) * JS.pow2 (52 - e) == inject_Z (2 ^ 53)) as H53.
  { rewrite <- pow2_add. replace (e + 1 + (52 - e))%Z with 53%Z by lia. reflexivity. }
  assert (inject_Z (2 ^ 52) * JS.pow2 (e - 52) == JS.pow2 e) as H52'.
  { change (inject_Z (2 ^ 52)) with (JS.pow2 52). rewrite <- pow2_add.
    by replace (52 + (e - 52))%Z with e by lia. }
  assert (inject_Z (2 ^ 53) * JS.pow2 (e - 52) == JS.pow2 (e + 1)) as H53'.
  { change (inject_Z (2 ^ 53)) with (JS.pow2 53). rewrite <- pow2_add.
    by replace (53 + (e - 52))%Z with (e + 1)%Z by lia. }
  split.
  - rewrite <- H52'. apply Qmult_le_compat_r; [|lra].
    rewrite <- Zle_Qle.
    apply Z.le_trans with (JS.roundHalfEven (inject_Z (2 ^ 52)));
      [by rewrite (roundHalfEven_Z _ (2 ^ 52))|].
    apply roundHalfEven_mono. rewrite <- H52. apply Qmult_le_compat_r; lra.
  - rewrite <- H53'. apply Qmult_le_compat_r; [|lra].
    rewrite <- Zle_Qle.
    apply Z.le_trans with (JS.roundHalfEven (inject_Z (2 ^ 53)));
      [|by rewrite (roundHalfEven_Z _ (2 ^ 53))].
    apply roundHalfEven_mono. rewrite <- H53. apply Qmult_le_compat_r; lra.
Qed.

Lemma nearest_mono (x y : Q) : 0 < x → x <= y → JS.nearest x <= JS.nearest y.
Proof.
  intros Hx Hxy. assert (0 < y) as Hy by lra.
  destruct (ilog2_spec x Hx) as [Hx1 Hx2]. destruct (ilog2_spec y Hy) as [Hy1 Hy2].
  assert (JS.ilog2 x < JS.ilog2 y + 1)%Z as Hle by (apply pow2_lt_inv; lra).
  destruct (decide (JS.ilog2 x = JS.ilog2 y)) as [Heq|Hne].
  - unfold JS.nearest. rewrite Heq. apply Qmult_le_compat_r.
    + rewrite <- Zle_Qle. apply roundHalfEven_mono.
      apply Qmult_le_compat_r; [done|]. apply Qlt_le_weak, pow2_pos.
    + apply Qlt_le_weak, pow2_pos.
  - destruct (nearest_bounds x Hx) as [_ Hnx]. destruct (nearest_bounds y Hy) as [Hny _].
    assert (JS.pow2 (JS.ilog2 x + 1) <= JS.pow2 (JS.ilog2 y)) by (apply pow2_le; lia).
    lra.
Qed.

Lemma toDouble_nonneg (x : Q) : 0 <= x → 0 <= JS.toDouble x.
Proof.
  intros Hx. unfold JS.toDouble.
  destruct (Qcompare_spec x 0) as [He|Hl|Hg]; [lra|lra|by apply nearest_nonneg].
Qed.

Lemma toDouble_error (x : Q) :
  0 <= x →
  x * (1 - JS.unitRoundoff) <= JS.toDouble x
  ∧ JS.toDouble x <= x * (1 + JS.unitRoundoff).
Proof.
  intros Hx. unfold JS.toDouble.
  destruct (Qcompare_spec x 0) as [He|Hl|Hg]; [|lra|by apply nearest_error].
  rewrite He. unfold JS.unitRoundoff. split; lra.
Qed.

(** Rounding keeps the order of non-negative numbers. *)
Lemma toDouble_mono (x y : Q) : 0 <= x → x <= y → JS.toDouble x <= JS.toDouble y.
Proof.
  intros Hx Hxy. unfold JS.toDouble at 1.
  destruct (Qcompare_spec x 0) as [He|Hl|Hg]; [|lra|].
  - apply toDouble_nonneg. lra.
  - unfold JS.toDouble. destruct (Qcompare_spec y 0) as [He'|Hl'|Hg']; [lra|lra|].
    by apply nearest_mono.
Qed.

(** The integers up to [2^53] are doubles. *)
Lemma toDouble_inject_Z (z : Z) :
  (0 <= z <= 2 ^ 53)%Z → JS.toDouble (inject_Z z) == inject_Z z.
Proof.
  intros [Hz0 Hz]. unfold JS.toDouble.
  destruct (Qcompare_spec (inject_Z z) 0) as [He|Hl|Hg].
  - by rewrite He.
  - exfalso. change 0 with (inject_Z 0) in Hl. rewrite <- Zlt_Qlt in Hl. lia.
  - change 0 with (inject_Z 0) in Hg. rewrite <- Zlt_Qlt in Hg.
    unfold JS.nearest. rewrite ilog2_inject_Z by done.
    pose proof (Z.log2_spec z Hg) as [Hl1 Hl2].
    pose proof (Z.log2_nonneg z) as Hl0.
    set (e := Z.log2 z) in *.
    assert (JS.pow2 (52 - e) * JS.pow2 (e - 52) == 1) as Hinv
      by (rewrite <- pow2_add; by replace (52 - e + (e - 52))%Z with 0%Z by lia).
    destruct (decide (e <= 52)%Z) as [He|He].
    + rewrite (roundHalfEven_Z _ (z * 2 ^ (52 - e))).
      * rewrite inject_Z_mult, <- pow2_nonneg_Z by lia.
        rewrite <- Qmult_assoc, Hinv. ring.
      * rewrite inject_Z_mult, <- pow2_nonneg_Z by lia. reflexivity.
    + assert (e = 53%Z) as ->.
      { destruct (decide (e = 53%Z)) as [|Hne]; [done|]. exfalso.
        assert (2 ^ 54 <= 2 ^ e)%Z by (apply Z.pow_le_mono_r; lia). lia. }
      assert (z = (2 ^ 53)%Z) as -> by lia.
      rewrite (roundHalfEven_Z _ (2 ^ 52)); reflexivity.
Qed.





End DoubleFacts.

(** The sum of two doubles that hold integers is exact up to [2^53]. *)
Lemma roundInt_exact (z : Z) : 0 ≤ z ≤ 2 ^ 53 → JS.roundInt z = z.
Proof.
  intros H. unfold JS.roundInt. rewrite (Qfloor_comp _ _ (toDouble_inject_Z _ H)).
  apply Qfloor_Z.
Qed.

Lemma add_exact (a b : Z) : 0 ≤ a + b ≤ 2 ^ 53 → JS.add a b = a + b.
Proof. apply roundInt_exact. Qed.

Lemma forEachIn_lookup {A : Type} (f : A → A) (order : list nat) :
  NoDup order →
  ∀ (arr : list A) (i : nat),
    JS.forEachIn order f arr !! i =
    if decide (i ∈ order) then f <$> arr !! i else arr !! i.
Proof.
  unfold JS.forEachIn.
  induction 1 as [|j order Hj Hnd IH]; intros arr i; simpl.
  - destruct (decide (i ∈ [])) as [Hin|Hin]; [by apply elem_of_nil in Hin|done].
  - rewrite IH. destruct (decide (i = j)) as [->|Hne].
    + rewrite (decide_False (P := j ∈ order)) by done.
      rewrite decide_True by apply list_elem_of_here.
      by rewrite list_lookup_alter_eq.
    + rewrite list_lookup_alter_ne by done.
      destruct (decide (i ∈ order)) as [Hin|Hin].
      * rewrite decide_True by (by apply list_elem_of_further). done.
      * rewrite decide_False; [done|].
        intros [?|?]%elem_of_cons; done.
Qed.

(** Visiting every position once, in any order, is [map]. *)
Lemma forEachIn_perm {A : Type} (f : A → A) (order : list nat) (arr : list A) :
  order ≡ₚ seq 0 (length arr) → JS.forEachIn order f arr = f <$> arr.
Proof.
  intros Hp. apply list_eq. intros i.
  rewrite forEachIn_lookup by (rewrite Hp; apply NoDup_seq).
  rewrite list_lookup_fmap.
  case_decide as Hin; [done|].
  rewrite Hp, elem_of_seq in Hin.
  rewrite lookup_ge_None_2 by lia. done.
Qed.

Lemma forEach_fmap {A : Type} (f : A → A) (arr : list A) :
  JS.forEach f arr = f <$> arr.
Proof. by apply forEachIn_perm. Qed.

(** *** Values that the validators accept do cast *)


Lemma isInt_toNumber (min max : option Z) (v : JS.Value) :
  JS.isInt min max v = true → is_Some (JS.toNumber v).
Proof.
  destruct v as [b|n|s]; simpl; [done|intros _; exists n; reflexivity|].
  destruct (JS.integerOfString s) as [k|]; [|done].
  intros _. exists (JS.roundInt k). reflexivity.
Qed.

(** A falsy value that [isBoolean] accepts is [false] or [0], and is cast
    to [false]. *)
Lemma falsy_toBoolean (v : JS.Value) :
  JS.isBoolean v = true → JS.truthy v = false → JS.toBoolean v = Some false.
Proof.
  destruct v as [b|n|s]; simpl.
  - by intros _ ->.
  - intros _ Hz%negb_false_iff. apply Z.eqb_eq in Hz as ->. done.
  - intros Hb He%negb_false_iff. apply String.eqb_eq in He as ->. done.
Qed.

(** ** Days *)

Section ClockFacts.
Variable off : Z.

Lemma msPerDay_pos : 1 < Clock.msPerDay.
Proof. reflexivity. Qed.

Lemma startOfDay_bounds (t : Z) :
  Clock.startOfDay off t ≤ t < Clock.startOfDay off t + Clock.msPerDay.
Proof.
  unfold Clock.startOfDay.
  pose proof msPerDay_pos.
  pose proof (Z.mod_pos_bound (t + off) Clock.msPerDay). lia.
Qed.

Lemma startOfDay_within (s t : Z) :
  Clock.startOfDay off s = s → s ≤ t < s + Clock.msPerDay →
  Clock.startOfDay off t = s.
Proof.
  unfold Clock.startOfDay. intros Hs Ht.
  pose proof msPerDay_pos as HD.
  assert ((s + off) `mod` Clock.msPerDay = 0) as H0 by lia.
  apply Z.mod_divide in H0 as [c Hc]; [|lia].
  rewrite <- (Z.mod_unique (t + off) Clock.msPerDay c (t - s)); lia.
Qed.

Lemma startOfDay_idem (t : Z) :
  Clock.startOfDay off (Clock.startOfDay off t) = Clock.startOfDay off t.
Proof.
  pose proof (startOfDay_bounds t) as Hb.
  pose proof msPerDay_pos as HD.
  unfold Clock.startOfDay in *.
  set (r := (t + off) `mod` Clock.msPerDay) in *.
  assert ((t - r + off) `mod` Clock.msPerDay = 0) as ->; [|lia].
  apply Z.mod_divide; [lia|].
  exists ((t + off) `div` Clock.msPerDay).
  pose proof (Z.div_mod (t + off) Clock.msPerDay). unfold r. lia.
Qed.

Lemma startOfDay_subtractDays (n t : Z) :
  Clock.startOfDay off (Clock.subtractDays n t)
  = Clock.startOfDay off t - n * Clock.msPerDay.
Proof.
  unfold Clock.startOfDay, Clock.subtractDays.
  replace (t - n * Clock.msPerDay + off) with (t + off + (- n) * Clock.msPerDay) by lia.
  rewrite Z.mod_add by (pose proof msPerDay_pos; lia). lia.
Qed.

Lemma endOfDay_startOfDay (t : Z) :
  Clock.endOfDay off (Clock.startOfDay off t)
  = Clock.startOfDay off t + Clock.msPerDay - 1.
Proof. unfold Clock.endOfDay. by rewrite startOfDay_idem. Qed.

Lemma inRange_spec (lo hi d : Z) : Clock.inRange lo hi d = true ↔ lo ≤ d < hi.
Proof. unfold Clock.inRange. rewrite andb_true_iff, Z.leb_le, Z.ltb_lt. done. Qed.

End ClockFacts.

(** ** Lists of documents *)

Section ListFacts.
Context {A : Type}.

Lemma filter_none (P : A → Prop) `{!∀ x, Decision (P x)} (l : list A) :
  (∀ x, x ∈ l → ¬ P x) → filter P l = [].
Proof.
  intros Hall. apply elem_of_nil_inv. intros x [Hp Hx]%list_elem_of_filter.
  by apply (Hall x).
Qed.

Lemma find_Some_split (f : A → bool) (l : list A) (x : A) :
  List.find f l = Some x →
  ∃ l1 l2, l = l1 ++ x :: l2 ∧ f x = true ∧ Forall (λ y, f y = false) l1.
Proof.
  induction l as [|y l IH]; simpl; [done|].
  destruct (f y) eqn:Hy.
  - intros [= ->]. exists [], l. by repeat split.
  - intros (l1 & l2 & -> & Hx & Hl1)%IH. exists (y :: l1), l2.
    repeat split; [done|]. by constructor.
Qed.

Lemma find_None_Forall (f : A → bool) (l : list A) :
  List.find f l = None → Forall (λ y, f y = false) l.
Proof.
  induction l as [|y l IH]; simpl; [by constructor|].
  destruct (f y) eqn:Hy; [done|]. intros Hn. constructor; auto.
Qed.

Lemma find_skip (f : A → bool) (l1 : list A) (x : A) (l2 : list A) :
  f x = false → List.find f (l1 ++ x :: l2) = List.find f (l1 ++ l2).
Proof.
  intros Hx. induction l1 as [|y l1 IH]; simpl; [by rewrite Hx|].
  by destruct (f y).
Qed.

Lemma find_first (f : A → bool) (l1 : list A) (x : A) (l2 : list A) :
  Forall (λ y, f y = false) l1 → f x = true → List.find f (l1 ++ x :: l2) = Some x.
Proof.
  intros Hl1 Hx. induction Hl1 as [|y l1 Hy _ IH]; simpl; [by rewrite Hx|].
  by rewrite Hy.
Qed.

Lemma findByIdAndUpdate_split (ident : A → nat) (id : nat) (upd : A → A)
    (l1 : list A) (x : A) (l2 : list A) :
  Forall (λ y, ident y ≠ id) l1 → ident x = id →
  Mongo.findByIdAndUpdate ident id upd (l1 ++ x :: l2)
  = (l1 ++ upd x :: l2, Some (upd x)).
Proof.
  intros Hl1 Hx. induction Hl1 as [|y l1 Hy _ IH]; simpl.
  - by rewrite Hx, Nat.eqb_refl.
  - rewrite (proj2 (Nat.eqb_neq _ _) Hy), IH. done.
Qed.

Lemma NoDup_fmap_split {B : Type} (f : A → B) (l1 : list A) (x : A) (l2 : list A) :
  NoDup (f <$> (l1 ++ x :: l2)) →
  Forall (λ y, f y ≠ f x) l1 ∧ Forall (λ y, f y ≠ f x) l2.
Proof.
  rewrite fmap_app, fmap_cons.
  intros (_ & Hdisj & [Hx _]%NoDup_cons)%NoDup_app.
  split; apply Forall_forall; intros y Hy Heq.
  - apply (Hdisj (f y)); [by apply list_elem_of_fmap_2|].
    rewrite Heq. apply list_elem_of_here.
  - apply Hx. rewrite <- Heq. by apply list_elem_of_fmap_2.
Qed.

Lemma fmap_replace {B : Type} (f : A → B) (l1 : list A) (x x' : A) (l2 : list A) :
  f x' = f x → f <$> (l1 ++ x' :: l2) = f <$> (l1 ++ x :: l2).
Proof. intros Heq. by rewrite !fmap_app, !fmap_cons, Heq. Qed.

Lemma NoDup_fmap_inj_on {B : Type} (f : A → B) (l : list A) (x y : A) :
  NoDup (f <$> l) → x ∈ l → y ∈ l → f x = f y → x = y.
Proof.
  induction l as [|z l IH]; [by intros _ ?%elem_of_nil|].
  rewrite fmap_cons, NoDup_cons.
  intros [Hz Hnd] [->|Hx]%elem_of_cons [->|Hy]%elem_of_cons Heq; [done| | |by apply IH].
  - destruct Hz. rewrite Heq. by apply list_elem_of_fmap_2.
  - destruct Hz. rewrite <- Heq. by apply list_elem_of_fmap_2.
Qed.

Lemma filter_all (P : A → Prop) `{!∀ x, Decision (P x)} (l : list A) :
  Forall P l → filter P l = l.
Proof.
  induction 1 as [|x l Hx _ IH]; [done|]. by rewrite filter_cons_True, IH.
Qed.

Lemma fmap_if_id (ident : A → nat) (id : nat) (f : A → A) (l : list A) :
  Forall (λ y, ident y ≠ id) l →
  (λ x, if (ident x =? id)%nat then f x else x) <$> l = l.
Proof.
  induction 1 as [|x l Hx _ IH]; [done|].
  by rewrite fmap_cons, IH, (proj2 (Nat.eqb_neq _ _) Hx).
Qed.


(** An update that keeps the key of the document it writes does not meet
    the unique index. *)
Lemma duplicateKey_unchanged {K : Type} `{EqDecision K} (ident : A → nat) (key : A → K)
    (docs : list A) (d d' : A) :
  NoDup (key <$> docs) → d ∈ docs → ident d' = ident d → key d' = key d →
  Mongo.duplicateKey ident key d' docs = false.
Proof.
  intros Hnd Hd Hid Hk. unfold Mongo.duplicateKey.
  apply bool_decide_eq_false. intros (x & Hx & Hne & Hkey)%Exists_exists.
  assert (x = d) as -> by (apply (NoDup_fmap_inj_on key docs); (done || congruence)).
  by rewrite Hid in Hne.
Qed.

(** A write that the unique index lets through keeps the keys distinct. *)
Lemma duplicateKey_NoDup {K : Type} `{EqDecision K} (ident : A → nat) (key : A → K)
    (l1 l2 : list A) (d d' : A) :
  NoDup (ident <$> (l1 ++ d :: l2)) → NoDup (key <$> (l1 ++ d :: l2)) →
  ident d' = ident d →
  Mongo.duplicateKey ident key d' (l1 ++ d :: l2) = false →
  NoDup (key <$> (l1 ++ d' :: l2)).
Proof.
  intros Hids Hkeys Hid Hdup.
  destruct (NoDup_fmap_split ident _ _ _ Hids) as [Hid1 Hid2].
  assert (∀ x, x ∈ l1 ++ l2 → key x ≠ key d') as Hfree.
  { intros x Hx Hkx. apply bool_decide_eq_false in Hdup. apply Hdup.
    apply Exists_exists. exists x. split.
    - apply elem_of_app in Hx as [Hx|Hx];
        apply elem_of_app; [by left|right; by apply list_elem_of_further].
    - split; [|done]. rewrite Hid.
      rewrite Forall_forall in Hid1, Hid2.
      apply elem_of_app in Hx as [Hx|Hx]; auto. }
  rewrite fmap_app, fmap_cons in Hkeys |- *.
  apply NoDup_app in Hkeys as (Hk1 & Hdisj & [_ Hk2]%NoDup_cons).
  apply NoDup_app. split; [done|]. split.
  - intros k Hk [->|Hk']%elem_of_cons.
    + apply list_elem_of_fmap in Hk as (x & Hkx & Hx).
      apply (Hfree x); [apply elem_of_app; by left|done].
    + apply (Hdisj k Hk). by apply list_elem_of_further.
  - apply NoDup_cons. split; [|done].
    intros (x & Hkx & Hx)%list_elem_of_fmap.
    apply (Hfree x); [apply elem_of_app; by right|done].
Qed.

End ListFacts.

(** ** Goals *)

Section GoalFacts.
Import Goals.

Section PercentageFacts.
Local Open Scope Q_scope.

(** The double that [(cv / tv) * 100] evaluates to, seen through its
    product with [tv]: two roundings away from [100 * cv]. *)
Lemma percentage_scaled (cv tv : Z) :
  (0 <= cv)%Z → (0 < tv)%Z →
  let d := JS.mul (JS.div (inject_Z cv) (inject_Z tv)) 100 in
  0 <= d
  ∧ 100 * inject_Z cv * ((1 - JS.unitRoundoff) * (1 - JS.unitRoundoff)) <= d * inject_Z tv
  ∧ d * inject_Z tv <= 100 * inject_Z cv * ((1 + JS.unitRoundoff) * (1 + JS.unitRoundoff)).
Proof.
  intros Hcv Htv d. unfold d, JS.mul, JS.div.
  assert (0 <= inject_Z cv) as HC by (change 0 with (inject_Z 0); by rewrite <- Zle_Qle).
  assert (0 < inject_Z tv) as HT by (change 0 with (inject_Z 0); by rewrite <- Zlt_Qlt).
  set (C := inject_Z cv) in *. set (T := inject_Z tv) in *.
  assert (0 <= C / T) as HA by (apply Qle_shift_div_l; [done|lra]).
  assert (C / T * T == C) as HAT by (field; lra).
  pose proof (toDouble_nonneg _ HA) as Hd1.
  destruct (toDouble_error _ HA) as [Hd1lo Hd1hi].
  set (d1 := JS.toDouble (C / T)) in *.
  assert (0 <= d1 * 100) as Hd1' by lra.
  pose proof (toDouble_nonneg _ Hd1') as Hd2.
  destruct (toDouble_error _ Hd1') as [Hd2lo Hd2hi].
  set (d2 := JS.toDouble (d1 * 100)) in *.
  set (A := C / T) in *. unfold JS.unitRoundoff in *.
  assert (0 <= (d1 - A * (1 - (1 # 9007199254740992))) * T) as H1
    by (apply Qmult_le_0_compat; lra).
  assert (0 <= (A * (1 + (1 # 9007199254740992)) - d1) * T) as H2
    by (apply Qmult_le_0_compat; lra).
  assert (0 <= (d2 - d1 * 100 * (1 - (1 # 9007199254740992))) * T) as H3
    by (apply Qmult_le_0_compat; lra).
  assert (0 <= (d1 * 100 * (1 + (1 # 9007199254740992)) - d2) * T) as H4
    by (apply Qmult_le_0_compat; lra).
  split; [done|]. split; nra.
Qed.


End PercentageFacts.

Lemma percentage_nonneg (cv tv : Z) :
  0 ≤ cv → 0 < tv →
  0 ≤ JS.mathRound (JS.mul (JS.div (inject_Z cv) (inject_Z tv)) 100).
Proof.
  intros Hcv Htv. apply mathRound_nonneg.
  by apply (percentage_scaled cv tv).
Qed.





(** The milestone pass of [applyProgress] is the callback applied to
    every milestone. *)
Lemma applyProgress_milestones (goal : Goal) (b : ProgressBody) (now : Z) :
  milestones (applyProgress goal b now)
  = checkMilestone (currentValue goal + value b) now <$> milestones goal.
Proof.
  unfold applyProgress; simpl.
  destruct (milestones goal) as [|m ms] eqn:Hms; [done|].
  change (0 <? length (m :: ms))%nat with true. cbv iota.
  apply forEach_fmap.
Qed.

Lemma postProgress_found (goals : gmap nat Goal) (uid id : nat)
    (b : ProgressBody) (now : Z) (goal : Goal) :
  validationOk b = true → findOne goals id uid = Some goal →
  postProgress goals uid id b now
  = (<[id := applyProgress goal b now]> goals, Ok (applyProgress goal b now)).
Proof. intros Hv Hf. unfold postProgress. by rewrite Hv, Hf. Qed.

(** C4. One accepted progress request flips every milestone that is not
    yet completed and whose target is at most the updated current value:
    it gets [completed = true] and [completedAt = now] in that same call.
    The other milestones, among them the ones already completed, are
    left as they are, and visiting the milestones in any other order
    gives the same list. *)
Theorem postProgress_milestones (goals : gmap nat Goal) (uid id : nat)
    (b : ProgressBody) (now : Z) (goal : Goal) :
  validationOk b = true →
  findOne goals id uid = Some goal →
  ∃ goal',
    postProgress goals uid id b now = (<[id := goal']> goals, Ok goal')
    ∧ currentValue goal' = currentValue goal + value b
    ∧ length (milestones goal') = length (milestones goal)
    ∧ (∀ i m, milestones goal !! i = Some m →
         (ms_completed m = false → ms_targetValue m ≤ currentValue goal' →
            milestones goal' !! i
            = Some {| ms_title := ms_title m; ms_targetValue := ms_targetValue m;
                      ms_completed := true; ms_completedAt := Some now |})
         ∧ (ms_completed m = true → milestones goal' !! i = Some m)
         ∧ (currentValue goal' < ms_targetValue m → milestones goal' !! i = Some m))
    ∧ (∀ order, order ≡ₚ seq 0 (length (milestones goal)) →
         JS.forEachIn order (checkMilestone (currentValue goal') now) (milestones goal)
         = milestones goal').
Proof.
  intros Hv Hf. exists (applyProgress goal b now).
  split; [by apply postProgress_found|].
  split; [done|].
  rewrite applyProgress_milestones.
  change (currentValue (applyProgress goal b now)) with (currentValue goal + value b).
  set (cv := currentValue goal + value b).
  split; [by rewrite length_fmap|].
  split.
  - intros i m Hi. rewrite list_lookup_fmap, Hi. simpl.
    unfold checkMilestone. repeat split.
    + intros -> Hle. by rewrite (proj2 (Z.leb_le _ _) Hle).
    + by intros ->.
    + intros Hlt. rewrite (proj2 (Z.leb_gt _ _) Hlt). by rewrite andb_false_r.
  - intros order Hp. by apply forEachIn_perm.
Qed.

Lemma postProgress_milestones_witness :
  let g := {| user := 7; title := "Run"; targetValue := Some 12;
              currentValue := 3; deadline := 0; status := active;
              milestones := [ {| ms_title := "half"; ms_targetValue := 6;
                                 ms_completed := false; ms_completedAt := None |};
                              {| ms_title := "all"; ms_targetValue := 12;
                                 ms_completed := false; ms_completedAt := None |} ];
              progress := [] |} in
  ∃ goal',
    (postProgress {[ 1%nat := g ]} 7 1 {| value := 3; notes := None |} 100).2 = Ok goal'
    ∧ milestones goal' !! 0%nat
      = Some {| ms_title := "half"; ms_targetValue := 6;
                ms_completed := true; ms_completedAt := Some 100 |}
    ∧ milestones goal' !! 1%nat
      = Some {| ms_title := "all"; ms_targetValue := 12;
                ms_completed := false; ms_completedAt := None |}.
Proof.
  intros g.
  assert (findOne {[ 1%nat := g ]} 1 7 = Some g) as Hfound
    by (vm_compute; reflexivity).
  destruct (postProgress_milestones {[ 1%nat := g ]} 7 1
              {| value := 3; notes := None |} 100 g eq_refl Hfound)
    as (goal' & Hpost & Hcv & _ & Hflip & _).
  exists goal'. split; [by rewrite Hpost|]. split.
  - apply (Hflip 0%nat _ eq_refl); [reflexivity|]. rewrite Hcv. discriminate.
  - apply (Hflip 1%nat _ eq_refl). rewrite Hcv. reflexivity.
Defined.

(** The scenario of the spec: target 12, milestones at 6 and 12, deltas
    3, 3, 6. *)
Example goal_scenario :
  let g := {| user := 7; title := "Run"; targetValue := Some 12;
              currentValue := 0; deadline := 0; status := active;
              milestones := [ {| ms_title := "half"; ms_targetValue := 6;
                                 ms_completed := false; ms_completedAt := None |};
                              {| ms_title := "all"; ms_targetValue := 12;
                                 ms_completed := false; ms_completedAt := None |} ];
              progress := [] |} in
  let calls := [ ({| value := 3; notes := None |}, 10);
                 ({| value := 3; notes := None |}, 20);
                 ({| value := 6; notes := None |}, 30) ] in
  let view (k : nat) :=
    (λ g', (currentValue g', status g', ms_completed <$> milestones g'))
    <$> goalAfter {[ 1%nat := g ]} 7 1 calls k in
  view 1%nat = Some (3, active, [false; false])
  ∧ view 2%nat = Some (6, active, [true; false])
  ∧ view 3%nat = Some (12, completed, [true; true]).
Proof. vm_compute. done. Qed.

(** *** Sequences of progress requests *)

Lemma applyAll_snoc (g : Goal) calls c :
  applyAll g (calls ++ [c]) = applyProgress (applyAll g calls) c.1 c.2.
Proof. unfold applyAll. by rewrite foldl_app. Qed.

Lemma applyAll_app (g : Goal) l1 l2 :
  applyAll g (l1 ++ l2) = applyAll (applyAll g l1) l2.
Proof. unfold applyAll. by rewrite foldl_app. Qed.

Lemma postProgressAll_found (calls : list (ProgressBody * Z)) :
  ∀ (goals : gmap nat Goal) (uid id : nat) (g : Goal),
    goals !! id = Some g → user g = uid →
    Forall (λ c, validationOk c.1 = true) calls →
    postProgressAll goals uid id calls !! id = Some (applyAll g calls).
Proof.
  induction calls as [|c calls IH]; intros goals uid id g Hg Hu Hv; [done|].
  apply Forall_cons in Hv as [Hc Hv].
  unfold postProgressAll, applyAll. simpl.
  rewrite (postProgress_found _ _ _ _ _ g); [| done |].
  - apply IH; [simpl; by rewrite lookup_insert_eq|done|done].
  - unfold findOne. rewrite Hg, Hu, Nat.eqb_refl. done.
Qed.

Lemma sumDeltas_snoc calls c :
  Spec.sumDeltas (calls ++ [c]) = Spec.sumDeltas calls + value c.1.
Proof.
  unfold Spec.sumDeltas. induction calls as [|d calls IH]; simpl; lia.
Qed.

Lemma applyAll_currentValue calls :
  ∀ g, currentValue (applyAll g calls) = currentValue g + Spec.sumDeltas calls.
Proof.
  induction calls as [|c calls IH] using rev_ind; intros g.
  - simpl. unfold Spec.sumDeltas. simpl. lia.
  - rewrite applyAll_snoc, sumDeltas_snoc. simpl. rewrite IH. lia.
Qed.

Lemma applyAll_targetValue calls :
  ∀ g, targetValue (applyAll g calls) = targetValue g.
Proof.
  induction calls as [|c calls IH] using rev_ind; intros g; [done|].
  rewrite applyAll_snoc. simpl. apply IH.
Qed.

(** The completion flag is one-way under progress requests. *)
Lemma applyProgress_completed_stays (g : Goal) (b : ProgressBody) (now : Z) :
  status g = completed → status (applyProgress g b now) = completed.
Proof. intros H. simpl. rewrite H. by destruct (JS.geOpt _ _). Qed.

Lemma applyAll_completed_stays calls :
  ∀ g, status g = completed → status (applyAll g calls) = completed.
Proof.
  induction calls as [|c calls IH] using rev_ind; intros g Hg; [done|].
  rewrite applyAll_snoc. by apply applyProgress_completed_stays, IH.
Qed.

Lemma applyAll_status calls :
  ∀ g, currentValue g = 0 → status g = active →
    Forall (λ c, validationOk c.1 = true) calls →
    status (applyAll g calls)
    = if (0 <? length calls)%nat && JS.geOpt (Spec.sumDeltas calls) (targetValue g)
      then completed else active.
Proof.
  induction calls as [|c calls IH] using rev_ind; intros g Hcv Hst Hv; [done|].
  apply Forall_app in Hv as [Hv Hc]. rewrite Forall_singleton in Hc.
  apply andb_true_iff in Hc as [Hc%Z.leb_le _].
  rewrite applyAll_snoc, sumDeltas_snoc, length_app. simpl.
  rewrite applyAll_targetValue, applyAll_currentValue, Hcv, Z.add_0_l.
  rewrite (IH g Hcv Hst Hv).
  replace (0 <? length calls + 1)%nat with true
    by (symmetry; apply Nat.ltb_lt; lia).
  simpl. destruct (targetValue g) as [tv|]; simpl.
  - destruct (Z.leb_spec tv (Spec.sumDeltas calls + value c.1)) as [Hge|Hlt].
    + by destruct ((0 <? length calls)%nat && (tv <=? Spec.sumDeltas calls)).
    + rewrite (proj2 (Z.leb_gt _ _)) by lia. by rewrite andb_false_r.
  - by rewrite andb_false_r.
Qed.

Lemma goalAfter_found (goals : gmap nat Goal) (uid id : nat) (g : Goal)
    (calls : list (ProgressBody * Z)) (k : nat) :
  goals !! id = Some g → user g = uid →
  Forall (λ c, validationOk c.1 = true) calls →
  goalAfter goals uid id calls k = Some (applyAll g (take k calls)).
Proof.
  intros Hg Hu Hv. unfold goalAfter.
  apply postProgressAll_found; [done|done|by apply Forall_take].
Qed.

(** *** The raw request at a JSON number *)

Lemma validationOk_nonneg (b : ProgressBody) : validationOk b = true → 0 ≤ value b.
Proof. by intros [?%Z.leb_le _]%andb_true_iff. Qed.

Lemma sumDeltas_nonneg (calls : list (ProgressBody * Z)) :
  Forall (λ c, validationOk c.1 = true) calls → 0 ≤ Spec.sumDeltas calls.
Proof.
  unfold Spec.sumDeltas. induction 1 as [|c calls Hc _ IH]; simpl; [done|].
  apply validationOk_nonneg in Hc. lia.
Qed.

Lemma sumDeltas_take_le (calls : list (ProgressBody * Z)) (k : nat) :
  Forall (λ c, validationOk c.1 = true) calls →
  Spec.sumDeltas (take k calls) ≤ Spec.sumDeltas calls.
Proof.
  intros Hv. rewrite <- (take_drop k calls) at 2.
  assert (∀ l1 l2, Spec.sumDeltas (l1 ++ l2) = Spec.sumDeltas l1 + Spec.sumDeltas l2)
    as Happ.
  { intros l1 l2. unfold Spec.sumDeltas. induction l1 as [|c l1 IH]; simpl; lia. }
  rewrite Happ. pose proof (sumDeltas_nonneg (drop k calls) (Forall_drop _ _ _ Hv)). lia.
Qed.

Lemma rawValidationOk_ofBody (b : ProgressBody) :
  value b < 10 ^ 21 → rawValidationOk (ofBody b) = validationOk b.
Proof.
  intros Hlt. unfold rawValidationOk, validationOk, ofBody, JS.isInt, JS.within. simpl.
  destruct (Z.leb_spec 0 (value b)) as [Hle|Hneg]; simpl.
  - by rewrite Z.abs_eq, (proj2 (Z.ltb_lt _ _) Hlt) by done.
  - by rewrite andb_false_r.
Qed.

Lemma applyProgressRaw_ofBody (goal : Goal) (b : ProgressBody) (now : Z) :
  0 ≤ currentValue goal + value b ≤ 2 ^ 53 →
  applyProgressRaw goal (ofBody b) now = Some (applyProgress goal b now).
Proof.
  intros Hsum. unfold applyProgressRaw, ofBody. simpl.
  rewrite add_exact by done. simpl.
  by rewrite (proj2 (Z.ltb_ge _ _)) by lia.
Qed.

(** On a body with a JSON number the raw handler is the typed one, as long
    as the sum is a double that holds it. *)
Lemma postProgressRaw_ofBody (goals : gmap nat Goal) (uid id : nat)
    (b : ProgressBody) (now : Z) (goal : Goal) :
  findOne goals id uid = Some goal → validationOk b = true →
  0 ≤ currentValue goal → currentValue goal + value b ≤ 2 ^ 53 →
  postProgressRaw goals uid id (ofBody b) now = postProgress goals uid id b now.
Proof.
  intros Hf Hv Hcv Hsum. pose proof (validationOk_nonneg b Hv) as Hb.
  unfold postProgressRaw, postProgress.
  rewrite rawValidationOk_ofBody, Hv, Hf by lia. simpl.
  by rewrite applyProgressRaw_ofBody by lia.
Qed.

Lemma postProgressRawAll_ofBody (uid id : nat) (calls : list (ProgressBody * Z)) :
  ∀ (goals : gmap nat Goal) (g : Goal),
    goals !! id = Some g → user g = uid → 0 ≤ currentValue g →
    Forall (λ c, validationOk c.1 = true) calls →
    currentValue g + Spec.sumDeltas calls ≤ 2 ^ 53 →
    postProgressRawAll goals uid id ((λ c, (ofBody c.1, c.2)) <$> calls)
    = postProgressAll goals uid id calls.
Proof.
  induction calls as [|c calls IH]; intros goals g Hg Hu Hcv Hv Hsum; [done|].
  apply Forall_cons in Hv as [Hc Hv].
  pose proof (validationOk_nonneg _ Hc) as Hc0.
  pose proof (sumDeltas_nonneg calls Hv) as Hrest.
  change (Spec.sumDeltas (c :: calls)) with (value c.1 + Spec.sumDeltas calls) in Hsum.
  assert (findOne goals id uid = Some g) as Hf
    by (unfold findOne; by rewrite Hg, Hu, Nat.eqb_refl).
  unfold postProgressRawAll, postProgressAll. simpl.
  rewrite (postProgressRaw_ofBody _ _ _ _ _ g) by (done || lia).
  rewrite (postProgress_found _ _ _ _ _ g) by done. simpl.
  apply (IH _ (applyProgress g c.1 c.2));
    [by rewrite lookup_insert_eq|done|simpl; lia|done|simpl; lia].
Qed.

Lemma goalAfterRaw_ofBody (goals : gmap nat Goal) (uid id : nat) (g : Goal)
    (calls : list (ProgressBody * Z)) (k : nat) :
  goals !! id = Some g → user g = uid → 0 ≤ currentValue g →
  Forall (λ c, validationOk c.1 = true) calls →
  currentValue g + Spec.sumDeltas calls ≤ 2 ^ 53 →
  goalAfterRaw goals uid id ((λ c, (ofBody c.1, c.2)) <$> calls) k
  = Some (applyAll g (take k calls)).
Proof.
  intros Hg Hu Hcv Hv Hsum. unfold goalAfterRaw.
  rewrite <- fmap_take.
  rewrite (postProgressRawAll_ofBody uid id (take k calls) goals g);
    [|done|done|done|by apply Forall_take|].
  - apply postProgressAll_found; [done|done|by apply Forall_take].
  - pose proof (sumDeltas_take_le calls k Hv). lia.
Qed.

Lemma geOpt_reached (sum : Z) (target : option Z) :
  JS.geOpt sum target = true ↔ Spec.reached sum target.
Proof.
  unfold JS.geOpt, Spec.reached. destruct target as [tv|].
  - rewrite Z.leb_le. split; [by exists tv|]. by intros (tv' & [= <-] & Hle).
  - split; [done|]. by intros (tv' & ? & _).
Qed.

(** C3, as the code has it.  A goal that is active with [currentValue = 0]
    receives a sequence of accepted progress requests whose values are
    sent as JSON numbers (each at least 0) and add up to at most [2^53].
    Then the stored [currentValue] is the sum of the values, after each
    prefix of the sequence and so after the whole of it; the status after
    [k] requests is [completed] exactly when at least one request was made
    and the sum of the first [k] values has reached [targetValue], and
    [active] otherwise; a status that is [completed] after [j] requests is
    [completed] after any later request; and there is at most one request
    that takes the status from [active] to [completed]. *)
Theorem progress_sum_and_completion (goals : gmap nat Goal) (uid id : nat)
    (g : Goal) (calls : list (ProgressBody * Z)) :
  goals !! id = Some g → user g = uid →
  currentValue g = 0 → status g = active →
  Forall (λ c, validationOk c.1 = true) calls →
  Spec.sumDeltas calls ≤ 2 ^ 53 →
  let sent := (λ c, (ofBody c.1, c.2)) <$> calls in
  let after (k : nat) := goalAfterRaw goals uid id sent k in
  let sum (k : nat) := Spec.sumDeltas (take k calls) in
  (∀ k, (k ≤ length calls)%nat →
     ∃ gk, after k = Some gk
           ∧ currentValue gk = sum k
           ∧ (status gk = completed
              ↔ (0 < k)%nat ∧ Spec.reached (sum k) (targetValue g))
           ∧ (status gk = active
              ↔ ¬ ((0 < k)%nat ∧ Spec.reached (sum k) (targetValue g))))
  ∧ (∀ j k gj gk, (j ≤ k)%nat →
       after j = Some gj → after k = Some gk →
       status gj = completed → status gk = completed)
  ∧ (∀ j k gj gj' gk gk',
       after j = Some gj → after (S j) = Some gj' →
       status gj = active → status gj' = completed →
       after k = Some gk → after (S k) = Some gk' →
       status gk = active → status gk' = completed →
       j = k).
Proof.
  intros Hg Hu Hcv Hst Hv Hsum sent after sum.
  assert (∀ k, after k = Some (applyAll g (take k calls))) as Hafter.
  { intros k. apply goalAfterRaw_ofBody; (done || lia). }
  assert (∀ j k gj gk, (j ≤ k)%nat →
       after j = Some gj → after k = Some gk →
       status gj = completed → status gk = completed) as Hmono.
  { intros j k gj gk Hjk Hj Hk Hc.
    rewrite Hafter in Hj, Hk. injection Hj as <-. injection Hk as <-.
    rewrite <- (take_drop j (take k calls)), take_take, Nat.min_l by done.
    rewrite applyAll_app. by apply applyAll_completed_stays. }
  split; [|split; [exact Hmono|]].
  - intros k Hk. exists (applyAll g (take k calls)).
    split; [apply Hafter|]. split.
    + rewrite applyAll_currentValue. fold (sum k). lia.
    + rewrite applyAll_status by (done || by apply Forall_take).
      rewrite length_take, Nat.min_l by done. fold (sum k).
      pose proof (geOpt_reached (sum k) (targetValue g)) as Hiff.
      destruct (Nat.ltb_spec 0 k) as [Hpos|Hzero];
        destruct (JS.geOpt (sum k) (targetValue g)); simpl.
      * split; split.
        -- intros _. split; [done|]. by apply Hiff.
        -- done.
        -- done.
        -- intros Hno. destruct Hno. split; [done|]. by apply Hiff.
      * split; split.
        -- done.
        -- intros [_ Hr%Hiff]. done.
        -- intros _ [_ Hr%Hiff]. done.
        -- done.
      * split; split.
        -- done.
        -- intros [Hlt _]. lia.
        -- intros _ [Hlt _]. lia.
        -- done.
      * split; split.
        -- done.
        -- intros [Hlt _]. lia.
        -- intros _ [Hlt _]. lia.
        -- done.
  - intros j k gj gj' gk gk' Hj Hj' Hja Hjc Hk Hk' Hka Hkc.
    destruct (Nat.lt_trichotomy j k) as [Hlt|[Heq|Hgt]]; [|done|].
    + assert (status gk = completed) as Habs
        by (apply (Hmono (S j) k gj' gk); (lia || done)).
      congruence.
    + assert (status gj = completed) as Habs
        by (apply (Hmono (S k) j gk' gj); (lia || done)).
      congruence.
Qed.

Lemma progress_sum_and_completion_witness :
  let g := {| user := 7; title := "Run"; targetValue := Some 12;
              currentValue := 0; deadline := 0; status := active;
              milestones := []; progress := [] |} in
  let sent := [ ({| raw_value := JS.VNum 3; raw_notes := None |}, 10);
                ({| raw_value := JS.VNum 3; raw_notes := None |}, 20);
                ({| raw_value := JS.VNum 6; raw_notes := None |}, 30);
                ({| raw_value := JS.VNum 1; raw_notes := None |}, 40) ] in
  ∃ g2 g3 g4,
    goalAfterRaw {[ 1%nat := g ]} 7 1 sent 2 = Some g2
    ∧ currentValue g2 = 6 ∧ status g2 = active
    ∧ goalAfterRaw {[ 1%nat := g ]} 7 1 sent 3 = Some g3
    ∧ currentValue g3 = 12 ∧ status g3 = completed
    ∧ goalAfterRaw {[ 1%nat := g ]} 7 1 sent 4 = Some g4
    ∧ currentValue g4 = 13 ∧ status g4 = completed.
Proof.
  intros g sent.
  set (calls := [ ({| value := 3; notes := None |}, 10);
                  ({| value := 3; notes := None |}, 20);
                  ({| value := 6; notes := None |}, 30);
                  ({| value := 1; notes := None |}, 40) ]).
  assert (({[ 1%nat := g ]} : gmap nat Goal) !! 1%nat = Some g) as Hg
    by (vm_compute; reflexivity).
  assert (Forall (λ c : ProgressBody * Z, validationOk c.1 = true) calls) as Hv
    by (repeat constructor).
  assert (Spec.sumDeltas calls ≤ 2 ^ 53) as Hsum by (vm_compute; discriminate).
  destruct (progress_sum_and_completion {[ 1%nat := g ]} 7 1 g calls
              Hg eq_refl eq_refl eq_refl Hv Hsum) as [Hprefix _].
  destruct (Hprefix 2%nat) as (g2 & H2 & Hcv2 & _ & Hact2); [simpl; lia|].
  destruct (Hprefix 3%nat) as (g3 & H3 & Hcv3 & Hdone3 & _); [simpl; lia|].
  destruct (Hprefix 4%nat) as (g4 & H4 & Hcv4 & Hdone4 & _); [simpl; lia|].
  exists g2, g3, g4.
  split; [exact H2|]. split; [exact Hcv2|]. split.
  { apply Hact2. intros [_ (tv & [= <-] & Hle)]. vm_compute in Hle. by apply Hle. }
  split; [exact H3|]. split; [exact Hcv3|]. split.
  { apply Hdone3. split; [lia|]. exists 12. split; [done|]. vm_compute. discriminate. }
  split; [exact H4|]. split; [exact Hcv4|].
  apply Hdone4. split; [lia|]. exists 12. split; [done|]. vm_compute. discriminate.
Defined.

(** C3, against the claim as worded.  Two accepted requests with the
    values [2^53] and [1], sent as JSON numbers, leave [currentValue] at
    [2^53], which is not their sum: the sum of the two doubles rounds to
    even.  Two accepted requests with the value ['5'], sent as a string of
    digits, leave [currentValue] at [55] and the goal [completed] although
    the values add up to [10], below the target [12]: [isInt] accepts the
    string, the chain has no [toInt()], and [+=] appends it to [String(5)]. *)
Lemma progress_sum_counterexample :
  let g (target : Z) :=
    {| user := 7; title := "Run"; targetValue := Some target;
       currentValue := 0; deadline := 0; status := active;
       milestones := []; progress := [] |} in
  let numbers := [ ({| raw_value := JS.VNum (2 ^ 53); raw_notes := None |}, 10);
                   ({| raw_value := JS.VNum 1; raw_notes := None |}, 20) ] in
  let strings := [ ({| raw_value := JS.VStr "5"; raw_notes := None |}, 10);
                   ({| raw_value := JS.VStr "5"; raw_notes := None |}, 20) ] in
  (Forall (λ c, rawValidationOk c.1 = true) numbers
   ∧ (currentValue <$> goalAfterRaw {[ 1%nat := g (2 ^ 60) ]} 7 1 numbers 2)
     = Some (2 ^ 53)
   ∧ 2 ^ 53 ≠ 2 ^ 53 + 1)
  ∧ (Forall (λ c, rawValidationOk c.1 = true) strings
     ∧ ((λ g', (currentValue g', status g', pr_value <$> progress g'))
        <$> goalAfterRaw {[ 1%nat := g 12 ]} 7 1 strings 2)
       = Some (55, completed, [5; 5])
     ∧ ¬ Spec.reached (5 + 5) (Some 12)).
Proof.
  split; [split; [repeat constructor|split; [vm_compute; reflexivity|lia]]|].
  split; [repeat constructor|]. split; [vm_compute; reflexivity|].
  intros (tv & [= <-] & Hle). lia.
Qed.

End GoalFacts.

(** ** Habit entries: the stats update *)

Section HabitStatsFacts.
Import Habits.
Variable utcOffset : Z.

Lemma findHabit_lookup (hs : gmap nat Habit.t) (id uid : nat) (h : Habit.t) :
  findHabit hs id uid = Some h → hs !! id = Some h ∧ Habit.user h = uid.
Proof.
  unfold findHabit. destruct (hs !! id) as [h0|]; [|done].
  destruct (Nat.eqb_spec (Habit.user h0) uid); [|done].
  intros [= <-]. done.
Qed.

(** What an accepted request for an existing habit leaves behind. *)
Lemma postEntry_found (db : Db) (uid id : nat) (b : Body) (now : Z) (h : Habit.t) :
  validationOk b = true → findHabit (habits db) id uid = Some h →
  let up := upsertToday utcOffset db uid id b now in
  postEntry utcOffset db uid id b now
  = ({| habits :=
          <[id := {| Habit.user := Habit.user h; Habit.name := Habit.name h;
                     Habit.isActive := Habit.isActive h;
                     Habit.stats := updateStats utcOffset up.1.1 uid id (completed b) now
                                      (Habit.stats h) |}]> (habits db);
        entries := up.1.1; nextId := up.1.2 |}, Ok up.2).
Proof.
  intros Hv Hf. unfold postEntry. rewrite Hv, Hf. simpl.
  by destruct (upsertToday utcOffset db uid id b now) as [[es fresh] entry].
Qed.

(** A request of the typed form with [completed = false] leaves the Habit
    collection, and with it every field of every habit's [stats], as it
    was: whether the request is rejected, creates the entry of the day or
    overwrites it (also when that entry was completed before). *)
Lemma postEntry_false_keeps_stats (db : Db) (uid id : nat)
    (b : Body) (now : Z) :
  completed b = false →
  habits (postEntry utcOffset db uid id b now).1 = habits db
  ∧ ∀ hid h, habits db !! hid = Some h →
      ∃ h', habits (postEntry utcOffset db uid id b now).1 !! hid = Some h'
            ∧ Habit.totalCompletions (Habit.stats h') = Habit.totalCompletions (Habit.stats h)
            ∧ Habit.currentStreak (Habit.stats h') = Habit.currentStreak (Habit.stats h)
            ∧ Habit.longestStreak (Habit.stats h') = Habit.longestStreak (Habit.stats h)
            ∧ Habit.lastCompleted (Habit.stats h') = Habit.lastCompleted (Habit.stats h).
Proof.
  intros Hc.
  assert (habits (postEntry utcOffset db uid id b now).1 = habits db) as Heq.
  { unfold postEntry. destruct (validationOk b); [|done]. simpl.
    destruct (findHabit (habits db) id uid) as [h|] eqn:Hf; [|done].
    destruct (upsertToday utcOffset db uid id b now) as [[es fresh] entry]. simpl.
    apply findHabit_lookup in Hf as [Hl _].
    unfold updateStats. rewrite Hc. destruct h as [u n a st]. simpl.
    by apply insert_id. }
  split; [exact Heq|].
  intros hid h Hh. exists h. by rewrite Heq.
Qed.

(** C7. After a completion event, that is, an accepted request with
    [completed = true] for a habit of the caller, the stored stats of the
    habit satisfy [longestStreak ≥ currentStreak]. *)
Theorem postEntry_longest_ge_current (db : Db) (uid id : nat) (b : Body)
    (now : Z) (h : Habit.t) :
  validationOk b = true → completed b = true →
  findHabit (habits db) id uid = Some h →
  ∃ h', habits (postEntry utcOffset db uid id b now).1 !! id = Some h'
        ∧ Habit.currentStreak (Habit.stats h') ≤ Habit.longestStreak (Habit.stats h').
Proof.
  intros Hv Hc Hf. rewrite (postEntry_found _ _ _ _ _ h) by done. simpl.
  eexists. split; [apply lookup_insert_eq|]. simpl.
  unfold updateStats. rewrite Hc. simpl. lia.
Qed.

(** Every accepted request with [completed = true] adds one to
    [totalCompletions]; the handler does not look at whether the entry of
    the day was completed before. *)
Lemma postEntry_completed_counts (db : Db) (uid id : nat) (b : Body)
    (now : Z) (h : Habit.t) :
  validationOk b = true → completed b = true →
  findHabit (habits db) id uid = Some h →
  ∃ h', habits (postEntry utcOffset db uid id b now).1 !! id = Some h'
        ∧ Habit.totalCompletions (Habit.stats h')
          = Habit.totalCompletions (Habit.stats h) + 1
        ∧ Habit.lastCompleted (Habit.stats h') = Some now.
Proof.
  intros Hv Hc Hf. rewrite (postEntry_found _ _ _ _ _ h) by done. simpl.
  eexists. split; [apply lookup_insert_eq|]. simpl.
  unfold updateStats. by rewrite Hc.
Qed.

End HabitStatsFacts.

Lemma postEntry_longest_ge_current_witness :
  let st := {| Habit.totalCompletions := 9; Habit.currentStreak := 5;
               Habit.longestStreak := 5; Habit.completionRate := 0;
               Habit.lastCompleted := None |} in
  let h := {| Habit.user := 7; Habit.name := "Walk"; Habit.isActive := true;
              Habit.stats := st |} in
  let e := {| HabitEntry._id := 0; HabitEntry.habit := 1; HabitEntry.user := 7;
              HabitEntry.date := 86400000; HabitEntry.completed := true;
              HabitEntry.value := 1; HabitEntry.notes := None |} in
  let db := {| Habits.habits := {[ 1%nat := h ]}; Habits.entries := [e];
               Habits.nextId := 1 |} in
  let b := {| Habits.completed := true; Habits.value := None; Habits.notes := None |} in
  ∃ h', Habits.habits (Habits.postEntry 0 db 7 1 b 172800500).1 !! 1%nat = Some h'
        ∧ Habit.currentStreak (Habit.stats h') ≤ Habit.longestStreak (Habit.stats h').
Proof.
  intros st h e db b.
  assert (Habits.findHabit (Habits.habits db) 1 7 = Some h) as Hf
    by (vm_compute; reflexivity).
  exact (postEntry_longest_ge_current 0 db 7 1 b 172800500 h eq_refl eq_refl Hf).
Defined.

(** ** Statistics *)

Section StatsFacts.
Variable utcOffset : Z.

(** C8. In both statistics handlers the start of the window is the start
    of the day 7 days before [now] for ['week'], 30 days for ['month'] and
    365 days for ['year']; a missing [period] and any other string give
    the 7-day window. *)
Theorem startDate_window (now : Z) :
  let back (n : Z) := Clock.startOfDay utcOffset (now - n * Clock.msPerDay) in
  (Habits.startDate utcOffset now (Some "week"%string) = back 7
   ∧ Habits.startDate utcOffset now (Some "month"%string) = back 30
   ∧ Habits.startDate utcOffset now (Some "year"%string) = back 365
   ∧ Habits.startDate utcOffset now None = back 7
   ∧ ∀ p : string, p ≠ "week"%string → p ≠ "month"%string → p ≠ "year"%string →
       Habits.startDate utcOffset now (Some p) = back 7)
  ∧ (Moods.startDate utcOffset now (Some "week"%string) = back 7
     ∧ Moods.startDate utcOffset now (Some "month"%string) = back 30
     ∧ Moods.startDate utcOffset now (Some "year"%string) = back 365
     ∧ Moods.startDate utcOffset now None = back 7
     ∧ ∀ p : string, p ≠ "week"%string → p ≠ "month"%string → p ≠ "year"%string →
         Moods.startDate utcOffset now (Some p) = back 7).
Proof.
  intros back. split.
  - repeat split; try reflexivity.
    intros p Hw Hm Hy. unfold Habits.startDate. simpl.
    by rewrite (proj2 (String.eqb_neq _ _) Hw), (proj2 (String.eqb_neq _ _) Hm),
      (proj2 (String.eqb_neq _ _) Hy).
  - repeat split; try reflexivity.
    intros p Hw Hm Hy. unfold Moods.startDate. simpl.
    by rewrite (proj2 (String.eqb_neq _ _) Hw), (proj2 (String.eqb_neq _ _) Hm),
      (proj2 (String.eqb_neq _ _) Hy).
Qed.

(** C9. With nothing to aggregate the statistics handlers answer with
    zero-valued aggregates instead of dividing by zero:
    - mood statistics, when the caller has no mood entry in the window;
    - goal statistics, when the caller has no goal;
    - habit statistics, when the caller has neither an active habit nor a
      completed entry in the window; and without active habits the rate
      and the ranking are [0] and empty whatever the entries are. *)
Theorem stats_of_nothing (uid : nat) (period : option string) (now : Z) :
  (∀ db : Moods.Db,
     Moods.moodsSince db uid (Moods.startDate utcOffset now period) = [] →
     Moods.getStats utcOffset db uid period now
     = {| Moods.totalEntries := 0;
          Moods.moodDistribution := Moods.mkMoodCounts 0 0 0 0 0;
          Moods.averageEnergy := 0; Moods.averageStress := 0;
          Moods.averageSleepHours := 0;
          Moods.sleepQualityDistribution := Moods.mkSleepQualityCounts 0 0 0 0;
          Moods.recentTrend := [] |})
  ∧ (∀ goals : gmap nat Goals.Goal,
       (∀ id g, goals !! id = Some g → Goals.user g ≠ uid) →
       Goals.getStats goals uid now
       = {| Goals.total := 0; Goals.st_active := 0; Goals.st_completed := 0;
            Goals.st_paused := 0; Goals.st_cancelled := 0;
            Goals.completionRate := 0; Goals.averageProgress := 0;
            Goals.upcomingDeadlines := [] |})
  ∧ (∀ db : Habits.Db,
       Habits.activeHabits db uid = [] →
       (Habits.completedSince db uid (Habits.startDate utcOffset now period) = [] →
        Habits.getStats utcOffset db uid period now
        = {| Habits.totalHabits := 0; Habits.totalCompletions := 0;
             Habits.completionRate := 0; Habits.topHabits := [] |})
       ∧ Habits.totalHabits (Habits.getStats utcOffset db uid period now) = 0%nat
       ∧ Habits.completionRate (Habits.getStats utcOffset db uid period now) = 0
       ∧ Habits.topHabits (Habits.getStats utcOffset db uid period now) = []).
Proof.
  split; [|split].
  - intros db Hnone. unfold Moods.getStats. by rewrite Hnone.
  - intros goals Hnone. unfold Goals.getStats.
    rewrite filter_none; [done|].
    intros [id g] Hin%elem_of_map_to_list Hu. by apply (Hnone id g).
  - intros db Hh. unfold Habits.getStats. rewrite Hh.
    split; [|done]. by intros ->.
Qed.

End StatsFacts.

Lemma startDate_window_witness :
  Habits.startDate 0 1000000000000 (Some "decade"%string) = 999388800000
  ∧ Moods.startDate 0 1000000000000 (Some "decade"%string) = 999388800000.
Proof.
  destruct (startDate_window 0 1000000000000) as [(_ & _ & _ & _ & Hh) (_ & _ & _ & _ & Hm)].
  split.
  - rewrite Hh by discriminate. reflexivity.
  - rewrite Hm by discriminate. reflexivity.
Defined.

Lemma stats_of_nothing_witness :
  let m := {| Mood._id := 0; Mood.user := 7; Mood.date := 86400000;
              Mood.mood := Mood.good; Mood.energy := Some 5; Mood.stress := Some 5;
              Mood.sleep := {| Mood.hours := None; Mood.quality := None |};
              Mood.notes := None |} in
  let db := {| Moods.moods := [m]; Moods.nextId := 1 |} in
  Moods.totalEntries (Moods.getStats 0 db 7 (Some "month"%string) 1000000000000) = 0%nat
  ∧ Moods.averageEnergy (Moods.getStats 0 db 7 (Some "month"%string) 1000000000000) = 0%Q.
Proof.
  intros m db.
  destruct (stats_of_nothing 0 7 (Some "month"%string) 1000000000000) as [Hm _].
  rewrite (Hm db) by (vm_compute; reflexivity). split; reflexivity.
Defined.

(** ** One document per owner and day *)

Section DailyFacts.
Context {A K : Type} `{EqDecision K}.
Variables (ident : A → nat) (owner : A → K) (date : A → Z).
Variable off : Z.
Variables (q : A → bool) (upd : A → A) (new : A) (k : K) (now : Z).

Let today : Z := Clock.startOfDay off now.

(** [q] is the Mongo filter for the owner [k] and today's range. *)
Hypothesis q_spec : ∀ d,
  q d = true
  ↔ owner d = k ∧ Clock.inRange today (Clock.endOfDay off today) (date d) = true.
Hypothesis upd_ident : ∀ d, ident (upd d) = ident d.
Hypothesis upd_owner : ∀ d, owner (upd d) = owner d.
Hypothesis upd_date : ∀ d, date d = today → date (upd d) = today.
Hypothesis new_owner : owner new = k.
Hypothesis new_date : date new = today.

Lemma today_aligned : Clock.startOfDay off today = today.
Proof. apply startOfDay_idem. Qed.

Lemma q_sameDay (d : A) : q d = true → Daily.sameDay owner date off k today d.
Proof.
  intros [Ho Hr]%q_spec. split; [done|].
  apply inRange_spec in Hr. unfold today in Hr.
  rewrite endOfDay_startOfDay in Hr.
  apply startOfDay_within; [apply startOfDay_idem|]. unfold today. lia.
Qed.

Lemma sameDay_q (d : A) :
  Clock.startOfDay off (date d) = date d →
  Daily.sameDay owner date off k today d → q d = true.
Proof.
  intros Hal [Ho Hd]. apply q_spec. split; [done|].
  apply inRange_spec. unfold today.
  rewrite endOfDay_startOfDay. fold today.
  pose proof msPerDay_pos. lia.
Qed.

(** The find-then-update-or-create step keeps the invariant, leaves exactly
    one document for the owner and today (the updated one or the new one),
    leaves the documents of every other owner or day as they were, and does
    not change the answer of a query that matches no document of today. *)
Lemma upsert_spec (docs : list A) (next : nat) :
  Daily.wfDocs ident owner date off docs next →
  ident new = next →
  let r := Daily.upsert ident q upd new docs next in
  Daily.wfDocs ident owner date off r.1.1 r.1.2
  ∧ ((Daily.ofDay owner date off k today docs = []
      ∧ r = (docs ++ [new], S next, Some new)
      ∧ Daily.ofDay owner date off k today r.1.1 = [new])
     ∨ (∃ d, Daily.ofDay owner date off k today docs = [d]
             ∧ date d = today
             ∧ Daily.ofDay owner date off k today r.1.1 = [upd d]
             ∧ r.2 = Some (upd d)
             ∧ r.1.2 = next))
  ∧ (∀ k' day', (k', day') ≠ (k, today) →
       Daily.ofDay owner date off k' day' r.1.1
       = Daily.ofDay owner date off k' day' docs)
  ∧ (∀ g : A → bool, (∀ d, date d = today → g d = false) →
       List.find g r.1.1 = List.find g docs).
Proof.
  intros (Hids & Hfresh & Hdates & Hkeys) Hnew. unfold Daily.upsert, Mongo.findOne.
  destruct (List.find q docs) as [e|] eqn:Hfind.
  - apply find_Some_split in Hfind as (l1 & l2 & -> & Hqe & _).
    destruct (NoDup_fmap_split ident _ _ _ Hids) as [Hid1 _].
    rewrite (findByIdAndUpdate_split ident _ upd _ _ _ Hid1 eq_refl). simpl.
    destruct (q_sameDay e Hqe) as [Hoe Hde].
    apply Forall_app in Hdates as [Hd1 [Hdd Hd2]%Forall_cons].
    apply Forall_app in Hfresh as [Hf1 [Hfe Hf2]%Forall_cons].
    assert (date e = today) as Hdate_e by congruence.
    destruct (NoDup_fmap_split (λ d, (owner d, date d)) _ _ _ Hkeys) as [Hk1 Hk2].
    assert (∀ l, Forall (λ y, (owner y, date y) ≠ (owner e, date e)) l →
                 Forall (λ d, Clock.startOfDay off (date d) = date d) l →
                 filter (Daily.sameDay owner date off k today) l = []) as Hnone.
    { intros l Hne Hd. apply filter_none. intros y Hy [Hoy Hdy].
      rewrite Forall_forall in Hne, Hd. apply (Hne y Hy).
      rewrite Hoy, Hoe, <- (Hd y Hy), Hdy, Hdate_e. done. }
    assert (date (upd e) = today) as Hdate_u by auto.
    assert (Daily.sameDay owner date off k today e) as Hse by done.
    assert (Daily.sameDay owner date off k today (upd e)) as Hsu.
    { split; [by rewrite upd_owner|]. rewrite Hdate_u. apply today_aligned. }
    split; [|split; [|split]].
    + repeat split.
      * by rewrite (fmap_replace ident _ e) by done.
      * apply Forall_app. split; [done|]. constructor; [by rewrite upd_ident|done].
      * apply Forall_app. split; [done|].
        constructor; [rewrite Hdate_u; apply today_aligned|done].
      * rewrite (fmap_replace (λ d, (owner d, date d)) _ e); [done|].
        by rewrite upd_owner, Hdate_u, Hdate_e.
    + right. exists e. unfold Daily.ofDay.
      rewrite !filter_app, !filter_cons_True by done.
      rewrite !Hnone by done. done.
    + intros k' day' Hne. unfold Daily.ofDay.
      rewrite !filter_app, !filter_cons_False; [done| |].
      * intros [Ho' Hd']. apply Hne. by rewrite <- Ho', <- Hd', Hoe, Hde.
      * intros [Ho' Hd']. apply Hne.
        by rewrite <- Ho', <- Hd', (proj1 Hsu), (proj2 Hsu).
    + intros g Hg. by rewrite !find_skip by auto.
  - apply find_None_Forall in Hfind. simpl.
    assert (Daily.sameDay owner date off k today new) as Hsn.
    { split; [done|]. rewrite new_date. apply today_aligned. }
    assert (∀ y, y ∈ docs → ¬ Daily.sameDay owner date off k today y) as Hnone.
    { intros y Hy Hs. rewrite Forall_forall in Hfind, Hdates.
      pose proof (sameDay_q y (Hdates y Hy) Hs) as Hq.
      rewrite (Hfind y Hy) in Hq. done. }
    split; [|split; [|split]].
    + repeat split.
      * rewrite fmap_app. apply NoDup_app. split; [done|]. split.
        -- intros x (y & -> & Hy)%list_elem_of_fmap Hx%list_elem_of_singleton.
           rewrite Forall_forall in Hfresh. specialize (Hfresh y Hy). simpl in Hx. lia.
        -- apply NoDup_singleton.
      * apply Forall_app. split.
        -- eapply Forall_impl; [exact Hfresh|]. simpl. lia.
        -- constructor; [lia|constructor].
      * apply Forall_app. split; [done|].
        constructor; [rewrite new_date; apply today_aligned|constructor].
      * rewrite fmap_app. apply NoDup_app. split; [done|]. split.
        -- intros x (y & -> & Hy)%list_elem_of_fmap Hx%list_elem_of_singleton.
           simpl in Hx. injection Hx as Ho Hd.
           apply (Hnone y Hy). split; [congruence|].
           rewrite Hd, new_date. apply today_aligned.
        -- apply NoDup_singleton.
    + left. unfold Daily.ofDay. rewrite filter_app, filter_none by done.
      rewrite filter_cons_True by done. done.
    + intros k' day' Hne. unfold Daily.ofDay.
      rewrite filter_app, filter_cons_False; [by rewrite filter_nil, app_nil_r|].
      intros [Ho' Hd']. apply Hne. by rewrite <- Ho', <- Hd', (proj1 Hsn), (proj2 Hsn).
    + intros g Hg. rewrite <- (app_nil_r docs) at 2.
      by rewrite find_skip by auto.
Qed.

End DailyFacts.

(** ** Habit entries: one entry per day, streaks *)

Section HabitEntryFacts.
Import Habits.
Variable utcOffset : Z.

Lemma onDay_spec (id uid : nat) (lo hi : Z) (e : HabitEntry.t) :
  onDay id uid lo hi e = true
  ↔ owner e = (uid, id) ∧ Clock.inRange lo hi (HabitEntry.date e) = true.
Proof.
  unfold onDay, owner. rewrite !andb_true_iff, !Nat.eqb_eq.
  split; [intros [[-> ->] Hr]; done|]. intros [[= -> ->] Hr]. done.
Qed.

(** The upsert of the handler, through the shared pattern. *)
Lemma upsertToday_spec (db : Db) (uid id : nat) (b : Body) (now : Z) :
  wf utcOffset db →
  let today := Clock.startOfDay utcOffset now in
  let r := upsertToday utcOffset db uid id b now in
  Daily.wfDocs HabitEntry._id owner HabitEntry.date utcOffset r.1.1 r.1.2
  ∧ ((entriesOfDay utcOffset db uid id today = []
      ∧ r = (entries db ++ [newEntry (nextId db) id uid today b], S (nextId db),
             Some (newEntry (nextId db) id uid today b))
      ∧ Daily.ofDay owner HabitEntry.date utcOffset (uid, id) today r.1.1
        = [newEntry (nextId db) id uid today b])
     ∨ (∃ e, entriesOfDay utcOffset db uid id today = [e]
             ∧ HabitEntry.date e = today
             ∧ Daily.ofDay owner HabitEntry.date utcOffset (uid, id) today r.1.1
               = [applyBody b e]
             ∧ r.2 = Some (applyBody b e)
             ∧ r.1.2 = nextId db))
  ∧ (∀ k' day', (k', day') ≠ ((uid, id), today) →
       Daily.ofDay owner HabitEntry.date utcOffset k' day' r.1.1
       = Daily.ofDay owner HabitEntry.date utcOffset k' day' (entries db))
  ∧ (∀ g : HabitEntry.t → bool,
       (∀ e, HabitEntry.date e = today → g e = false) →
       List.find g r.1.1 = List.find g (entries db)).
Proof.
  intros Hwf today r.
  apply (upsert_spec HabitEntry._id owner HabitEntry.date utcOffset
           (onDay id uid today (Clock.endOfDay utcOffset today)) (applyBody b)
           (newEntry (nextId db) id uid today b) (uid, id) now); try done.
  intros e. apply onDay_spec.
Qed.

(** One accepted request, seen from the calendar: the invariant is kept,
    the habit is still there, today has exactly one entry for the habit
    (the new one, or the old one with the body applied), and the entries
    of other habits, users and days are untouched. *)
Lemma postEntry_day (db : Db) (uid id : nat) (b : Body) (now : Z) (h : Habit.t) :
  wf utcOffset db → validationOk b = true →
  findHabit (habits db) id uid = Some h →
  let today := Clock.startOfDay utcOffset now in
  let db' := (postEntry utcOffset db uid id b now).1 in
  wf utcOffset db'
  ∧ (∃ h', findHabit (habits db') id uid = Some h')
  ∧ ((entriesOfDay utcOffset db uid id today = []
      ∧ entriesOfDay utcOffset db' uid id today = [newEntry (nextId db) id uid today b]
      ∧ nextId db' = S (nextId db))
     ∨ (∃ e, entriesOfDay utcOffset db uid id today = [e]
             ∧ HabitEntry.date e = today
             ∧ entriesOfDay utcOffset db' uid id today = [applyBody b e]
             ∧ nextId db' = nextId db))
  ∧ (∀ uid' id' day', (uid', id', day') ≠ (uid, id, today) →
       entriesOfDay utcOffset db' uid' id' day' = entriesOfDay utcOffset db uid' id' day').
Proof.
  intros Hwf Hv Hf today db'.
  destruct (upsertToday_spec db uid id b now Hwf) as (Hwf' & Hcase & Hother & _).
  unfold db'. rewrite (postEntry_found _ _ _ _ _ _ h) by done.
  unfold wf, entriesOfDay. simpl.
  split; [done|]. split.
  - eexists. unfold findHabit. rewrite lookup_insert_eq. simpl.
    apply findHabit_lookup in Hf as [_ ->]. by rewrite Nat.eqb_refl.
  - split; [|by intros uid' id' day' Hne; apply Hother].
    destruct Hcase as [(H0 & Hr & H1)|(e & H0 & Hd & H1 & _ & Hn)].
    + left. by rewrite Hr in *.
    + right. by exists e.
Qed.

End HabitEntryFacts.

Section StreakFacts.
Import Habits.
Variable utcOffset : Z.

(** The query for yesterday's completed entry. *)
Local Abbreviation yesterdayQuery uid id now :=
  (completedOnDay id uid
     (Clock.startOfDay utcOffset (Clock.subtractDays 1 now))
     (Clock.endOfDay utcOffset (Clock.startOfDay utcOffset (Clock.subtractDays 1 now)))).




End StreakFacts.


(** The scenario of the spec: completed on 2024-01-01 and 2024-01-02, the
    3rd skipped, completed again on the 4th (UTC, noon of each day). *)
Example streak_scenario :
  let h := {| Habit.user := 7; Habit.name := "Walk"; Habit.isActive := true;
              Habit.stats := {| Habit.totalCompletions := 0; Habit.currentStreak := 0;
                                Habit.longestStreak := 0; Habit.completionRate := 0;
                                Habit.lastCompleted := None |} |} in
  let db0 := {| Habits.habits := {[ 1%nat := h ]}; Habits.entries := [];
                Habits.nextId := 0 |} in
  let b := {| Habits.completed := true; Habits.value := Some 1; Habits.notes := None |} in
  let jan1 := 1704067200000 + 43200000 in
  let db1 := (Habits.postEntry 0 db0 7 1 b jan1).1 in
  let db2 := (Habits.postEntry 0 db1 7 1 b (jan1 + Clock.msPerDay)).1 in
  let db4 := (Habits.postEntry 0 db2 7 1 b (jan1 + 3 * Clock.msPerDay)).1 in
  let streak db := (λ h, Habit.currentStreak (Habit.stats h)) <$> Habits.habits db !! 1%nat in
  streak db1 = Some 1 ∧ streak db2 = Some 2 ∧ streak db4 = Some 1.
Proof. vm_compute. done. Qed.

(** C1, on the code.  Two accepted requests with [completed = true] arrive
    on one calendar day (day 2) for a habit whose day 1 is completed, with
    [totalCompletions = 1] and [currentStreak = 1].  The first request
    leaves 2 and 2; the second one, on the same day, leaves 3 and 3: the
    stats update is applied once per request, not once per day, although
    the day still has one entry. *)
Theorem double_completion_same_day :
  let h := {| Habit.user := 7; Habit.name := "Walk"; Habit.isActive := true;
              Habit.stats := {| Habit.totalCompletions := 1; Habit.currentStreak := 1;
                                Habit.longestStreak := 1; Habit.completionRate := 0;
                                Habit.lastCompleted := Some 86400700 |} |} in
  let e := {| HabitEntry._id := 0; HabitEntry.habit := 1; HabitEntry.user := 7;
              HabitEntry.date := 86400000; HabitEntry.completed := true;
              HabitEntry.value := 1; HabitEntry.notes := None |} in
  let db0 := {| Habits.habits := {[ 1%nat := h ]}; Habits.entries := [e];
                Habits.nextId := 1 |} in
  let b := {| Habits.completed := true; Habits.value := Some 1; Habits.notes := None |} in
  let db1 := (Habits.postEntry 0 db0 7 1 b 172800500).1 in
  let db2 := (Habits.postEntry 0 db1 7 1 b 172900000).1 in
  let view db :=
    (λ h, (Habit.totalCompletions (Habit.stats h), Habit.currentStreak (Habit.stats h)))
    <$> Habits.habits db !! 1%nat in
  Clock.startOfDay 0 172800500 = Clock.startOfDay 0 172900000
  ∧ view db1 = Some (2, 2)
  ∧ view db2 = Some (3, 3)
  ∧ length (Habits.entriesOfDay 0 db2 7 1 172800000) = 1%nat.
Proof. vm_compute. done. Qed.

(** ** The daily upsert, seen from the calendar *)

Section UpsertFacts.
Variable utcOffset : Z.


Lemma mood_onDay_spec (uid : nat) (lo hi : Z) (m : Mood.t) :
  Moods.onDay uid lo hi m = true
  ↔ Mood.user m = uid ∧ Clock.inRange lo hi (Mood.date m) = true.
Proof. unfold Moods.onDay. by rewrite andb_true_iff, Nat.eqb_eq. Qed.

(** The mood handler, through the shared pattern. *)
Lemma postMood_upsert (db : Moods.Db) (uid : nat) (b : Moods.Body) (now : Z) :
  Moods.validationOk b = true →
  let today := Clock.startOfDay utcOffset now in
  let r := Daily.upsert Mood._id
             (Moods.onDay uid today (Clock.endOfDay utcOffset today))
             (Moods.applyBody b today) (Moods.newMood (Moods.nextId db) uid today b)
             (Moods.moods db) (Moods.nextId db) in
  Moods.postMood utcOffset db uid b now
  = ({| Moods.moods := r.1.1; Moods.nextId := r.1.2 |}, Ok r.2).
Proof.
  intros Hv. unfold Moods.postMood, Daily.upsert. rewrite Hv. simpl.
  by destruct (Mongo.findOne _ _).
Qed.

(** One accepted mood request, seen from the calendar. *)
Lemma postMood_day (db : Moods.Db) (uid : nat) (b : Moods.Body) (now : Z) :
  Moods.wf utcOffset db → Moods.validationOk b = true →
  let today := Clock.startOfDay utcOffset now in
  let db' := (Moods.postMood utcOffset db uid b now).1 in
  Moods.wf utcOffset db'
  ∧ ((Moods.moodsOfDay utcOffset db uid today = []
      ∧ Moods.moodsOfDay utcOffset db' uid today
        = [Moods.newMood (Moods.nextId db) uid today b])
     ∨ (∃ m, Moods.moodsOfDay utcOffset db uid today = [m]
             ∧ Moods.moodsOfDay utcOffset db' uid today = [Moods.applyBody b today m]))
  ∧ (∀ uid' day', (uid', day') ≠ (uid, today) →
       Moods.moodsOfDay utcOffset db' uid' day' = Moods.moodsOfDay utcOffset db uid' day').
Proof.
  intros Hwf Hv today db'.
  destruct (upsert_spec Mood._id Mood.user Mood.date utcOffset
              (Moods.onDay uid today (Clock.endOfDay utcOffset today))
              (Moods.applyBody b today) (Moods.newMood (Moods.nextId db) uid today b)
              uid now (λ m, mood_onDay_spec uid _ _ m)
              (λ _, eq_refl) (λ _, eq_refl) (λ _ _, eq_refl) eq_refl eq_refl
              (Moods.moods db) (Moods.nextId db) Hwf eq_refl)
    as (Hwf' & Hcase & Hother & _).
  unfold db'. rewrite postMood_upsert by done.
  unfold Moods.wf, Moods.moodsOfDay. simpl.
  split; [done|]. split; [|done].
  destruct Hcase as [(H0 & _ & H1)|(m & H0 & _ & H1 & _)].
  - by left.
  - right. by exists m.
Qed.

(** Every request, accepted or not, keeps the invariants. *)
Lemma postEntry_wf (db : Habits.Db) (uid id : nat) (b : Habits.Body) (now : Z) :
  Habits.wf utcOffset db →
  Habits.wf utcOffset (Habits.postEntry utcOffset db uid id b now).1.
Proof.
  intros Hwf.
  destruct (Habits.validationOk b) eqn:Hv;
    [|by unfold Habits.postEntry; rewrite Hv].
  destruct (Habits.findHabit (Habits.habits db) id uid) as [h|] eqn:Hf;
    [|by unfold Habits.postEntry; rewrite Hv, Hf].
  by apply (postEntry_day utcOffset db uid id b now h).
Qed.

Lemma postMood_wf (db : Moods.Db) (uid : nat) (b : Moods.Body) (now : Z) :
  Moods.wf utcOffset db →
  Moods.wf utcOffset (Moods.postMood utcOffset db uid b now).1.
Proof.
  intros Hwf.
  destruct (Moods.validationOk b) eqn:Hv;
    [|by unfold Moods.postMood; rewrite Hv].
  by apply postMood_day.
Qed.

End UpsertFacts.

(** The empty collections satisfy the invariants, so every state reached
    from them through the log handlers does ([postEntry_day],
    [postMood_day]). *)
Lemma wf_empty (off : Z) (hs : gmap nat Habit.t) :
  Habits.wf off {| Habits.habits := hs; Habits.entries := []; Habits.nextId := 0 |}
  ∧ Moods.wf off {| Moods.moods := []; Moods.nextId := 0 |}.
Proof. split; repeat split; constructor. Qed.

(** * Further properties of the handlers *)

(** ** Goals: days remaining, progress log, deletion *)

Section GoalMoreFacts.
Import Goals.

Lemma mathCeil_ratio (a d : Z) :
  0 < d → JS.mathCeil (inject_Z a / inject_Z d) = - ((- a) `div` d).
Proof.
  intros Hd. unfold JS.mathCeil, Qceiling. f_equal.
  rewrite Zdiv_Qdiv. apply Qfloor_comp.
  rewrite inject_Z_opp. unfold Qdiv. ring.
Qed.

Lemma mathCeil_ratio_bounds (a d : Z) :
  0 < d →
  (JS.mathCeil (inject_Z a / inject_Z d) - 1) * d < a
  ≤ JS.mathCeil (inject_Z a / inject_Z d) * d.
Proof.
  intros Hd. rewrite mathCeil_ratio by done.
  pose proof (Z.div_mod (- a) d) as Hdm.
  pose proof (Z.mod_pos_bound (- a) d Hd) as Hmod. lia.
Qed.

(** X1. [daysRemaining] is never negative; it is [0] exactly when the
    deadline is not after [now]; and for a deadline in the future it is
    the least number [d] of whole days with [deadline ≤ now + d] days. *)
Theorem daysRemaining_spec (now : Z) (g : Goal) :
  0 ≤ daysRemaining now g
  ∧ (daysRemaining now g = 0 ↔ deadline g ≤ now)
  ∧ (now < deadline g →
     now + (daysRemaining now g - 1) * Clock.msPerDay < deadline g
     ≤ now + daysRemaining now g * Clock.msPerDay).
Proof.
  unfold daysRemaining.
  change (1000 * 60 * 60 * 24) with Clock.msPerDay.
  pose proof msPerDay_pos as HD.
  pose proof (mathCeil_ratio_bounds (deadline g - now) Clock.msPerDay) as Hb.
  set (c := JS.mathCeil _) in *.
  split; [lia|]. split; [split|]; intros Hlt; nia.
Qed.

Lemma daysRemaining_spec_witness :
  let g := {| user := 7; title := "Run"; targetValue := Some 12;
              currentValue := 3; deadline := 86400001; status := active;
              milestones := []; progress := [] |} in
  0 + (daysRemaining 0 g - 1) * Clock.msPerDay < 86400001
  ≤ 0 + daysRemaining 0 g * Clock.msPerDay.
Proof.
  intros g. apply (proj2 (proj2 (daysRemaining_spec 0 g))). reflexivity.
Defined.

Lemma findOne_Some (goals : gmap nat Goal) (id uid : nat) (g : Goal) :
  findOne goals id uid = Some g ↔ goals !! id = Some g ∧ user g = uid.
Proof.
  unfold findOne. destruct (goals !! id) as [g0|].
  - destruct (Nat.eqb_spec (user g0) uid) as [Hu|Hu].
    + split; [by intros [= <-]|by intros [[= <-] _]].
    + split; [done|]. intros [[= <-] Hu']. done.
  - split; [done|]. by intros [? _].
Qed.

(** X2. A progress request writes at most the goal it names, and only
    when its body is valid and that goal belongs to the caller: a goal of
    another user is never changed, a rejected request (400 or 404) leaves
    the whole collection as it was, and an accepted one keeps the owner,
    title, target and deadline of the goal. *)
Theorem postProgress_writes_own_goal_only (goals : gmap nat Goal) (uid id : nat)
    (b : ProgressBody) (now : Z) :
  let r := postProgress goals uid id b now in
  (∀ id' g', goals !! id' = Some g' → user g' ≠ uid → r.1 !! id' = Some g')
  ∧ (∀ id', id' ≠ id → r.1 !! id' = goals !! id')
  ∧ (validationOk b = false → r = (goals, BadRequest))
  ∧ (validationOk b = true → findOne goals id uid = None → r = (goals, NotFound))
  ∧ (∀ g', r.2 = Ok g' →
       ∃ g, goals !! id = Some g ∧ user g = uid ∧ r.1 !! id = Some g'
            ∧ user g' = uid ∧ title g' = title g
            ∧ targetValue g' = targetValue g ∧ deadline g' = deadline g).
Proof.
  intros r. unfold r, postProgress.
  destruct (validationOk b); simpl.
  - destruct (findOne goals id uid) as [g|] eqn:Hf; simpl.
    + apply findOne_Some in Hf as [Hg Hu].
      repeat split; try done.
      * intros id' g' Hg' Hne. rewrite lookup_insert_ne; [done|].
        intros <-. rewrite Hg in Hg'. injection Hg' as <-. done.
      * intros id' Hne. by rewrite lookup_insert_ne.
      * intros g' [= <-]. exists g. by rewrite lookup_insert_eq.
    + repeat split; done.
  - repeat split; done.
Qed.

Lemma postProgress_writes_own_goal_only_witness :
  let g := {| user := 7; title := "Run"; targetValue := Some 12;
              currentValue := 3; deadline := 0; status := active;
              milestones := []; progress := [] |} in
  (postProgress {[ 1%nat := g ]} 8 1 {| value := 5; notes := None |} 100).1 !! 1%nat
  = Some g.
Proof.
  intros g.
  apply (proj1 (postProgress_writes_own_goal_only {[ 1%nat := g ]} 8 1
                  {| value := 5; notes := None |} 100) 1%nat g);
    [vm_compute; reflexivity|discriminate].
Defined.

(** The record that a request appends to the progress log: the notes are
    stored trimmed. *)
Local Abbreviation logged c :=
  {| pr_date := c.2; pr_value := value c.1; pr_notes := JS.trim <$> notes c.1 |}.

Lemma applyAll_progress (calls : list (ProgressBody * Z)) :
  ∀ g, progress (applyAll g calls) = progress g ++ ((λ c, logged c) <$> calls).
Proof.
  induction calls as [|c calls IH] using rev_ind; intros g.
  - by rewrite app_nil_r.
  - rewrite applyAll_snoc, fmap_app. simpl. rewrite IH. by rewrite <- app_assoc.
Qed.

Lemma sum_logged (calls : list (ProgressBody * Z)) :
  foldr (λ p s, pr_value p + s) 0 ((λ c, logged c) <$> calls) = Spec.sumDeltas calls.
Proof.
  unfold Spec.sumDeltas. induction calls as [|c calls IH]; simpl; [done|].
  f_equal. exact IH.
Qed.

Lemma foldr_sum_app (l1 l2 : list ProgressEntry) :
  foldr (λ p s, pr_value p + s) 0 (l1 ++ l2)
  = foldr (λ p s, pr_value p + s) 0 l1 + foldr (λ p s, pr_value p + s) 0 l2.
Proof. induction l1 as [|p l1 IH]; simpl; lia. Qed.

Lemma applyAll_user (calls : list (ProgressBody * Z)) :
  ∀ g, user (applyAll g calls) = user g.
Proof.
  induction calls as [|c calls IH] using rev_ind; intros g; [done|].
  rewrite applyAll_snoc. simpl. apply IH.
Qed.

(** X3. A goal receives a sequence of accepted progress requests whose
    values are sent as JSON numbers, the total staying within [2^53].
    Then GET /api/goals/:id/progress shows the old log followed by one
    record per request, in order, each with the request's value and
    instant and with its notes trimmed, and a [currentValue] raised by the
    sum of the values.  So a goal whose [currentValue] is the sum of its
    log keeps that property under such requests. *)
Theorem progress_log_matches_value (goals : gmap nat Goal) (uid id : nat)
    (g : Goal) (calls : list (ProgressBody * Z)) :
  findOne goals id uid = Some g →
  Forall (λ c, validationOk c.1 = true) calls →
  0 ≤ currentValue g → currentValue g + Spec.sumDeltas calls ≤ 2 ^ 53 →
  let sent := (λ c, (ofBody c.1, c.2)) <$> calls in
  ∃ v, getProgress (postProgressRawAll goals uid id sent) uid id = Ok v
       ∧ pv_progress v
         = progress g
           ++ ((λ c, {| pr_date := c.2; pr_value := value c.1;
                        pr_notes := JS.trim <$> notes c.1 |}) <$> calls)
       ∧ pv_currentValue v = currentValue g + Spec.sumDeltas calls
       ∧ pv_targetValue v = targetValue g
       ∧ (currentValue g = foldr (λ p s, pr_value p + s) 0 (progress g) →
          pv_currentValue v = foldr (λ p s, pr_value p + s) 0 (pv_progress v)).
Proof.
  intros [Hg Hu]%findOne_Some Hv Hcv Hsum sent. unfold sent.
  rewrite (postProgressRawAll_ofBody uid id calls goals g) by done.
  pose proof (postProgressAll_found calls goals uid id g Hg Hu Hv) as Hall.
  unfold getProgress.
  assert (findOne (postProgressAll goals uid id calls) id uid
          = Some (applyAll g calls)) as ->.
  { apply findOne_Some. split; [done|]. by rewrite applyAll_user. }
  eexists. split; [done|]. simpl.
  rewrite applyAll_progress, applyAll_currentValue, applyAll_targetValue.
  repeat split. intros Hinv. rewrite foldr_sum_app, sum_logged. lia.
Qed.

Lemma progress_log_matches_value_witness :
  let g := {| user := 7; title := "Run"; targetValue := Some 12;
              currentValue := 0; deadline := 0; status := active;
              milestones := []; progress := [] |} in
  let sent := [ ({| raw_value := JS.VNum 3; raw_notes := None |}, 10);
                ({| raw_value := JS.VNum 4;
                    raw_notes := Some " long run "%string |}, 20) ] in
  ∃ v, getProgress (postProgressRawAll {[ 1%nat := g ]} 7 1 sent) 7 1 = Ok v
       ∧ pv_currentValue v = 7
       ∧ pv_progress v = [ {| pr_date := 10; pr_value := 3; pr_notes := None |};
                           {| pr_date := 20; pr_value := 4;
                              pr_notes := Some "long run"%string |} ].
Proof.
  intros g sent.
  set (calls := [ ({| value := 3; notes := None |}, 10);
                  ({| value := 4; notes := Some " long run "%string |}, 20) ]).
  assert (findOne {[ 1%nat := g ]} 1 7 = Some g) as Hf by (vm_compute; reflexivity).
  assert (Forall (λ c : ProgressBody * Z, validationOk c.1 = true) calls) as Hv
    by (repeat constructor).
  destruct (progress_log_matches_value {[ 1%nat := g ]} 7 1 g calls Hf Hv)
    as (v & Hget & Hlog & Hcv & _); [simpl; lia|vm_compute; discriminate|].
  exists v. split; [exact Hget|]. split; [rewrite Hcv; reflexivity|].
  rewrite Hlog. reflexivity.
Defined.

End GoalMoreFacts.

(** ** Sorting with a comparator *)

Section SortFacts.
Context {A : Type} (cmp : A → A → Z).

Lemma insertBy_perm (x : A) (l : list A) : JS.insertBy cmp x l ≡ₚ x :: l.
Proof.
  induction l as [|y l IH]; simpl; [done|].
  destruct (cmp x y <=? 0); [done|]. rewrite IH. apply Permutation_swap.
Qed.

Lemma sortBy_perm (l : list A) : JS.sortBy cmp l ≡ₚ l.
Proof.
  unfold JS.sortBy. induction l as [|x l IH]; simpl; [done|].
  by rewrite insertBy_perm, IH.
Qed.

(** Elements that never compare greater than one another keep their
    relative order: the sort is stable. *)
Lemma insertBy_filter (P : A → Prop) `{!∀ x, Decision (P x)} (x : A) (l : list A) :
  (∀ a b, P a → P b → cmp a b ≤ 0) →
  filter P (JS.insertBy cmp x l) = filter P (x :: l).
Proof.
  intros Htie. induction l as [|y l IH]; simpl; [done|].
  destruct (Z.leb_spec (cmp x y) 0) as [Hle|Hgt]; [done|].
  rewrite filter_cons, IH, !filter_cons.
  destruct (decide (P y)) as [Hy|Hy]; [|done].
  destruct (decide (P x)) as [Hx|Hx]; [|done].
  specialize (Htie x y Hx Hy). lia.
Qed.

Lemma sortBy_filter (P : A → Prop) `{!∀ x, Decision (P x)} (l : list A) :
  (∀ a b, P a → P b → cmp a b ≤ 0) →
  filter P (JS.sortBy cmp l) = filter P l.
Proof.
  intros Htie. unfold JS.sortBy. induction l as [|x l IH]; simpl; [done|].
  rewrite insertBy_filter by done. by rewrite !filter_cons, IH.
Qed.

Hypothesis cmp_total : ∀ x y, 0 < cmp x y → cmp y x ≤ 0.
Hypothesis cmp_trans : ∀ x y z, cmp x y ≤ 0 → cmp y z ≤ 0 → cmp x z ≤ 0.

Lemma insertBy_sorted (x : A) (l : list A) :
  StronglySorted (λ a b, cmp a b ≤ 0) l →
  StronglySorted (λ a b, cmp a b ≤ 0) (JS.insertBy cmp x l).
Proof.
  induction 1 as [|y l Hl IH Hy]; simpl; [by repeat constructor|].
  destruct (Z.leb_spec (cmp x y) 0) as [Hle|Hgt].
  - constructor; [by constructor|]. constructor; [done|].
    eapply Forall_impl; [exact Hy|]. intros z Hz. by eapply cmp_trans.
  - constructor; [done|]. rewrite insertBy_perm. constructor; [|done].
    by apply cmp_total.
Qed.

Lemma sortBy_sorted (l : list A) :
  StronglySorted (λ a b, cmp a b ≤ 0) (JS.sortBy cmp l).
Proof.
  unfold JS.sortBy. induction l as [|x l IH]; simpl; [constructor|].
  by apply insertBy_sorted.
Qed.

End SortFacts.

Lemma StronglySorted_take {A : Type} (R : A → A → Prop) (n : nat) (l : list A) :
  StronglySorted R l → StronglySorted R (take n l).
Proof.
  intros Hs. revert n. induction Hs as [|x l Hl IH Hx]; intros [|n]; simpl;
    try constructor; [apply IH|by apply Forall_take].
Qed.

Lemma StronglySorted_mono {A : Type} (R1 R2 : A → A → Prop) (l : list A) :
  (∀ a b, R1 a b → R2 a b) → StronglySorted R1 l → StronglySorted R2 l.
Proof.
  intros Himp. induction 1 as [|x l Hl IH Hx]; constructor; [done|].
  eapply Forall_impl; [exact Hx|]. auto.
Qed.

Lemma StronglySorted_fmap_2 {A B : Type} (R : B → B → Prop) (f : A → B) (l : list A) :
  StronglySorted (λ a b, R (f a) (f b)) l → StronglySorted R (f <$> l).
Proof.
  induction 1 as [|x l Hl IH Hx]; simpl; constructor; [done|].
  by apply Forall_fmap.
Qed.

(** ** Rounded ratios *)

Lemma mathRound_mono (x y : Q) : (x <= y)%Q → JS.mathRound x ≤ JS.mathRound y.
Proof.
  intros Hxy. unfold JS.mathRound. apply Qfloor_resp_le. by apply Qplus_le_l.
Qed.

Lemma ratio_nonneg (a b : Z) : 0 ≤ a → 0 < b → (0 <= inject_Z a / inject_Z b)%Q.
Proof.
  intros Ha Hb. apply Qle_shift_div_l.
  - change 0%Q with (inject_Z 0). by rewrite <- Zlt_Qlt.
  - rewrite Qmult_0_l. change 0%Q with (inject_Z 0). by rewrite <- Zle_Qle.
Qed.

Lemma ratio_le (a b c : Z) :
  0 < b → a ≤ c * b → (inject_Z a / inject_Z b <= inject_Z c)%Q.
Proof.
  intros Hb Hle. apply Qle_shift_div_r.
  - change 0%Q with (inject_Z 0). by rewrite <- Zlt_Qlt.
  - rewrite <- inject_Z_mult, <- Zle_Qle. done.
Qed.

Lemma ratio_ge (a b c : Z) :
  0 < b → c * b ≤ a → (inject_Z c <= inject_Z a / inject_Z b)%Q.
Proof.
  intros Hb Hle. apply Qle_shift_div_l.
  - change 0%Q with (inject_Z 0). by rewrite <- Zlt_Qlt.
  - rewrite <- inject_Z_mult, <- Zle_Qle. done.
Qed.

Lemma mathRound_inject_Z (k : Z) : JS.mathRound (inject_Z k) = k.
Proof.
  unfold JS.mathRound.
  pose proof (Qfloor_le (inject_Z k + (1 # 2))) as Hle.
  pose proof (Qlt_floor (inject_Z k + (1 # 2))) as Hlt.
  set (f := Qfloor _) in *.
  unfold Qle in Hle. unfold Qlt in Hlt. simpl in Hle, Hlt. lia.
Qed.

(** A rounded result lies on the same side of an integer double as the
    exact one. *)
Lemma toDouble_le_Z (x : Q) (c : Z) :
  (0 <= x)%Q → (x <= inject_Z c)%Q → c ≤ 2 ^ 53 → (JS.toDouble x <= inject_Z c)%Q.
Proof.
  intros Hx Hle Hc.
  assert (0 ≤ c) as Hc0.
  { apply (Qle_trans _ _ _ Hx) in Hle. change 0%Q with (inject_Z 0) in Hle.
    by rewrite <- Zle_Qle in Hle. }
  apply Qle_trans with (JS.toDouble (inject_Z c)); [by apply toDouble_mono|].
  rewrite toDouble_inject_Z by done. apply Qle_refl.
Qed.

Lemma toDouble_ge_Z (x : Q) (c : Z) :
  0 ≤ c ≤ 2 ^ 53 → (inject_Z c <= x)%Q → (inject_Z c <= JS.toDouble x)%Q.
Proof.
  intros Hc Hle.
  apply Qle_trans with (JS.toDouble (inject_Z c)).
  - rewrite toDouble_inject_Z by done. apply Qle_refl.
  - apply toDouble_mono; [|done]. change 0%Q with (inject_Z 0).
    rewrite <- Zle_Qle. lia.
Qed.

(** [Math.round((a / b) * k)] between the multiples of [k] that bracket
    the ratio. *)
Lemma scaled_ratio_le (a b c k : Z) :
  0 ≤ a → 0 < b → a ≤ c * b → 0 ≤ k → c * k ≤ 2 ^ 53 → c ≤ 2 ^ 53 →
  JS.mathRound (JS.mul (JS.div (inject_Z a) (inject_Z b)) (inject_Z k)) ≤ c * k.
Proof.
  intros Ha Hb Hle Hk Hck Hc.
  rewrite <- (mathRound_inject_Z (c * k)). apply mathRound_mono.
  pose proof (ratio_nonneg a b Ha Hb) as H0.
  pose proof (toDouble_nonneg _ H0) as Hd0.
  pose proof (toDouble_le_Z _ c H0 (ratio_le a b c Hb Hle) Hc) as Hd.
  fold (JS.div (inject_Z a) (inject_Z b)) in Hd0, Hd.
  assert (0 <= inject_Z k)%Q as Hk'
    by (change 0%Q with (inject_Z 0); by rewrite <- Zle_Qle).
  unfold JS.mul. apply toDouble_le_Z; [by apply Qmult_le_0_compat| |done].
  rewrite inject_Z_mult. by apply Qmult_le_compat_r.
Qed.

Lemma scaled_ratio_ge (a b c k : Z) :
  0 < b → c * b ≤ a → 0 ≤ c ≤ 2 ^ 53 → 0 ≤ k → c * k ≤ 2 ^ 53 →
  c * k ≤ JS.mathRound (JS.mul (JS.div (inject_Z a) (inject_Z b)) (inject_Z k)).
Proof.
  intros Hb Hle Hc Hk Hck.
  rewrite <- (mathRound_inject_Z (c * k)) at 1. apply mathRound_mono.
  pose proof (toDouble_ge_Z _ c Hc (ratio_ge a b c Hb Hle)) as Hd.
  fold (JS.div (inject_Z a) (inject_Z b)) in Hd.
  assert (0 <= inject_Z k)%Q as Hk'
    by (change 0%Q with (inject_Z 0); by rewrite <- Zle_Qle).
  unfold JS.mul. apply toDouble_ge_Z; [lia|].
  rewrite inject_Z_mult. by apply Qmult_le_compat_r.
Qed.

(** [Math.round(a / b * 100)] for [0 ≤ a ≤ b] is a percentage. *)
Lemma percent_bounds (a b : Z) :
  0 ≤ a ≤ b → 0 < b →
  0 ≤ JS.mathRound (JS.mul (JS.div (inject_Z a) (inject_Z b)) 100) ≤ 100.
Proof.
  intros Ha Hb. split.
  - apply (scaled_ratio_ge a b 0 100); lia.
  - apply (scaled_ratio_le a b 1 100); lia.
Qed.

(** ** Goals: milestones over time, deletion, statistics *)

Section GoalStatsFacts.
Import Goals.

Lemma applyAll_milestones (calls : list (ProgressBody * Z)) :
  ∀ g i m, milestones g !! i = Some m →
    ∃ m', milestones (applyAll g calls) !! i = Some m'
          ∧ ms_title m' = ms_title m ∧ ms_targetValue m' = ms_targetValue m
          ∧ (ms_completed m = true → m' = m)
          ∧ (ms_completed m' = false → ms_completed m = false).
Proof.
  induction calls as [|c calls IH] using rev_ind; intros g i m Hm.
  - exists m. by repeat split.
  - destruct (IH g i m Hm) as (m1 & Hm1 & Ht & Htv & Hkeep & Hback).
    rewrite applyAll_snoc, applyProgress_milestones, list_lookup_fmap, Hm1. simpl.
    eexists. split; [done|]. unfold checkMilestone.
    destruct (ms_completed m1) eqn:Hc1; simpl.
    + repeat split; try done. intros Hfalse. congruence.
    + specialize (Hback eq_refl).
      destruct (ms_targetValue m1 <=? _); simpl; repeat split; try done;
        intros Hc; congruence.
Qed.

(** X4. Over any sequence of accepted progress requests the milestone list
    keeps its length, titles and targets; a milestone that is completed
    stays exactly as it is, with its [completedAt]; no request turns a
    completed milestone back. *)
Theorem milestones_never_revert (goals : gmap nat Goal) (uid id : nat)
    (g : Goal) (calls : list (ProgressBody * Z)) :
  findOne goals id uid = Some g →
  Forall (λ c, validationOk c.1 = true) calls →
  ∃ g', postProgressAll goals uid id calls !! id = Some g'
        ∧ length (milestones g') = length (milestones g)
        ∧ ∀ i m, milestones g !! i = Some m →
            ∃ m', milestones g' !! i = Some m'
                  ∧ ms_title m' = ms_title m
                  ∧ ms_targetValue m' = ms_targetValue m
                  ∧ (ms_completed m = true → m' = m).
Proof.
  intros [Hg Hu]%findOne_Some Hv. exists (applyAll g calls).
  split; [by apply postProgressAll_found|]. split.
  - clear. induction calls as [|c calls IH] using rev_ind; [done|].
    by rewrite applyAll_snoc, applyProgress_milestones, length_fmap.
  - intros i m Hm.
    destruct (applyAll_milestones calls g i m Hm) as (m' & H1 & H2 & H3 & H4 & _).
    by exists m'.
Qed.

Lemma milestones_never_revert_witness :
  let done6 := {| ms_title := "half"; ms_targetValue := 6;
                  ms_completed := true; ms_completedAt := Some 5 |} in
  let g := {| user := 7; title := "Run"; targetValue := Some 12;
              currentValue := 6; deadline := 0; status := active;
              milestones := [done6]; progress := [] |} in
  let calls := [ ({| value := 0; notes := None |}, 10);
                 ({| value := 9; notes := None |}, 20) ] in
  ∃ g', postProgressAll {[ 1%nat := g ]} 7 1 calls !! 1%nat = Some g'
        ∧ milestones g' !! 0%nat = Some done6.
Proof.
  intros done6 g calls.
  assert (findOne {[ 1%nat := g ]} 1 7 = Some g) as Hf by (vm_compute; reflexivity).
  assert (Forall (λ c : ProgressBody * Z, validationOk c.1 = true) calls) as Hv
    by (repeat constructor).
  destruct (milestones_never_revert {[ 1%nat := g ]} 7 1 g calls Hf Hv)
    as (g' & Hg' & _ & Hms).
  exists g'. split; [exact Hg'|].
  destruct (Hms 0%nat done6 eq_refl) as (m' & Hm' & _ & _ & Hkeep).
  by rewrite Hm', (Hkeep eq_refl).
Defined.

(** X5. Deleting a goal of the caller removes that goal and no other;
    afterwards reading its progress and adding progress to it answer 404
    and write nothing.  Deleting a goal that is missing or belongs to
    someone else answers 404 and leaves the collection as it was. *)
Theorem deleteGoal_spec (goals : gmap nat Goal) (uid id : nat) :
  let r := deleteGoal goals uid id in
  (∀ id', id' ≠ id → r.1 !! id' = goals !! id')
  ∧ (findOne goals id uid = None → r = (goals, NotFound))
  ∧ (∀ g, findOne goals id uid = Some g →
       r.2 = Ok tt ∧ r.1 !! id = None
       ∧ getProgress r.1 uid id = NotFound
       ∧ ∀ b now, validationOk b = true →
           postProgress r.1 uid id b now = (r.1, NotFound)).
Proof.
  intros r. unfold r, deleteGoal.
  destruct (findOne goals id uid) as [g|] eqn:Hf; simpl.
  - assert (findOne (delete id goals) id uid = None) as Hgone
      by (unfold findOne; by rewrite lookup_delete_eq).
    split; [by intros id' Hne; rewrite lookup_delete_ne|]. split; [done|].
    intros _ _. repeat split; [apply lookup_delete_eq| |].
    + unfold getProgress. by rewrite Hgone.
    + intros b now Hv. unfold postProgress. by rewrite Hv, Hgone.
  - by repeat split.
Qed.

Lemma deleteGoal_spec_witness :
  let g := {| user := 7; title := "Run"; targetValue := Some 12;
              currentValue := 6; deadline := 0; status := active;
              milestones := []; progress := [] |} in
  getProgress (deleteGoal {[ 1%nat := g ]} 7 1).1 7 1 = NotFound.
Proof.
  intros g.
  assert (findOne {[ 1%nat := g ]} 1 7 = Some g) as Hf by (vm_compute; reflexivity).
  exact (proj1 (proj2 (proj2 (proj2 (proj2 (deleteGoal_spec {[ 1%nat := g ]} 7 1)) g Hf)))).
Defined.

Lemma countStatus_cons (s : Status) (g : nat * Goal) (goals : list (nat * Goal)) :
  countStatus s (g :: goals)
  = ((if Status_eqb (status g.2) s then 1 else 0) + countStatus s goals)%nat.
Proof.
  unfold countStatus. rewrite filter_cons.
  destruct (Status_eqb (status g.2) s); by rewrite ?decide_True, ?decide_False by done.
Qed.

Lemma countStatus_partition (goals : list (nat * Goal)) :
  length goals
  = (countStatus active goals + countStatus completed goals
     + countStatus paused goals + countStatus cancelled goals)%nat.
Proof.
  induction goals as [|g goals IH]; [done|].
  rewrite !countStatus_cons. simpl. rewrite IH.
  destruct (status g.2); simpl; lia.
Qed.

Lemma progressPercentage_bounds (g : Goal) :
  progressPercentage g ≤ 100 ∧ (0 ≤ currentValue g → 0 ≤ progressPercentage g).
Proof.
  unfold progressPercentage.
  destruct (targetValue g) as [tv|]; [|done].
  destruct (Z.ltb_spec 0 tv) as [Hpos|_]; [|by rewrite andb_false_r].
  rewrite (proj2 (Z.eqb_neq tv 0)) by lia. simpl. split.
  - apply Z.le_min_r.
  - intros Hcv. apply Z.min_glb; [|done]. by apply percentage_nonneg.
Qed.

Lemma sum_percentages_bounds (goals : list (nat * Goal)) :
  Forall (λ g, 0 ≤ currentValue g.2) goals →
  ∀ acc, acc ≤ foldl (λ sum g, sum + progressPercentage g.2) acc goals
         ≤ acc + 100 * Z.of_nat (length goals).
Proof.
  induction 1 as [|g goals Hg _ IH]; intros acc; simpl; [lia|].
  specialize (IH (acc + progressPercentage g.2)).
  destruct (progressPercentage_bounds g.2) as [Hhi Hlo]. specialize (Hlo Hg). lia.
Qed.

(** X6. In the goal statistics the four status counts add up to [total],
    [completionRate] is a percentage between 0 and 100, and so is
    [averageProgress] when no goal has a negative [currentValue] (the
    schema's [min: 0]). *)
Theorem goal_stats_bounds (now : Z) (goals : list (nat * Goal)) :
  let s := stats now goals in
  total s = (st_active s + st_completed s + st_paused s + st_cancelled s)%nat
  ∧ 0 ≤ completionRate s ≤ 100
  ∧ (Forall (λ g, 0 ≤ currentValue g.2) goals → 0 ≤ averageProgress s ≤ 100).
Proof.
  simpl. split; [apply countStatus_partition|].
  destruct goals as [|g goals]; [by repeat split|].
  set (gs := g :: goals).
  assert (0 < Z.of_nat (length gs)) as Hn by (simpl; lia).
  replace (0 <? length gs)%nat with true by (symmetry; apply Nat.ltb_lt; simpl; lia).
  split.
  - apply percent_bounds; [|done].
    pose proof (countStatus_partition gs). lia.
  - intros Hcv. pose proof (sum_percentages_bounds gs Hcv 0) as Hsum.
    set (total := foldl _ 0 gs) in *. split.
    + apply mathRound_nonneg, toDouble_nonneg, ratio_nonneg; lia.
    + rewrite <- (mathRound_inject_Z 100). apply mathRound_mono.
      apply toDouble_le_Z; [apply ratio_nonneg; lia| |lia].
      apply (ratio_le total _ 100); lia.
Qed.

Lemma goal_stats_bounds_witness :
  let g1 := {| user := 7; title := "Run"; targetValue := Some 12;
               currentValue := 6; deadline := 0; status := active;
               milestones := []; progress := [] |} in
  let g2 := {| user := 7; title := "Read"; targetValue := Some 3;
               currentValue := 5; deadline := 0; status := completed;
               milestones := []; progress := [] |} in
  0 ≤ averageProgress (stats 0 [(1%nat, g1); (2%nat, g2)]) ≤ 100.
Proof.
  intros g1 g2.
  apply (proj2 (proj2 (goal_stats_bounds 0 [(1%nat, g1); (2%nat, g2)]))).
  repeat constructor; discriminate.
Defined.

(** X7. [upcomingDeadlines] lists at most five goals; each is an active
    goal of the input with at most 7 days remaining, shown with its own
    id, title, days and percentage; the list is in non-decreasing order of
    days remaining.  It is the first five of the qualifying goals sorted
    by days remaining, goals with equal days keeping their input order. *)
Theorem upcomingDeadlines_ranking (now : Z) (goals : list (nat * Goal)) :
  let ups := upcomingDeadlines (stats now goals) in
  let qualifying :=
    filter (λ g, Status_eqb (status g.2) active = true ∧ daysRemaining now g.2 ≤ 7)
           goals in
  length ups = (5 `min` length qualifying)%nat
  ∧ StronglySorted (λ a b, ud_daysRemaining a ≤ ud_daysRemaining b) ups
  ∧ (∀ u, u ∈ ups →
       ∃ g, (ud_id u, g) ∈ goals ∧ status g = active
            ∧ ud_title u = title g
            ∧ ud_daysRemaining u = daysRemaining now g
            ∧ 0 ≤ ud_daysRemaining u ≤ 7
            ∧ ud_progressPercentage u = progressPercentage g)
  ∧ ∃ sorted,
      sorted ≡ₚ qualifying
      ∧ StronglySorted (λ a b, daysRemaining now a.2 ≤ daysRemaining now b.2) sorted
      ∧ (∀ d, filter (λ g, daysRemaining now g.2 = d) sorted
              = filter (λ g, daysRemaining now g.2 = d) qualifying)
      ∧ ups = (λ g, {| ud_id := g.1; ud_title := title g.2;
                       ud_daysRemaining := daysRemaining now g.2;
                       ud_progressPercentage := progressPercentage g.2 |})
              <$> take 5 sorted.
Proof.
  intros ups qualifying.
  set (cmp := λ a b : nat * Goal, daysRemaining now a.2 - daysRemaining now b.2).
  assert (StronglySorted (λ a b, daysRemaining now a.2 ≤ daysRemaining now b.2)
            (JS.sortBy cmp qualifying)) as Hsorted.
  { apply (StronglySorted_mono (λ a b, cmp a b ≤ 0)); [unfold cmp; intros; lia|].
    apply sortBy_sorted; unfold cmp; intros; lia. }
  split; [|split; [|split]].
  - unfold ups. simpl. rewrite length_fmap, length_take.
    fold qualifying cmp. by rewrite (sortBy_perm cmp qualifying).
  - unfold ups. simpl. fold qualifying cmp.
    apply StronglySorted_fmap_2. simpl. by apply StronglySorted_take.
  - intros u Hu. unfold ups in Hu. simpl in Hu. fold qualifying cmp in Hu.
    apply list_elem_of_fmap in Hu as ([i g] & -> & Hin). simpl.
    assert ((i, g) ∈ qualifying) as Hq.
    { rewrite <- (sortBy_perm cmp qualifying).
      apply elem_of_take in Hin as (j & Hj & _). by eapply list_elem_of_lookup_2. }
    apply list_elem_of_filter in Hq as [[Hact Hdays] Hg]. simpl in *.
    exists g. repeat split; try done.
    + by destruct (status g).
    + apply Z.le_max_l.
  - exists (JS.sortBy cmp qualifying). split; [apply sortBy_perm|].
    split; [done|]. split; [|done].
    intros d. apply sortBy_filter. intros a b Ha Hb. unfold cmp. lia.
Qed.

End GoalStatsFacts.

(** ** Habit entries: who is written, what is read back *)

Section UpsertShape.
Context {A : Type} (ident : A → nat).

(** The two outcomes of the find-then-update-or-create step. *)
Lemma upsert_shape (q : A → bool) (upd : A → A) (new : A) (docs : list A) (next : nat) :
  NoDup (ident <$> docs) →
  (List.find q docs = None
   ∧ Daily.upsert ident q upd new docs next = (docs ++ [new], S next, Some new))
  ∨ (∃ l1 d l2, docs = l1 ++ d :: l2 ∧ q d = true
       ∧ Daily.upsert ident q upd new docs next
         = (l1 ++ upd d :: l2, next, Some (upd d))).
Proof.
  intros Hids. unfold Daily.upsert, Mongo.findOne.
  destruct (List.find q docs) as [d|] eqn:Hfind; [right|by left].
  apply find_Some_split in Hfind as (l1 & l2 & -> & Hq & _).
  exists l1, d, l2. split; [done|]. split; [done|].
  destruct (NoDup_fmap_split ident _ _ _ Hids) as [Hid1 _].
  by rewrite (findByIdAndUpdate_split ident _ upd _ _ _ Hid1 eq_refl).
Qed.

End UpsertShape.

Section HabitReadFacts.
Import Habits.
Variable utcOffset : Z.

Lemma upsertToday_upsert (db : Db) (uid id : nat) (b : Body) (now : Z) :
  upsertToday utcOffset db uid id b now
  = Daily.upsert HabitEntry._id
      (onDay id uid (Clock.startOfDay utcOffset now)
         (Clock.endOfDay utcOffset (Clock.startOfDay utcOffset now)))
      (applyBody b)
      (newEntry (nextId db) id uid (Clock.startOfDay utcOffset now) b)
      (entries db) (nextId db).
Proof. reflexivity. Qed.

(** *** The raw request *)



(** A body that carries the declared keys only. *)
Local Abbreviation plain b :=
  (raw_habit b = None ∧ raw_user b = None ∧ raw_date b = None).

Lemma applyRawBody_plain (b : RawBody) (cb : Body) (e : HabitEntry.t) :
  plain b → applyRawBody b cb e = applyBody cb e.
Proof. intros (Hh & Hu & Hd). unfold applyRawBody. by rewrite Hh, Hu, Hd. Qed.

(** What an accepted raw request leaves behind when the unique index lets
    the update through. *)
Lemma postEntryRaw_found (db : Db) (uid id : nat) (b : RawBody) (cb : Body)
    (now : Z) (h : Habit.t) :
  rawValidationOk b = true → findHabit (habits db) id uid = Some h →
  castBody b = Some cb →
  let today := Clock.startOfDay utcOffset now in
  let q := onDay id uid today (Clock.endOfDay utcOffset today) in
  (∀ e, Mongo.findOne q (entries db) = Some e →
        Mongo.duplicateKey HabitEntry._id indexKey (applyRawBody b cb e) (entries db)
        = false) →
  let up := Daily.upsert HabitEntry._id q (applyRawBody b cb)
              (newEntry (nextId db) id uid today cb) (entries db) (nextId db) in
  postEntryRaw utcOffset db uid id b now
  = ({| habits :=
          <[id := {| Habit.user := Habit.user h; Habit.name := Habit.name h;
                     Habit.isActive := Habit.isActive h;
                     Habit.stats :=
                       updateStats utcOffset up.1.1 uid id
                         (JS.truthy (raw_completed b)) now (Habit.stats h) |}]>
            (habits db);
        entries := up.1.1; nextId := up.1.2 |}, Ok up.2).
Proof.
  intros Hv Hf Hc today q Hdup up. unfold up, postEntryRaw, Daily.upsert.
  rewrite Hv, Hf, Hc. simpl. fold today. fold q.
  destruct (Mongo.findOne q (entries db)) as [e|] eqn:Hfind; [|done].
  by rewrite (Hdup e eq_refl).
Qed.

(** On a body with the declared keys only the update keeps the key of the
    entry, and the unique index lets it through. *)
Lemma postEntryRaw_plain (db : Db) (uid id : nat) (b : RawBody) (cb : Body)
    (now : Z) (h : Habit.t) :
  wf utcOffset db →
  rawValidationOk b = true → findHabit (habits db) id uid = Some h →
  castBody b = Some cb → plain b →
  let up := upsertToday utcOffset db uid id cb now in
  postEntryRaw utcOffset db uid id b now
  = ({| habits :=
          <[id := {| Habit.user := Habit.user h; Habit.name := Habit.name h;
                     Habit.isActive := Habit.isActive h;
                     Habit.stats :=
                       updateStats utcOffset up.1.1 uid id
                         (JS.truthy (raw_completed b)) now (Habit.stats h) |}]>
            (habits db);
        entries := up.1.1; nextId := up.1.2 |}, Ok up.2).
Proof.
  intros Hwf Hv Hf Hc Hplain up.
  rewrite (postEntryRaw_found db uid id b cb now h Hv Hf Hc).
  - unfold up, upsertToday, Daily.upsert.
    destruct (Mongo.findOne _ (entries db)) as [e|]; [|done]. simpl.
    assert (∀ l : list HabitEntry.t,
              Mongo.findByIdAndUpdate HabitEntry._id (HabitEntry._id e)
                (applyRawBody b cb) l
              = Mongo.findByIdAndUpdate HabitEntry._id (HabitEntry._id e)
                  (applyBody cb) l) as ->; [|done].
    induction l as [|x l IH]; simpl; [done|].
    by rewrite IH, applyRawBody_plain.
  - intros e He. rewrite applyRawBody_plain by done.
    destruct Hwf as (_ & _ & _ & Hkeys).
    apply (duplicateKey_unchanged _ _ _ e); [exact Hkeys| |done|done].
    apply find_Some_split in He as (l1 & l2 & -> & _).
    apply elem_of_app. right. apply list_elem_of_here.
Qed.

(** The handler on a typed body is the raw handler at the body of a client
    that sends a JSON boolean, a JSON number below [10^21] and the
    declared keys only. *)
Lemma postEntryRaw_ofBody (db : Db) (uid id : nat) (b : Body) (now : Z) :
  wf utcOffset db → (∀ v, value b = Some v → v < 10 ^ 21) →
  postEntryRaw utcOffset db uid id (ofBody b) now = postEntry utcOffset db uid id b now.
Proof.
  intros Hwf Hsmall.
  assert (rawValidationOk (ofBody b) = validationOk b) as Hval.
  { unfold rawValidationOk, validationOk, ofBody. simpl.
    destruct (value b) as [v|]; simpl; [|done].
    unfold JS.within. specialize (Hsmall v eq_refl).
    destruct (Z.leb_spec 0 v) as [Hle|Hneg]; simpl.
    - by rewrite Z.abs_eq, (proj2 (Z.ltb_lt _ _) Hsmall) by done.
    - by rewrite andb_false_r. }
  assert (castBody (ofBody b) = Some b) as Hcast
    by (destruct b as [c [v|] n]; reflexivity).
  destruct (validationOk b) eqn:Hv;
    [|by unfold postEntryRaw, postEntry; rewrite Hval, Hv].
  destruct (findHabit (habits db) id uid) as [h|] eqn:Hf;
    [|by unfold postEntryRaw, postEntry; rewrite Hval, Hv, Hf].
  rewrite (postEntryRaw_plain db uid id (ofBody b) b now h) by done.
  by rewrite (postEntry_found utcOffset db uid id b now h).
Qed.

(** A raw request whose [completed] is falsy, the JSON [false] or the
    number [0], leaves the Habit collection as it was. *)
Lemma postEntryRaw_falsy_keeps_stats (db : Db) (uid id : nat) (b : RawBody) (now : Z) :
  JS.truthy (raw_completed b) = false →
  habits (postEntryRaw utcOffset db uid id b now).1 = habits db.
Proof.
  intros Hc. unfold postEntryRaw.
  destruct (rawValidationOk b); [|done]. simpl.
  destruct (findHabit (habits db) id uid) as [h|] eqn:Hf; [|done].
  apply findHabit_lookup in Hf as [Hl _].
  destruct (castBody b) as [cb|]; [|done].
  rewrite Hc. unfold updateStats.
  destruct (Mongo.findOne _ (entries db)) as [e|].
  - destruct (Mongo.duplicateKey _ _ _ _); [done|]. simpl.
    destruct h as [u n a st]. by apply insert_id.
  - simpl. destruct h as [u n a st]. by apply insert_id.
Qed.

(** X8. A log request, whatever its body carries, never changes or removes
    an entry of another (user, habit) pair: these entries stay as they
    were, in their order.  When the body carries no [habit] and no [user]
    key, no entry is added to another pair either (with such a key the
    update path moves the entry of the day to the pair that the body
    names).  No habit of another user and no other habit changes; the
    named habit keeps its owner, name and active flag; and a request that
    is answered 400, 404 or 500 leaves the whole database as it was. *)
Theorem postEntry_writes_own_key_only (db : Db) (uid id : nat) (b : RawBody) (now : Z) :
  NoDup (HabitEntry._id <$> entries db) →
  let r := postEntryRaw utcOffset db uid id b now in
  filter (λ e, owner e ≠ (uid, id)) (entries db) `sublist_of` entries r.1
  ∧ (raw_habit b = None → raw_user b = None →
     filter (λ e, owner e ≠ (uid, id)) (entries r.1)
     = filter (λ e, owner e ≠ (uid, id)) (entries db))
  ∧ (∀ id', id' ≠ id → habits r.1 !! id' = habits db !! id')
  ∧ (∀ id' h', habits db !! id' = Some h' → Habit.user h' ≠ uid →
       habits r.1 !! id' = Some h')
  ∧ (∀ h, habits db !! id = Some h →
       ∃ h', habits r.1 !! id = Some h' ∧ Habit.user h' = Habit.user h
             ∧ Habit.name h' = Habit.name h ∧ Habit.isActive h' = Habit.isActive h)
  ∧ (rawValidationOk b = false → r = (db, BadRequest))
  ∧ (rawValidationOk b = true → findHabit (habits db) id uid = None → r = (db, NotFound))
  ∧ (r.2 = BadRequest ∨ r.2 = NotFound ∨ r.2 = ServerError → r.1 = db).
Proof.
  intros Hids r.
  assert (∀ res, let r0 : Db * Response (option HabitEntry.t) := (db, res) in
            filter (λ e, owner e ≠ (uid, id)) (entries db) `sublist_of` entries r0.1
            ∧ (raw_habit b = None → raw_user b = None →
               filter (λ e, owner e ≠ (uid, id)) (entries r0.1)
               = filter (λ e, owner e ≠ (uid, id)) (entries db))
            ∧ (∀ id', id' ≠ id → habits r0.1 !! id' = habits db !! id')
            ∧ (∀ id' h', habits db !! id' = Some h' → Habit.user h' ≠ uid →
                 habits r0.1 !! id' = Some h')
            ∧ (∀ h, habits db !! id = Some h →
                 ∃ h', habits r0.1 !! id = Some h' ∧ Habit.user h' = Habit.user h
                       ∧ Habit.name h' = Habit.name h
                       ∧ Habit.isActive h' = Habit.isActive h)) as Hsame.
  { intros res. simpl. split; [apply sublist_filter|].
    repeat split; try done. intros h Hh. by exists h. }
  assert (∀ (es : list HabitEntry.t) (fresh : nat) (h : Habit.t) (st : Habit.Stats),
            habits db !! id = Some h → Habit.user h = uid →
            let db' := {| habits := <[id := {| Habit.user := Habit.user h;
                                               Habit.name := Habit.name h;
                                               Habit.isActive := Habit.isActive h;
                                               Habit.stats := st |}]> (habits db);
                          entries := es; nextId := fresh |} in
            (∀ id', id' ≠ id → habits db' !! id' = habits db !! id')
            ∧ (∀ id' h', habits db !! id' = Some h' → Habit.user h' ≠ uid →
                 habits db' !! id' = Some h')
            ∧ (∀ h0, habits db !! id = Some h0 →
                 ∃ h', habits db' !! id = Some h' ∧ Habit.user h' = Habit.user h0
                       ∧ Habit.name h' = Habit.name h0
                       ∧ Habit.isActive h' = Habit.isActive h0)) as Hhabits.
  { intros es fresh h st Hh Hu. simpl. split; [|split].
    - intros id' Hne. by rewrite lookup_insert_ne.
    - intros id' h' Hh' Hne. rewrite lookup_insert_ne; [done|].
      intros <-. rewrite Hh in Hh'. injection Hh' as <-. done.
    - intros h0 Hh0. rewrite Hh in Hh0. injection Hh0 as <-.
      eexists. split; [apply lookup_insert_eq|]. done. }
  unfold r, postEntryRaw.
  destruct (rawValidationOk b) eqn:Hv; simpl;
    [|destruct (Hsame BadRequest) as (H1 & H2 & H3 & H4 & H5); by repeat split].
  destruct (findHabit (habits db) id uid) as [h|] eqn:Hf;
    [|destruct (Hsame NotFound) as (H1 & H2 & H3 & H4 & H5); by repeat split].
  apply findHabit_lookup in Hf as [Hh Hu].
  destruct (castBody b) as [cb|];
    [|destruct (Hsame ServerError) as (H1 & H2 & H3 & H4 & H5); by repeat split].
  destruct (Mongo.findOne _ (entries db)) as [e|] eqn:Hfind.
  - destruct (Mongo.duplicateKey _ _ _ _);
      [destruct (Hsame ServerError) as (H1 & H2 & H3 & H4 & H5); by repeat split|].
    apply find_Some_split in Hfind as (l1 & l2 & Hdocs & [He _]%onDay_spec & _).
    rewrite Hdocs in Hids |- *.
    destruct (NoDup_fmap_split HabitEntry._id _ _ _ Hids) as [Hid1 _].
    rewrite (findByIdAndUpdate_split HabitEntry._id _ _ _ _ _ Hid1 eq_refl). simpl.
    destruct (Hhabits (l1 ++ applyRawBody b cb e :: l2) (nextId db) h
                (updateStats utcOffset (l1 ++ applyRawBody b cb e :: l2) uid id
                   (JS.truthy (raw_completed b)) now (Habit.stats h)) Hh Hu)
      as (H3 & H4 & H5).
    split; [|split; [|by repeat split; (done || by intros [[=]|[[=]|[=]]])]].
    + rewrite filter_app, filter_cons_False by (intros Hne; by apply Hne).
      apply sublist_app; [apply sublist_filter|].
      apply sublist_cons, sublist_filter.
    + intros Hnh Hnu.
      rewrite !filter_app, !filter_cons_False; [done| |];
        intros Hne; apply Hne; [done|].
      unfold owner, applyRawBody. simpl. by rewrite Hnh, Hnu.
  - simpl.
    destruct (Hhabits (entries db ++ [newEntry (nextId db) id uid
                                        (Clock.startOfDay utcOffset now) cb])
                (S (nextId db)) h
                (updateStats utcOffset
                   (entries db ++ [newEntry (nextId db) id uid
                                     (Clock.startOfDay utcOffset now) cb])
                   uid id (JS.truthy (raw_completed b)) now (Habit.stats h)) Hh Hu)
      as (H3 & H4 & H5).
    split; [|split; [|by repeat split; (done || by intros [[=]|[[=]|[=]]])]].
    + apply sublist_inserts_r, sublist_filter.
    + intros _ _. rewrite filter_app, filter_cons_False, filter_nil, app_nil_r; [done|].
      intros Hne. by apply Hne.
Qed.



(** X10. No request lowers a habit's counters: [totalCompletions] grows by
    0 or 1 and [longestStreak] never decreases, whatever the body is; a
    habit with [currentStreak ≤ longestStreak] keeps that after every
    request, and one with a non-negative [currentStreak] keeps it
    non-negative. *)
Theorem postEntry_stats_monotone (db : Db) (uid id : nat) (b : Body) (now : Z)
    (hid : nat) (h : Habit.t) :
  habits db !! hid = Some h →
  ∃ h', habits (postEntry utcOffset db uid id b now).1 !! hid = Some h'
        ∧ Habit.totalCompletions (Habit.stats h)
          ≤ Habit.totalCompletions (Habit.stats h')
          ≤ Habit.totalCompletions (Habit.stats h) + 1
        ∧ Habit.longestStreak (Habit.stats h) ≤ Habit.longestStreak (Habit.stats h')
        ∧ (Habit.currentStreak (Habit.stats h) ≤ Habit.longestStreak (Habit.stats h) →
           Habit.currentStreak (Habit.stats h') ≤ Habit.longestStreak (Habit.stats h'))
        ∧ (0 ≤ Habit.currentStreak (Habit.stats h) →
           0 ≤ Habit.currentStreak (Habit.stats h')).
Proof.
  intros Hh. unfold postEntry.
  destruct (validationOk b); simpl; [|exists h; repeat split; (done || lia)].
  destruct (findHabit (habits db) id uid) as [h0|] eqn:Hf; simpl;
    [|exists h; repeat split; (done || lia)].
  destruct (upsertToday utcOffset db uid id b now) as [[es fresh] entry]. simpl.
  apply findHabit_lookup in Hf as [Hh0 _].
  destruct (decide (hid = id)) as [->|Hne].
  - rewrite Hh in Hh0. injection Hh0 as <-.
    eexists. split; [apply lookup_insert_eq|]. simpl.
    unfold updateStats. destruct (completed b); simpl; [|lia].
    destruct (Mongo.findOne _ es); lia.
  - exists h. rewrite lookup_insert_ne by done. repeat split; (done || lia).
Qed.

End HabitReadFacts.

(** ** Deleting documents keeps the invariant *)

Lemma wfDocs_sublist {A K : Type} (ident : A → nat) (owner : A → K) (date : A → Z)
    (off : Z) (docs docs' : list A) (next : nat) :
  docs' `sublist_of` docs →
  Daily.wfDocs ident owner date off docs next →
  Daily.wfDocs ident owner date off docs' next.
Proof.
  intros Hsub (Hids & Hfresh & Hdates & Hkeys).
  assert (∀ P : A → Prop, Forall P docs → Forall P docs') as Hall.
  { intros P HP. rewrite Forall_forall in HP. apply Forall_forall.
    intros x Hx. apply HP. by eapply elem_of_sublist. }
  repeat split; [| by apply Hall | by apply Hall |].
  - eapply sublist_NoDup; [exact Hids|]. by apply fmap_sublist.
  - eapply sublist_NoDup; [exact Hkeys|]. by apply fmap_sublist.
Qed.

Lemma findOneAndDelete_shape {A : Type} (f : A → bool) (docs : list A) :
  (List.find f docs = None ∧ Mongo.findOneAndDelete f docs = (docs, None))
  ∨ (∃ l1 d l2, docs = l1 ++ d :: l2 ∧ f d = true ∧ Forall (λ y, f y = false) l1
       ∧ Mongo.findOneAndDelete f docs = (l1 ++ l2, Some d)).
Proof.
  induction docs as [|x docs IH]; simpl; [by left|].
  destruct (f x) eqn:Hx.
  - right. exists [], x, docs. by repeat split.
  - destruct IH as [[Hn Heq]|(l1 & d & l2 & -> & Hd & Hl1 & Heq)]; rewrite Heq; simpl.
    + by left.
    + right. exists (x :: l1), d, l2. repeat split; [done|by constructor].
Qed.

Lemma findOneAndUpdate_shape {A : Type} (f : A → bool) (upd : A → A) (docs : list A) :
  (List.find f docs = None ∧ Mongo.findOneAndUpdate f upd docs = (docs, None))
  ∨ (∃ l1 d l2, docs = l1 ++ d :: l2 ∧ f d = true ∧ Forall (λ y, f y = false) l1
       ∧ Mongo.findOneAndUpdate f upd docs = (l1 ++ upd d :: l2, Some (upd d))).
Proof.
  induction docs as [|x docs IH]; simpl; [by left|].
  destruct (f x) eqn:Hx.
  - right. exists [], x, docs. by repeat split.
  - destruct IH as [[Hn Heq]|(l1 & d & l2 & -> & Hd & Hl1 & Heq)]; rewrite Heq; simpl.
    + by left.
    + right. exists (x :: l1), d, l2. repeat split; [done|by constructor].
Qed.

(** ** Habits: deletion, statistics, entry listing *)

Section HabitMoreFacts.
Import Habits.
Variable utcOffset : Z.

(** X11. Deleting a habit of the caller removes the habit and every entry
    that names it, and nothing else: the other habits and the entries of
    the other habits stay, in their order, and the invariant of the entry
    collection is kept.  Afterwards a log request for that habit answers
    404 and writes nothing.  Deleting a habit that is missing or not the
    caller's answers 404 and changes nothing. *)
Theorem deleteHabit_cascade (db : Db) (uid id : nat) :
  wf utcOffset db →
  let r := deleteHabit db uid id in
  wf utcOffset r.1
  ∧ (findHabit (habits db) id uid = None → r = (db, NotFound))
  ∧ (∀ h, findHabit (habits db) id uid = Some h →
       r.2 = Ok tt
       ∧ habits r.1 !! id = None
       ∧ (∀ id', id' ≠ id → habits r.1 !! id' = habits db !! id')
       ∧ entries r.1 = filter (λ e, HabitEntry.habit e ≠ id) (entries db)
       ∧ Forall (λ e, HabitEntry.habit e ≠ id) (entries r.1)
       ∧ ∀ b now, validationOk b = true →
           postEntry utcOffset r.1 uid id b now = (r.1, NotFound)).
Proof.
  intros Hwf r. unfold r, deleteHabit.
  destruct (findHabit (habits db) id uid) as [h|] eqn:Hf; simpl;
    [|split; [done|split; [done|intros h' [=]]]].
  split; [|split; [done|]].
  - unfold wf. simpl. eapply wfDocs_sublist; [apply sublist_filter|exact Hwf].
  - intros _ _. repeat split.
    + apply lookup_delete_eq.
    + intros id' Hne. by apply lookup_delete_ne.
    + apply Forall_forall. by intros e [He _]%list_elem_of_filter.
    + intros b now Hv. unfold postEntry, findHabit. simpl.
      by rewrite Hv, lookup_delete_eq.
Qed.

(** X12. [topHabits] lists at most five habits of the input, each with
    its own id, name and current streak, in non-increasing order of
    streak.  It is the first five of the habits sorted by decreasing
    streak, habits with equal streaks keeping their input order. *)
Theorem topHabits_ranking (hs : list (nat * Habit.t)) (es : list HabitEntry.t) :
  let top := topHabits (stats hs es) in
  length top = (5 `min` length hs)%nat
  ∧ StronglySorted (λ a b, th_streak b ≤ th_streak a) top
  ∧ (∀ t, t ∈ top →
       ∃ h, (th_id t, h) ∈ hs ∧ th_name t = Habit.name h
            ∧ th_streak t = Habit.currentStreak (Habit.stats h))
  ∧ ∃ sorted,
      sorted ≡ₚ hs
      ∧ StronglySorted (λ a b, Habit.currentStreak (Habit.stats b.2)
                               ≤ Habit.currentStreak (Habit.stats a.2)) sorted
      ∧ (∀ v, filter (λ h, Habit.currentStreak (Habit.stats h.2) = v) sorted
              = filter (λ h, Habit.currentStreak (Habit.stats h.2) = v) hs)
      ∧ top = (λ h, {| th_id := h.1; th_name := Habit.name h.2;
                       th_streak := Habit.currentStreak (Habit.stats h.2) |})
              <$> take 5 sorted.
Proof.
  intros top.
  set (cmp := λ a b : nat * Habit.t,
         Habit.currentStreak (Habit.stats b.2) - Habit.currentStreak (Habit.stats a.2)).
  assert (StronglySorted (λ a b, Habit.currentStreak (Habit.stats b.2)
                                 ≤ Habit.currentStreak (Habit.stats a.2))
            (JS.sortBy cmp hs)) as Hsorted.
  { apply (StronglySorted_mono (λ a b, cmp a b ≤ 0)); [unfold cmp; intros; lia|].
    apply sortBy_sorted; unfold cmp; intros; lia. }
  split; [|split; [|split]].
  - unfold top. simpl. rewrite length_fmap, length_take.
    fold cmp. by rewrite (sortBy_perm cmp hs).
  - unfold top. simpl. fold cmp.
    apply StronglySorted_fmap_2. simpl. by apply StronglySorted_take.
  - intros t Ht. unfold top in Ht. simpl in Ht. fold cmp in Ht.
    apply list_elem_of_fmap in Ht as ([i h] & -> & Hin). simpl.
    exists h. split; [|done].
    rewrite <- (sortBy_perm cmp hs).
    apply elem_of_take in Hin as (j & Hj & _). by eapply list_elem_of_lookup_2.
  - exists (JS.sortBy cmp hs). split; [apply sortBy_perm|].
    split; [done|]. split; [|done].
    intros v. apply sortBy_filter. intros a b Ha Hb. unfold cmp. lia.
Qed.

(** X13. The habit [completionRate] divides the completed entries by
    seven per active habit, whatever the period is.  It is never
    negative; it is at most 100 when there are at most seven entries per
    habit, and at least 100 when there are at least seven per habit, so
    that a month or year window can push it past 100. *)
Theorem habit_completionRate_bounds (hs : list (nat * Habit.t))
    (es : list HabitEntry.t) :
  0 ≤ completionRate (stats hs es)
  ∧ ((length es ≤ 7 * length hs)%nat → completionRate (stats hs es) ≤ 100)
  ∧ ((0 < length hs)%nat → (7 * length hs ≤ length es)%nat →
     100 ≤ completionRate (stats hs es))
  ∧ ((0 < length hs)%nat → (14 * length hs ≤ length es)%nat →
     200 ≤ completionRate (stats hs es)).
Proof.
  simpl. destruct hs as [|h hs]; [repeat split; intros; simpl in *; lia|].
  set (n := length (h :: hs)).
  assert (0 < n)%nat as Hn by (unfold n; simpl; lia).
  replace (0 <? n)%nat with true by (symmetry; by apply Nat.ltb_lt).
  assert (∀ k : Z, 0 ≤ k ≤ 2 → k * (Z.of_nat n * 7) ≤ Z.of_nat (length es) →
            k * 100 ≤ JS.mathRound
                        (JS.mul (JS.div (inject_Z (Z.of_nat (length es)))
                                        (inject_Z (Z.of_nat n * 7))) 100)) as Hlow.
  { intros k Hk Hle. apply (scaled_ratio_ge _ _ k 100); lia. }
  split; [|split; [|split]].
  - apply (Hlow 0); lia.
  - intros Hle. apply percent_bounds; lia.
  - intros _ Hge. apply (Hlow 1); lia.
  - intros _ Hge. apply (Hlow 2); lia.
Qed.

(** X14. GET /api/habits/:id/entries returns exactly the stored entries of
    the caller and the habit whose date lies in the window, each once, in
    non-increasing order of date.  The window starts at the start of the
    day of [startDate] and ends at the end of the day of [endDate]; without
    them it runs from the start of the day 30 days back to the end of
    today, so that an entry dated at the start of today is listed. *)
Theorem getEntries_spec (db : Db) (uid id : nat) (startDate endDate : option Z)
    (now : Z) :
  let start := Clock.startOfDay utcOffset
                 (default (now - 30 * Clock.msPerDay) startDate) in
  let end_ := Clock.endOfDay utcOffset (default now endDate) in
  let res := getEntries utcOffset db uid id startDate endDate now in
  res ≡ₚ filter (λ e, HabitEntry.habit e = id ∧ HabitEntry.user e = uid
                      ∧ start ≤ HabitEntry.date e ≤ end_) (entries db)
  ∧ StronglySorted (λ a b, HabitEntry.date b ≤ HabitEntry.date a) res
  ∧ (∀ e, e ∈ res ↔ e ∈ entries db ∧ HabitEntry.habit e = id ∧ HabitEntry.user e = uid
                    ∧ start ≤ HabitEntry.date e ≤ end_)
  ∧ (∀ e, e ∈ entries db → HabitEntry.habit e = id → HabitEntry.user e = uid →
       HabitEntry.date e = Clock.startOfDay utcOffset now →
       e ∈ getEntries utcOffset db uid id None None now).
Proof.
  intros start end_ res.
  set (cmp := λ a b : HabitEntry.t, HabitEntry.date b - HabitEntry.date a).
  assert (res = JS.sortBy cmp
                  (filter (λ e, HabitEntry.habit e = id ∧ HabitEntry.user e = uid
                                ∧ start ≤ HabitEntry.date e ≤ end_) (entries db)))
    as Hres by (unfold res, getEntries, start, end_; by destruct startDate, endDate).
  split; [rewrite Hres; apply sortBy_perm|].
  split; [|split].
  - rewrite Hres.
    apply (StronglySorted_mono (λ a b, cmp a b ≤ 0)); [unfold cmp; intros; lia|].
    apply sortBy_sorted; unfold cmp; intros; lia.
  - intros e. rewrite Hres, (sortBy_perm cmp), list_elem_of_filter. tauto.
  - intros e He Hh Hu Hd. unfold getEntries.
    rewrite (sortBy_perm _), list_elem_of_filter. split; [|done].
    split; [done|]. split; [done|]. rewrite Hd.
    rewrite startOfDay_subtractDays. unfold Clock.endOfDay.
    pose proof msPerDay_pos. lia.
Qed.

Lemma length_filter_mono {A : Type} (P Q : A → Prop)
    `{!∀ x, Decision (P x)} `{!∀ x, Decision (Q x)} (l : list A) :
  (∀ x, P x → Q x) → (length (filter P l) ≤ length (filter Q l))%nat.
Proof.
  intros Himp. induction l as [|x l IH]; [done|].
  rewrite !filter_cons.
  destruct (decide (P x)) as [Hp|Hp].
  - rewrite decide_True by auto. simpl. lia.
  - destruct (decide (Q x)); simpl; lia.
Qed.

(** X15. The statistics windows are nested: the year window starts no
    later than the month window, which starts no later than the week
    window, which starts no later than [now].  So for one database and
    instant the number of completed entries (habits) and of mood entries
    counted for a week is at most the number for a month, and that at
    most the number for a year. *)
Theorem stats_windows_nested (now : Z) :
  startDate utcOffset now (Some "year"%string)
  ≤ startDate utcOffset now (Some "month"%string)
  ∧ startDate utcOffset now (Some "month"%string)
    ≤ startDate utcOffset now (Some "week"%string)
  ∧ startDate utcOffset now (Some "week"%string) ≤ now
  ∧ (∀ (db : Db) (uid : nat),
       (totalCompletions (getStats utcOffset db uid (Some "week"%string) now)
        ≤ totalCompletions (getStats utcOffset db uid (Some "month"%string) now))%nat
       ∧ (totalCompletions (getStats utcOffset db uid (Some "month"%string) now)
          ≤ totalCompletions (getStats utcOffset db uid (Some "year"%string) now))%nat)
  ∧ (∀ (db : Moods.Db) (uid : nat),
       (Moods.totalEntries (Moods.getStats utcOffset db uid (Some "week"%string) now)
        ≤ Moods.totalEntries (Moods.getStats utcOffset db uid (Some "month"%string) now))%nat
       ∧ (Moods.totalEntries (Moods.getStats utcOffset db uid (Some "month"%string) now)
          ≤ Moods.totalEntries (Moods.getStats utcOffset db uid (Some "year"%string) now))%nat).
Proof.
  pose proof msPerDay_pos as HD.
  pose proof (startOfDay_bounds utcOffset now) as Hb.
  set (today := Clock.startOfDay utcOffset now) in *.
  set (D := Clock.msPerDay) in *.
  assert (startDate utcOffset now (Some "week"%string) = today - 7 * D
          ∧ startDate utcOffset now (Some "month"%string) = today - 30 * D
          ∧ startDate utcOffset now (Some "year"%string) = today - 365 * D)
    as (Hw & Hm & Hy) by (repeat split; apply startOfDay_subtractDays).
  assert (Moods.startDate utcOffset now (Some "week"%string) = today - 7 * D
          ∧ Moods.startDate utcOffset now (Some "month"%string) = today - 30 * D
          ∧ Moods.startDate utcOffset now (Some "year"%string) = today - 365 * D)
    as (Hw' & Hm' & Hy') by (repeat split; apply startOfDay_subtractDays).
  rewrite Hw, Hm, Hy.
  split; [lia|]. split; [lia|]. split; [lia|]. split.
  - intros db uid. unfold getStats, stats, completedSince. cbn [totalCompletions].
    rewrite Hw, Hm, Hy.
    split; apply length_filter_mono; intros e (Hu & Hd & Hc); repeat split; (done || lia).
  - intros db uid. unfold Moods.getStats, Moods.stats, Moods.moodsSince.
    cbn [Moods.totalEntries]. rewrite Hw', Hm', Hy'.
    split; apply length_filter_mono; intros m (Hu & Hd); split; (done || lia).
Qed.

End HabitMoreFacts.

(** ** Moods: read back, update, delete *)

Section TodayLookup.
Context {A K : Type} `{EqDecision K}.
Variables (owner : A → K) (date : A → Z) (off : Z) (q : A → bool) (k : K) (now : Z).
Hypothesis q_spec : ∀ d,
  q d = true
  ↔ owner d = k
    ∧ Clock.inRange (Clock.startOfDay off now)
        (Clock.endOfDay off (Clock.startOfDay off now)) (date d) = true.

(** On a collection whose dates are starts of days, the query for today
    finds the first stored document of the calendar day. *)
Lemma find_today_head (docs : list A) :
  Forall (λ d, Clock.startOfDay off (date d) = date d) docs →
  List.find q docs = head (Daily.ofDay owner date off k (Clock.startOfDay off now) docs).
Proof.
  unfold Daily.ofDay. induction 1 as [|d docs Hd _ IH]; [done|].
  simpl. rewrite filter_cons.
  destruct (decide (Daily.sameDay owner date off k (Clock.startOfDay off now) d))
    as [Hs|Hs].
  - by rewrite (sameDay_q owner date off q k now q_spec d Hd Hs).
  - destruct (q d) eqn:Hq; [|exact IH].
    destruct Hs. by apply (q_sameDay owner date off q k now q_spec).
Qed.

End TodayLookup.

Section MoodMoreFacts.
Variable utcOffset : Z.

(** *** The raw requests *)

Lemma castScale_valid (x : option JS.Value) :
  Moods.isScale x = true → is_Some (Moods.castScale x).
Proof.
  destruct x as [v|]; simpl; [|intros _; exists None; reflexivity].
  intros Hv. destruct (isInt_toNumber _ _ _ Hv) as [n Hn].
  exists (Some n). by rewrite Hn.
Qed.

Lemma castScale_Some (x : option JS.Value) (c : option Z) :
  Moods.castScale x = Some c →
  match x with
  | Some v => ∃ n, JS.toNumber v = Some n ∧ c = Some n
  | None => c = None
  end.
Proof.
  destruct x as [v|]; simpl; [|by intros [= <-]].
  destruct (JS.toNumber v) as [n|]; [|done]. intros [= <-]. by exists n.
Qed.

Lemma mood_castBody_valid (b : Moods.RawBody) :
  Moods.rawValidationOk b = true → is_Some (Moods.castBody b).
Proof.
  unfold Moods.rawValidationOk, Moods.castBody.
  intros [[He Hs]%andb_true_iff _]%andb_true_iff.
  destruct (castScale_valid _ He) as [e ->].
  destruct (castScale_valid _ Hs) as [s ->]. simpl. eexists; reflexivity.
Qed.

Lemma mood_castPutBody_valid (b : Moods.RawPutBody) :
  Moods.rawPutValidationOk b = true → is_Some (Moods.castPutBody b).
Proof.
  unfold Moods.rawPutValidationOk, Moods.castPutBody.
  intros [[He Hs]%andb_true_iff _]%andb_true_iff.
  destruct (castScale_valid _ He) as [e ->].
  destruct (castScale_valid _ Hs) as [s ->]. simpl. eexists; reflexivity.
Qed.

(** The mood that the query for today finds is dated at the start of
    today. *)
Lemma mood_found_today (db : Moods.Db) (uid : nat) (now : Z) (m : Mood.t) :
  Moods.wf utcOffset db →
  let today := Clock.startOfDay utcOffset now in
  Mongo.findOne (Moods.onDay uid today (Clock.endOfDay utcOffset today)) (Moods.moods db)
  = Some m →
  m ∈ Moods.moods db ∧ Mood.user m = uid ∧ Mood.date m = today.
Proof.
  intros (_ & _ & Hdates & _) today Hfind.
  apply find_Some_split in Hfind as (l1 & l2 & Hdocs & Hq & _).
  assert (m ∈ Moods.moods db) as Hin
    by (rewrite Hdocs; apply elem_of_app; right; apply list_elem_of_here).
  destruct (q_sameDay Mood.user Mood.date utcOffset _ uid now
              (λ d, mood_onDay_spec uid _ _ d) m Hq) as [Hu Hd].
  rewrite Forall_forall in Hdates. rewrite (Hdates m Hin) in Hd. done.
Qed.

(** The raw mood handler, through the shared pattern, for a body without a
    [user] key. *)
Lemma postMoodRaw_upsert (db : Moods.Db) (uid : nat) (b : Moods.RawBody)
    (cb : Moods.Body) (now : Z) :
  Moods.wf utcOffset db →
  Moods.rawValidationOk b = true → Moods.castBody b = Some cb →
  Moods.keysOk (Moods.raw_sleep b) = true → Moods.raw_user b = None →
  let today := Clock.startOfDay utcOffset now in
  let r := Daily.upsert Mood._id
             (Moods.onDay uid today (Clock.endOfDay utcOffset today))
             (Moods.applyRawBody b cb today)
             (Moods.newRawMood (Moods.nextId db) uid today b cb)
             (Moods.moods db) (Moods.nextId db) in
  Moods.postMoodRaw utcOffset db uid b now
  = ({| Moods.moods := r.1.1; Moods.nextId := r.1.2 |}, Ok r.2).
Proof.
  intros Hwf Hv Hc Hk Hu today r. unfold r, Moods.postMoodRaw, Daily.upsert.
  rewrite Hv, Hc, Hk. simpl. fold today.
  destruct (Mongo.findOne _ (Moods.moods db)) as [m|] eqn:Hfind; [|done].
  destruct (mood_found_today db uid now m Hwf Hfind) as (Hin & _ & Hd).
  destruct Hwf as (_ & _ & _ & Hkeys).
  rewrite (duplicateKey_unchanged Mood._id Moods.indexKey (Moods.moods db) m);
    [done|exact Hkeys|exact Hin|done|].
  unfold Moods.indexKey, Moods.applyRawBody. simpl. by rewrite Hu, Hd.
Qed.

(** The handlers on a typed body are the raw handlers at the body of a
    client that sends JSON numbers and the declared keys only. *)
Lemma isScale_VNum (x : option Z) :
  Moods.isScale (JS.VNum <$> x) = Moods.between1and10 x.
Proof.
  destruct x as [v|]; simpl; [|done]. unfold JS.within.
  destruct (Z.leb_spec 1 v), (Z.leb_spec v 10); simpl;
    rewrite ?andb_false_r; try done.
  apply andb_true_intro. split; [|done]. apply Z.ltb_lt. lia.
Qed.

Lemma castScale_VNum (x : option Z) : Moods.castScale (JS.VNum <$> x) = Some x.
Proof. by destruct x. Qed.

Lemma postMoodRaw_ofBody (db : Moods.Db) (uid : nat) (b : Moods.Body) (now : Z) :
  Moods.wf utcOffset db →
  Moods.postMoodRaw utcOffset db uid (Moods.ofBody b) now
  = Moods.postMood utcOffset db uid b now.
Proof.
  intros Hwf.
  assert (Moods.rawValidationOk (Moods.ofBody b) = Moods.validationOk b) as Hval
    by (unfold Moods.rawValidationOk, Moods.validationOk, Moods.ofBody; simpl;
        by rewrite !isScale_VNum).
  assert (Moods.castBody (Moods.ofBody b) = Some b) as Hcast.
  { unfold Moods.castBody, Moods.ofBody. simpl. rewrite !castScale_VNum. simpl.
    by destruct b. }
  destruct (Moods.validationOk b) eqn:Hv;
    [|by unfold Moods.postMoodRaw, Moods.postMood; rewrite Hval, Hv].
  rewrite (postMoodRaw_upsert db uid (Moods.ofBody b) b now) by done.
  rewrite postMood_upsert by done. unfold Daily.upsert.
  destruct (Mongo.findOne _ (Moods.moods db)) as [m|]; [|done]. simpl.
  assert (∀ l : list Mood.t,
            Mongo.findByIdAndUpdate Mood._id (Mood._id m)
              (Moods.applyRawBody (Moods.ofBody b) b (Clock.startOfDay utcOffset now)) l
            = Mongo.findByIdAndUpdate Mood._id (Mood._id m)
                (Moods.applyBody b (Clock.startOfDay utcOffset now)) l) as ->; [|done].
  induction l as [|x l IH]; simpl; [done|]. by rewrite IH.
Qed.

(** X16. An accepted mood log whose body carries no [user] key is answered
    with the stored mood of the day, and GET /api/moods/today, at any
    instant of that day, returns this same mood.  It belongs to the
    caller and is dated at the start of the day, whatever [date] the body
    carries; it has the request's mood, the numbers that the request's
    energy and stress cast to, the request's notes, trimmed, and the
    request's sleep, when the request gives them.  Whatever the body
    carries, no mood of another user is changed or removed; without a
    [user] key none is added either (with one, the update path moves the
    caller's mood of the day to the user that the body names).  A request
    that is answered 400 or 500 changes nothing. *)
Theorem postMood_read_back (db : Moods.Db) (uid : nat) (b : Moods.RawBody)
    (now now' : Z) :
  Moods.wf utcOffset db →
  Clock.startOfDay utcOffset now' = Clock.startOfDay utcOffset now →
  let r := Moods.postMoodRaw utcOffset db uid b now in
  (Moods.rawValidationOk b = false → r = (db, BadRequest))
  ∧ (r.2 = BadRequest ∨ r.2 = ServerError → r.1 = db)
  ∧ filter (λ m, Mood.user m ≠ uid) (Moods.moods db) `sublist_of` Moods.moods r.1
  ∧ (Moods.raw_user b = None →
     filter (λ m, Mood.user m ≠ uid) (Moods.moods r.1)
     = filter (λ m, Mood.user m ≠ uid) (Moods.moods db))
  ∧ (Moods.rawValidationOk b = true → Moods.keysOk (Moods.raw_sleep b) = true →
     Moods.raw_user b = None →
     ∃ m, r.2 = Ok (Some m)
          ∧ Moods.getToday utcOffset r.1 uid now' = Some m
          ∧ Mood.user m = uid
          ∧ Mood.date m = Clock.startOfDay utcOffset now
          ∧ Mood.mood m = Moods.raw_mood b
          ∧ (∀ v, Moods.raw_energy b = Some v →
               is_Some (JS.toNumber v) ∧ Mood.energy m = JS.toNumber v)
          ∧ (∀ v, Moods.raw_stress b = Some v →
               is_Some (JS.toNumber v) ∧ Mood.stress m = JS.toNumber v)
          ∧ (∀ s, Moods.raw_notes b = Some s → Mood.notes m = Some (JS.trim s))
          ∧ (∀ s, Moods.raw_sleep b = Some s → Mood.sleep m = s)).
Proof.
  intros Hwf Hday r.
  set (today := Clock.startOfDay utcOffset now).
  assert (r.2 = BadRequest ∨ r.2 = ServerError → r.1 = db) as Hfail.
  { unfold r, Moods.postMoodRaw.
    destruct (Moods.rawValidationOk b); [|done]. simpl.
    destruct (Moods.castBody b) as [cb|]; [|done].
    destruct (Moods.keysOk (Moods.raw_sleep b)); [|done]. simpl.
    destruct (Mongo.findOne _ _) as [m|]; [|by intros [[=]|[=]]].
    destruct (Mongo.duplicateKey _ _ _ _); [done|by intros [[=]|[=]]]. }
  assert (filter (λ m, Mood.user m ≠ uid) (Moods.moods db) `sublist_of` Moods.moods r.1
          ∧ (Moods.raw_user b = None →
             filter (λ m, Mood.user m ≠ uid) (Moods.moods r.1)
             = filter (λ m, Mood.user m ≠ uid) (Moods.moods db))) as [Hsub Hothers].
  { unfold r, Moods.postMoodRaw.
    destruct (Moods.rawValidationOk b); [|by split; [apply sublist_filter|]]. simpl.
    destruct (Moods.castBody b) as [cb|]; [|by split; [apply sublist_filter|]].
    destruct (Moods.keysOk (Moods.raw_sleep b)); [|by split; [apply sublist_filter|]].
    simpl. fold today.
    destruct (Mongo.findOne _ _) as [m|] eqn:Hfind.
    - destruct (Mongo.duplicateKey _ _ _ _); [by split; [apply sublist_filter|]|].
      destruct Hwf as (Hids & _).
      apply find_Some_split in Hfind as (l1 & l2 & Hdocs & [Hu _]%mood_onDay_spec & _).
      rewrite Hdocs in Hids |- *.
      destruct (NoDup_fmap_split Mood._id _ _ _ Hids) as [Hid1 _].
      rewrite (findByIdAndUpdate_split Mood._id _ _ _ _ _ Hid1 eq_refl). simpl.
      split.
      + rewrite filter_app, filter_cons_False by (intros Hne; by apply Hne).
        apply sublist_app; [apply sublist_filter|].
        apply sublist_cons, sublist_filter.
      + intros Hnu. rewrite !filter_app, !filter_cons_False; [done| |];
          intros Hne; apply Hne; [done|].
        unfold Moods.applyRawBody. simpl. by rewrite Hnu.
    - simpl. split.
      + apply sublist_inserts_r, sublist_filter.
      + intros _. rewrite filter_app, filter_cons_False, filter_nil, app_nil_r; [done|].
        intros Hne. by apply Hne. }
  split; [|split; [exact Hfail|split; [exact Hsub|split; [exact Hothers|]]]].
  { intros Hv. unfold r, Moods.postMoodRaw. by rewrite Hv. }
  intros Hv Hk Hnu.
  destruct (mood_castBody_valid b Hv) as [cb Hc].
  assert (Moods.mood cb = Moods.raw_mood b ∧ Moods.notes cb = Moods.raw_notes b
          ∧ Moods.castScale (Moods.raw_energy b) = Some (Moods.energy cb)
          ∧ Moods.castScale (Moods.raw_stress b) = Some (Moods.stress cb))
    as (Hcm & Hcn & Hce & Hcs).
  { revert Hc. unfold Moods.castBody.
    destruct (Moods.castScale (Moods.raw_energy b)) as [e|]; [|done].
    destruct (Moods.castScale (Moods.raw_stress b)) as [s|]; [|done].
    simpl. by intros [= <-]. }
  assert (∀ (x : option JS.Value) (c stored : option Z) (v : JS.Value),
            Moods.castScale x = Some c → x = Some v →
            (∀ n, c = Some n → stored = Some n) →
            is_Some (JS.toNumber v) ∧ stored = JS.toNumber v) as Hscale.
  { intros x c stored v Hx -> Hst. apply castScale_Some in Hx as (n & Hn & ->).
    rewrite Hn, (Hst n eq_refl). split; [by exists n|done]. }
  assert (∀ d, Mood.user (Moods.applyRawBody b cb today d) = Mood.user d) as Hkeep
    by (intros d; unfold Moods.applyRawBody; simpl; by rewrite Hnu).
  destruct (upsert_spec Mood._id Mood.user Mood.date utcOffset
              (Moods.onDay uid today (Clock.endOfDay utcOffset today))
              (Moods.applyRawBody b cb today)
              (Moods.newRawMood (Moods.nextId db) uid today b cb)
              uid now (λ m, mood_onDay_spec uid _ _ m)
              (λ _, eq_refl)
              Hkeep
              (λ _ _, eq_refl) eq_refl eq_refl
              (Moods.moods db) (Moods.nextId db) Hwf eq_refl)
    as ((_ & _ & Hdates & _) & Hcase & _).
  unfold r. rewrite (postMoodRaw_upsert db uid b cb now) by done.
  unfold Moods.getToday, Mongo.findOne. rewrite Hday. simpl. fold today.
  rewrite (find_today_head Mood.user Mood.date utcOffset
             (Moods.onDay uid today (Clock.endOfDay utcOffset today)) uid now
             (mood_onDay_spec uid _ _) _ Hdates).
  fold today.
  destruct Hcase as [(_ & Hr & H1)|(m0 & H0 & _ & H1 & Hr & _)].
  - fold today in H1, Hr. rewrite H1, Hr. simpl.
    eexists. split; [done|]. split; [done|]. split; [done|]. split; [done|].
    split; [exact Hcm|]. simpl. split; [|split; [|split]].
    + intros v Hv'. apply (Hscale _ _ _ v Hce Hv'). by intros n ->.
    + intros v Hv'. apply (Hscale _ _ _ v Hcs Hv'). by intros n ->.
    + intros s0 Hs. by rewrite Hcn, Hs.
    + intros s0 Hs. by rewrite Hs.
  - fold today in H0, H1, Hr. rewrite H1, Hr. simpl.
    assert (m0 ∈ Daily.ofDay Mood.user Mood.date utcOffset uid today (Moods.moods db))
      as Hin by (rewrite H0; apply list_elem_of_here).
    apply list_elem_of_filter in Hin as [[Hu _] _].
    eexists. split; [done|]. split; [done|]. split; [by rewrite Hkeep|].
    split; [done|]. split; [exact Hcm|]. simpl. split; [|split; [|split]].
    + intros v Hv'. apply (Hscale _ _ _ v Hce Hv'). by intros n ->.
    + intros v Hv'. apply (Hscale _ _ _ v Hcs Hv'). by intros n ->.
    + intros s0 Hs. by rewrite Hcn, Hs.
    + intros s0 Hs. by rewrite Hs.
Qed.

Lemma ownedBy_spec (uid id : nat) (m : Mood.t) :
  Moods.ownedBy uid id m = true ↔ Mood._id m = id ∧ Mood.user m = uid.
Proof. unfold Moods.ownedBy. by rewrite andb_true_iff, !Nat.eqb_eq. Qed.

Lemma putMoodRaw_ofBody (db : Moods.Db) (uid id : nat) (b : Moods.PutBody) :
  Moods.wf utcOffset db →
  Moods.putMoodRaw db uid id (Moods.ofPutBody b) = Moods.putMood db uid id b.
Proof.
  intros (Hids & _ & _ & Hkeys).
  assert (Moods.rawPutValidationOk (Moods.ofPutBody b) = Moods.putValidationOk b)
    as Hval
    by (unfold Moods.rawPutValidationOk, Moods.putValidationOk, Moods.ofPutBody;
        simpl; by rewrite !isScale_VNum).
  assert (Moods.castPutBody (Moods.ofPutBody b) = Some b) as Hcast.
  { unfold Moods.castPutBody, Moods.ofPutBody. simpl. rewrite !castScale_VNum.
    simpl. by destruct b. }
  unfold Moods.putMoodRaw, Moods.putMood. rewrite Hval, Hcast.
  destruct (Moods.putValidationOk b); [|done]. simpl.
  assert (∀ l : list Mood.t,
            Mongo.findOneAndUpdate (Moods.ownedBy uid id)
              (Moods.applyRawPut (Moods.ofPutBody b) b) l
            = Mongo.findOneAndUpdate (Moods.ownedBy uid id) (Moods.applyPut b) l)
    as Hsame.
  { induction l as [|x l IH]; simpl; [done|]. by rewrite IH. }
  rewrite Hsame. unfold Mongo.findOne.
  destruct (findOneAndUpdate_shape (Moods.ownedBy uid id) (Moods.applyPut b)
              (Moods.moods db))
    as [[Hnone Heq]|(l1 & d & l2 & Hdocs & Hd & Hl1 & Heq)]; rewrite Heq.
  - by rewrite Hnone.
  - rewrite Hdocs at 1. rewrite find_first by done.
    rewrite (duplicateKey_unchanged Mood._id Moods.indexKey (Moods.moods db) d);
      [done|exact Hkeys| |done|done].
    rewrite Hdocs. apply elem_of_app. right. apply list_elem_of_here.
Qed.

(** The two refusals of the update: hours of sleep outside [[0,24]], and a
    [user] or [date] that another mood of the collection has already. *)
Lemma putMoodRaw_refuses_sleep (db : Moods.Db) (uid id : nat) (b : Moods.RawPutBody)
    (s : Mood.Sleep) (h : Q) :
  Moods.rawPutValidationOk b = true →
  Moods.rput_sleep b = Some s → Mood.hours s = Some h → (h < 0 ∨ 24 < h)%Q →
  Moods.putMoodRaw db uid id b = (db, ServerError).
Proof.
  intros Hv Hs Hh Hout. unfold Moods.putMoodRaw. rewrite Hv. simpl.
  destruct (mood_castPutBody_valid b Hv) as [cb ->].
  assert (Moods.keysOk (Moods.rput_sleep b) = false) as ->; [|done].
  rewrite Hs. unfold Moods.keysOk, Moods.sleepOk. rewrite Hh.
  apply andb_false_iff.
  destruct Hout as [Hlt|Hgt]; [left|right];
    apply not_true_is_false; rewrite Qle_bool_iff;
    by apply Qlt_not_le.
Qed.

Lemma putMoodRaw_refuses_duplicate (db : Moods.Db) (uid id : nat)
    (b : Moods.RawPutBody) (m x : Mood.t) :
  Moods.wf utcOffset db → Moods.rawPutValidationOk b = true →
  m ∈ Moods.moods db → Moods.ownedBy uid id m = true →
  x ∈ Moods.moods db → Mood._id x ≠ id →
  Mood.user x = default uid (Moods.rput_user b) →
  Mood.date x = default (Mood.date m) (Moods.rput_date b) →
  Moods.putMoodRaw db uid id b = (db, ServerError).
Proof.
  intros (Hids & _) Hv Hm Hown Hx Hne Hxu Hxd.
  unfold Moods.putMoodRaw. rewrite Hv. simpl.
  destruct (mood_castPutBody_valid b Hv) as [cb ->].
  destruct (Moods.keysOk (Moods.rput_sleep b)); [|done]. simpl.
  destruct (Mongo.findOne (Moods.ownedBy uid id) (Moods.moods db)) as [d|] eqn:Hfind.
  - apply find_Some_split in Hfind as (l1 & l2 & Hdocs & Hd & _).
    assert (d = m) as ->.
    { apply (NoDup_fmap_inj_on Mood._id (Moods.moods db)); [done| |done|].
      - rewrite Hdocs. apply elem_of_app. right. apply list_elem_of_here.
      - apply ownedBy_spec in Hd as [-> _]. by apply ownedBy_spec in Hown as [-> _]. }
    apply ownedBy_spec in Hown as [Hid Hu].
    assert (Mongo.duplicateKey Mood._id Moods.indexKey (Moods.applyRawPut b cb m)
              (Moods.moods db) = true) as ->; [|done].
    apply bool_decide_eq_true, Exists_exists. exists x. split; [done|].
    split; [simpl; by rewrite Hid|].
    unfold Moods.indexKey, Moods.applyRawPut. simpl. by rewrite Hxu, Hxd, Hu.
  - apply find_None_Forall in Hfind. rewrite Forall_forall in Hfind.
    by rewrite (Hfind m Hm) in Hown.
Qed.

(** A request that is not answered 200 leaves everything to the facts of
    the unchanged database [Hsame]; the clause on 404 is left to prove. *)
Ltac put_unchanged Hsame res :=
  let H1 := fresh in let H2 := fresh in let H3 := fresh in
  let H4 := fresh in let H5 := fresh in
  let m' := fresh in let Hm' := fresh in
  destruct (Hsame res) as (H1 & H2 & H3 & H4 & H5); [done|];
  split; [exact H1|]; split; [exact H2|]; split; [exact H3|]; split; [done|];
  split; [|split; [exact H4|intros m' Hm'; destruct (H5 m' Hm')]].

(** X17. PUT /api/moods/:id updates exactly the caller's mood with that
    id, by the whole body.  The answer is the stored document: its [_id]
    is kept; [mood], [notes] (trimmed), [sleep], [date] and [user] are the
    body's where the body carries them and the old ones where it does not;
    [energy] and [stress] are the numbers that the body's cast to, or the
    old ones.  Every other document stays as it is, ids and the keys of
    the unique index stay distinct, and the invariant of the collection is
    kept when the body carries no [date].  An invalid body answers 400 and
    a mood that is missing or not the caller's answers 404; a request that
    is answered 400, 404 or 500 leaves the collection as it was. *)
Theorem putMood_spec (db : Moods.Db) (uid id : nat) (b : Moods.RawPutBody) :
  Moods.wf utcOffset db →
  let r := Moods.putMoodRaw db uid id b in
  NoDup (Mood._id <$> Moods.moods r.1)
  ∧ NoDup (Moods.indexKey <$> Moods.moods r.1)
  ∧ (Moods.rput_date b = None → Moods.wf utcOffset r.1)
  ∧ (Moods.rawPutValidationOk b = false → r = (db, BadRequest))
  ∧ (Moods.rawPutValidationOk b = true → Moods.keysOk (Moods.rput_sleep b) = true →
     (∀ m, m ∈ Moods.moods db → Moods.ownedBy uid id m = false) →
     r = (db, NotFound))
  ∧ (r.2 = BadRequest ∨ r.2 = NotFound ∨ r.2 = ServerError → r.1 = db)
  ∧ (∀ m', r.2 = Ok m' →
       ∃ m, m ∈ Moods.moods db ∧ Mood._id m = id ∧ Mood.user m = uid
            ∧ Mood._id m' = id
            ∧ Mood.user m' = default uid (Moods.rput_user b)
            ∧ Mood.date m' = default (Mood.date m) (Moods.rput_date b)
            ∧ Mood.mood m' = default (Mood.mood m) (Moods.rput_mood b)
            ∧ Mood.energy m' = match Moods.rput_energy b with
                               | Some v => JS.toNumber v
                               | None => Mood.energy m
                               end
            ∧ Mood.stress m' = match Moods.rput_stress b with
                               | Some v => JS.toNumber v
                               | None => Mood.stress m
                               end
            ∧ Mood.sleep m' = default (Mood.sleep m) (Moods.rput_sleep b)
            ∧ Mood.notes m' = match Moods.rput_notes b with
                              | Some s => Some (JS.trim s)
                              | None => Mood.notes m
                              end
            ∧ Moods.moods r.1
              = (λ x, if (Mood._id x =? id)%nat then m' else x) <$> Moods.moods db
            ∧ Moods.nextId r.1 = Moods.nextId db).
Proof.
  intros Hwf r.
  assert (NoDup (Mood._id <$> Moods.moods db)
          ∧ NoDup (Moods.indexKey <$> Moods.moods db)) as [Hids0 Hkeys0]
    by (destruct Hwf as (? & _ & _ & ?); done).
  assert (∀ res, let r0 : Moods.Db * Response Mood.t := (db, res) in
            (∀ m', res ≠ Ok m') →
            NoDup (Mood._id <$> Moods.moods r0.1)
            ∧ NoDup (Moods.indexKey <$> Moods.moods r0.1)
            ∧ (Moods.rput_date b = None → Moods.wf utcOffset r0.1)
            ∧ (r0.2 = BadRequest ∨ r0.2 = NotFound ∨ r0.2 = ServerError → r0.1 = db)
            ∧ (∀ m', r0.2 = Ok m' → False)) as Hsame.
  { intros res r0 Hres. simpl.
    split; [done|]. split; [done|]. split; [done|]. split; [done|].
    intros m' Hm'. by apply (Hres m'). }
  unfold r, Moods.putMoodRaw.
  destruct (Moods.rawPutValidationOk b) eqn:Hv; simpl;
    [|put_unchanged Hsame (@BadRequest Mood.t); done].
  destruct (mood_castPutBody_valid b Hv) as [cb Hc]. rewrite Hc.
  assert (Moods.put_mood cb = Moods.rput_mood b
          ∧ Moods.put_notes cb = Moods.rput_notes b
          ∧ Moods.castScale (Moods.rput_energy b) = Some (Moods.put_energy cb)
          ∧ Moods.castScale (Moods.rput_stress b) = Some (Moods.put_stress cb))
    as (Hcm & Hcn & Hce & Hcs).
  { revert Hc. unfold Moods.castPutBody.
    destruct (Moods.castScale (Moods.rput_energy b)) as [e|]; [|done].
    destruct (Moods.castScale (Moods.rput_stress b)) as [s|]; [|done].
    simpl. by intros [= <-]. }
  assert (∀ (x : option JS.Value) (c old : option Z),
            Moods.castScale x = Some c →
            match c with Some v => Some v | None => old end
            = match x with Some v => JS.toNumber v | None => old end) as Hscale.
  { intros x c old Hx. apply castScale_Some in Hx.
    destruct x as [v|]; [destruct Hx as (n & -> & ->)|subst c]; done. }
  destruct (Moods.keysOk (Moods.rput_sleep b)) eqn:Hk; simpl;
    [|put_unchanged Hsame (@ServerError Mood.t); done].
  unfold Mongo.findOne.
  destruct (findOneAndUpdate_shape (Moods.ownedBy uid id) (Moods.applyRawPut b cb)
              (Moods.moods db))
    as [[Hnone Heq]|(l1 & d & l2 & Hdocs & Hd & Hl1 & Heq)].
  { rewrite Hnone. put_unchanged Hsame (@NotFound Mood.t). done. }
  assert (List.find (Moods.ownedBy uid id) (Moods.moods db) = Some d) as ->
    by (rewrite Hdocs; by apply find_first).
  assert (d ∈ Moods.moods db) as Hin
    by (rewrite Hdocs; apply elem_of_app; right; apply list_elem_of_here).
  apply ownedBy_spec in Hd as [Hid Hu].
  destruct (Mongo.duplicateKey Mood._id Moods.indexKey (Moods.applyRawPut b cb d)
              (Moods.moods db)) eqn:Hdup.
  { put_unchanged Hsame (@ServerError Mood.t).
    intros _ _ Hall. specialize (Hall d Hin).
    rewrite (proj2 (ownedBy_spec uid id d)) in Hall; done. }
  rewrite Heq. simpl.
  assert (NoDup (Mood._id <$> l1 ++ Moods.applyRawPut b cb d :: l2)) as Hids'
    by (rewrite (fmap_replace Mood._id _ d) by done; by rewrite <- Hdocs).
  assert (NoDup (Moods.indexKey <$> l1 ++ Moods.applyRawPut b cb d :: l2)) as Hkeys'
    by (apply (duplicateKey_NoDup Mood._id Moods.indexKey l1 l2 d);
        [by rewrite <- Hdocs|by rewrite <- Hdocs|done|by rewrite <- Hdocs]).
  split; [exact Hids'|]. split; [exact Hkeys'|]. split; [|split; [done|split]].
  - intros Hnd. destruct Hwf as (_ & Hfresh & Hdates & _).
    rewrite Hdocs in Hfresh, Hdates.
    apply Forall_app in Hfresh as [? [? ?]%Forall_cons].
    apply Forall_app in Hdates as [? [? ?]%Forall_cons].
    repeat split; simpl; [exact Hids'| | |exact Hkeys'].
    + apply Forall_app. split; [done|]. by constructor.
    + apply Forall_app. split; [done|]. constructor; [|done].
      unfold Moods.applyRawPut. simpl. by rewrite Hnd.
  - intros _ _ Hall. specialize (Hall d Hin).
    rewrite (proj2 (ownedBy_spec uid id d)) in Hall; done.
  - split; [by intros [[=]|[[=]|[=]]]|].
    intros m' [= <-]. exists d. split; [exact Hin|].
    split; [exact Hid|]. split; [exact Hu|]. split; [exact Hid|].
    unfold Moods.applyRawPut at 1 2 3 4 5 6 7. simpl.
    split; [by rewrite Hu|]. split; [done|]. split; [by rewrite Hcm|].
    split; [by apply Hscale|]. split; [by apply Hscale|]. split; [done|].
    split; [by rewrite Hcn|]. split; [|done].
    rewrite Hdocs in Hids0 |- *.
    destruct (NoDup_fmap_split Mood._id _ _ _ Hids0) as [Hid1 Hid2].
    rewrite Hid in Hid1, Hid2.
    rewrite fmap_app, fmap_cons.
    rewrite (fmap_if_id Mood._id id (λ _, Moods.applyRawPut b cb d) l1 Hid1).
    rewrite (fmap_if_id Mood._id id (λ _, Moods.applyRawPut b cb d) l2 Hid2).
    by rewrite Hid, Nat.eqb_refl.
Qed.

(** X18. DELETE /api/moods/:id removes exactly the caller's mood with that
    id and keeps every other document and the invariant; if the mood was
    the one of some day, GET /api/moods/today on that day then finds
    nothing.  A mood that is missing or not the caller's answers 404 and
    nothing is removed. *)
Theorem deleteMood_spec (db : Moods.Db) (uid id : nat) :
  Moods.wf utcOffset db →
  let r := Moods.deleteMood db uid id in
  Moods.wf utcOffset r.1
  ∧ ((∀ m, m ∈ Moods.moods db → Moods.ownedBy uid id m = false) → r = (db, NotFound))
  ∧ (∀ m, m ∈ Moods.moods db → Moods.ownedBy uid id m = true →
       r.2 = Ok tt
       ∧ Moods.moods r.1 = filter (λ x, Mood._id x ≠ id) (Moods.moods db)
       ∧ (m ∉ Moods.moods r.1)
       ∧ ∀ now, Clock.startOfDay utcOffset now = Mood.date m →
           Moods.getToday utcOffset r.1 uid now = None).
Proof.
  intros Hwf r.
  assert (Moods.wf utcOffset r.1) as Hwf'.
  { unfold r, Moods.deleteMood.
    destruct (findOneAndDelete_shape (Moods.ownedBy uid id) (Moods.moods db))
      as [[_ Heq]|(l1 & d & l2 & Hdocs & _ & _ & Heq)]; rewrite Heq; simpl; [done|].
    unfold Moods.wf. simpl. eapply wfDocs_sublist; [|exact Hwf].
    rewrite Hdocs. apply sublist_app; [done|]. by apply sublist_cons. }
  split; [exact Hwf'|]. revert Hwf'. unfold r, Moods.deleteMood.
  destruct (findOneAndDelete_shape (Moods.ownedBy uid id) (Moods.moods db))
    as [[Hnone Heq]|(l1 & d & l2 & Hdocs & [Hid Hu]%ownedBy_spec & _ & Heq)];
    rewrite Heq; simpl; intros Hwf'.
  - split; [done|]. intros m Hm Hown.
    apply find_None_Forall in Hnone. rewrite Forall_forall in Hnone.
    rewrite (Hnone m Hm) in Hown. done.
  - destruct Hwf as (Hids & _ & Hdates & Hkeys).
    assert (d ∈ Moods.moods db) as Hd
      by (rewrite Hdocs; apply elem_of_app; right; apply list_elem_of_here).
    split.
    { intros Hall. specialize (Hall d Hd).
      rewrite (proj2 (ownedBy_spec uid id d)) in Hall; done. }
    intros m Hm [Hmid Hmu]%ownedBy_spec.
    assert (m = d) as -> by (apply (NoDup_fmap_inj_on Mood._id (Moods.moods db));
                             (done || congruence)).
    assert (l1 ++ l2 = filter (λ x, Mood._id x ≠ id) (Moods.moods db)) as Hfil.
    { rewrite Hdocs in Hids |- *.
      destruct (NoDup_fmap_split Mood._id _ _ _ Hids) as [Hid1 Hid2].
      rewrite Hid in Hid1, Hid2.
      rewrite filter_app, filter_cons_False by (intros Hne; by apply Hne).
      by rewrite !filter_all. }
    split; [done|]. split; [done|]. split.
    + rewrite Hfil. intros [Hne _]%list_elem_of_filter. by apply Hne.
    + intros now Hnow. unfold Moods.getToday, Mongo.findOne. simpl.
      destruct Hwf' as (_ & _ & Hdates' & _). simpl in Hdates'.
      rewrite (find_today_head Mood.user Mood.date utcOffset
                 (Moods.onDay uid (Clock.startOfDay utcOffset now)
                    (Clock.endOfDay utcOffset (Clock.startOfDay utcOffset now)))
                 uid now (mood_onDay_spec uid _ _) _ Hdates').
      unfold Daily.ofDay. rewrite filter_none; [done|].
      intros x Hx [Hxu Hxd]. rewrite Hfil in Hx.
      apply list_elem_of_filter in Hx as [Hne Hx]. apply Hne.
      rewrite <- Hid. f_equal.
      apply (NoDup_fmap_inj_on (λ m, (Mood.user m, Mood.date m)) (Moods.moods db));
        try done.
      rewrite Forall_forall in Hdates.
      rewrite <- (Hdates x Hx), Hxd, Hnow, Hxu, Hu. done.
Qed.

Lemma moodCount_incr (v w : Mood.MoodValue) (c : Moods.MoodCounts) :
  Moods.moodCount v (Moods.incrMood w c)
  = ((if Mood.MoodValue_eqb w v then 1 else 0) + Moods.moodCount v c)%nat.
Proof. by destruct v, w. Qed.

Lemma foldl_accumulate_moodCount (v : Mood.MoodValue) (ms : list Mood.t) :
  ∀ acc,
    Moods.moodCount v (Moods.moodCounts (foldl Moods.accumulate acc ms))
    = (Moods.moodCount v (Moods.moodCounts acc)
       + length (filter (λ m, Mood.MoodValue_eqb (Mood.mood m) v = true) ms))%nat.
Proof.
  induction ms as [|m ms IH]; intros acc; simpl; [lia|].
  rewrite IH, filter_cons. simpl. rewrite moodCount_incr.
  destruct (Mood.MoodValue_eqb (Mood.mood m) v);
    rewrite ?decide_True, ?decide_False by done; simpl; lia.
Qed.

Lemma foldl_accumulate_sleep (ms : list Mood.t) :
  ∀ acc,
    let total c := (Moods.sqExcellent c + Moods.sqGood c + Moods.sqFair c
                    + Moods.sqPoor c)%nat in
    (total (Moods.sleepQualityCounts (foldl Moods.accumulate acc ms))
     ≤ total (Moods.sleepQualityCounts acc) + length ms)%nat.
Proof.
  induction ms as [|m ms IH]; intros acc; simpl; [lia|].
  etrans; [apply IH|]. simpl.
  destruct (Mood.quality (Mood.sleep m)) as [[]|]; simpl; lia.
Qed.

(** X19. In the mood statistics [totalEntries] is the number of moods
    found, each count of [moodDistribution] is the number of them with
    that mood, so that the five counts add up to [totalEntries]; the sleep
    quality counts add up to at most [totalEntries]; and [recentTrend] has
    one point for each of the first seven moods found, or for all of them
    when there are fewer, in their order: the point carries the date, the
    mood, the energy and the stress of its mood. *)
Theorem mood_stats_counts (ms : list Mood.t) :
  let s := Moods.stats ms in
  Moods.totalEntries s = length ms
  ∧ (∀ v, Moods.moodCount v (Moods.moodDistribution s)
          = length (filter (λ m, Mood.MoodValue_eqb (Mood.mood m) v = true) ms))
  ∧ (Moods.excellent (Moods.moodDistribution s) + Moods.good (Moods.moodDistribution s)
     + Moods.okay (Moods.moodDistribution s) + Moods.poor (Moods.moodDistribution s)
     + Moods.terrible (Moods.moodDistribution s))%nat = Moods.totalEntries s
  ∧ (Moods.sqExcellent (Moods.sleepQualityDistribution s)
     + Moods.sqGood (Moods.sleepQualityDistribution s)
     + Moods.sqFair (Moods.sleepQualityDistribution s)
     + Moods.sqPoor (Moods.sleepQualityDistribution s) ≤ Moods.totalEntries s)%nat
  ∧ length (Moods.recentTrend s) = (7 `min` length ms)%nat
  ∧ (Moods.tp_date <$> Moods.recentTrend s) = (Mood.date <$> take 7 ms)
  ∧ (∀ i : nat,
       Moods.recentTrend s !! i
       = if (i <? 7)%nat
         then match ms !! i with
              | Some m => Some {| Moods.tp_date := Mood.date m;
                                  Moods.tp_mood := Mood.mood m;
                                  Moods.tp_energy := Mood.energy m;
                                  Moods.tp_stress := Mood.stress m |}
              | None => None
              end
         else None).
Proof.
  simpl.
  assert (∀ v, Moods.moodCount v
                 (Moods.moodCounts (foldl Moods.accumulate Moods.initialTotals ms))
               = length (filter (λ m, Mood.MoodValue_eqb (Mood.mood m) v = true) ms))
    as Hcount.
  { intros v. rewrite foldl_accumulate_moodCount. by destruct v. }
  split; [done|]. split; [exact Hcount|]. split; [|split; [|split; [|split]]].
  - pose proof (Hcount Mood.excellent) as H1. pose proof (Hcount Mood.good) as H2.
    pose proof (Hcount Mood.okay) as H3. pose proof (Hcount Mood.poor) as H4.
    pose proof (Hcount Mood.terrible) as H5. simpl in H1, H2, H3, H4, H5.
    rewrite H1, H2, H3, H4, H5. clear.
    induction ms as [|m ms IH]; [done|].
    rewrite !filter_cons. simpl.
    destruct (Mood.mood m); simpl;
      rewrite ?decide_True, ?decide_False by done; simpl; lia.
  - apply (foldl_accumulate_sleep ms Moods.initialTotals).
  - by rewrite length_fmap, length_take.
  - rewrite <- list_fmap_compose. done.
  - intros i. rewrite list_lookup_fmap.
    destruct (Nat.ltb_spec i 7) as [Hlt|Hge].
    + rewrite lookup_take_lt by done. by destruct (ms !! i).
    + rewrite lookup_take_ge by done. done.
Qed.

Lemma foldl_accumulate_scale (ms : list Mood.t) :
  Forall (λ m, match Mood.energy m with Some v => 1 ≤ v ≤ 10 | None => False end
               ∧ match Mood.stress m with Some v => 1 ≤ v ≤ 10 | None => False end) ms →
  ∀ acc,
    let t := foldl Moods.accumulate acc ms in
    Moods.totalEnergy acc + Z.of_nat (length ms) ≤ Moods.totalEnergy t
      ≤ Moods.totalEnergy acc + 10 * Z.of_nat (length ms)
    ∧ Moods.totalStress acc + Z.of_nat (length ms) ≤ Moods.totalStress t
      ≤ Moods.totalStress acc + 10 * Z.of_nat (length ms).
Proof.
  induction 1 as [|m ms [He Hs] _ IH]; intros acc; [simpl; lia|].
  specialize (IH (Moods.accumulate acc m)). simpl in IH |- *.
  destruct (Mood.energy m) as [e|]; [|done].
  destruct (Mood.stress m) as [s|]; [|done]. simpl in IH. lia.
Qed.

Lemma average_scale (total : Z) (n : nat) :
  (0 < n)%nat → Z.of_nat n ≤ total ≤ 10 * Z.of_nat n →
  (1 <= Moods.average (inject_Z total) n <= 10)%Q.
Proof.
  intros Hn Ht. unfold Moods.average.
  replace (0 <? n)%nat with true by (symmetry; by apply Nat.ltb_lt).
  assert (10 ≤ JS.mathRound
                 (JS.mul (JS.div (inject_Z total) (inject_Z (Z.of_nat n))) 10) ≤ 100)
    as Hr.
  { split.
    - apply (scaled_ratio_ge total (Z.of_nat n) 1 10); lia.
    - apply (scaled_ratio_le total (Z.of_nat n) 10 10); lia. }
  set (r := JS.mathRound _) in *. unfold JS.div. split.
  - apply (toDouble_ge_Z _ 1); [lia|].
    apply (ratio_ge r 10 1); lia.
  - apply (toDouble_le_Z _ 10); [|apply (ratio_le r 10 10); lia|lia].
    apply ratio_nonneg; lia.
Qed.

(** X20. When at least one mood is found and every mood has energy and
    stress between 1 and 10 (the range of the schema), [averageEnergy] and
    [averageStress] lie between 1 and 10. *)
Theorem mood_averages_in_scale (ms : list Mood.t) :
  ms ≠ [] →
  Forall (λ m, match Mood.energy m with Some v => 1 ≤ v ≤ 10 | None => False end
               ∧ match Mood.stress m with Some v => 1 ≤ v ≤ 10 | None => False end) ms →
  (1 <= Moods.averageEnergy (Moods.stats ms) <= 10)%Q
  ∧ (1 <= Moods.averageStress (Moods.stats ms) <= 10)%Q.
Proof.
  intros Hne Hall.
  assert (0 < length ms)%nat as Hn by (destruct ms; [done|simpl; lia]).
  destruct (foldl_accumulate_scale ms Hall Moods.initialTotals) as [He Hs].
  simpl in He, Hs. split; apply average_scale; (done || lia).
Qed.

End MoodMoreFacts.

(** ** The daily upsert, request after request *)

Section RawUpsertFacts.
Variable utcOffset : Z.




End RawUpsertFacts.



(** C10, against the claim as worded.  [isBoolean()] accepts the string
    ['false'] and the chain has no [toBoolean()]; the schema casts the
    string to [false], so the request below un-completes the entry of
    today, while [if (req.body.completed)] tests the string, which is
    truthy: the request adds one completion, restarts the streak at 1 and
    moves [lastCompleted].  The same request with the JSON [false] leaves
    the stats as they were. *)
Example string_false_counts_completion :
  let h := {| Habit.user := 7; Habit.name := "Walk"; Habit.isActive := true;
              Habit.stats := {| Habit.totalCompletions := 4; Habit.currentStreak := 2;
                                Habit.longestStreak := 3; Habit.completionRate := 0;
                                Habit.lastCompleted := Some 172800100 |} |} in
  let logged := {| HabitEntry._id := 0; HabitEntry.habit := 1; HabitEntry.user := 7;
                   HabitEntry.date := 172800000; HabitEntry.completed := true;
                   HabitEntry.value := 1; HabitEntry.notes := None |} in
  let db := {| Habits.habits := {[ 1%nat := h ]}; Habits.entries := [logged];
               Habits.nextId := 1 |} in
  let body (completed : JS.Value) :=
    {| Habits.raw_completed := completed; Habits.raw_value := None;
       Habits.raw_notes := None; Habits.raw_habit := None;
       Habits.raw_user := None; Habits.raw_date := None |} in
  let r := Habits.postEntryRaw 0 db 7 1 (body (JS.VStr "false")) 172800500 in
  let r' := Habits.postEntryRaw 0 db 7 1 (body (JS.VBool false)) 172800500 in
  Habits.rawValidationOk (body (JS.VStr "false")) = true
  ∧ r.2 = Ok (Some {| HabitEntry._id := 0; HabitEntry.habit := 1; HabitEntry.user := 7;
                      HabitEntry.date := 172800000; HabitEntry.completed := false;
                      HabitEntry.value := 1; HabitEntry.notes := None |})
  ∧ (HabitEntry.completed <$> Habits.entries r.1) = [false]
  ∧ (Habit.stats <$> Habits.habits r.1 !! 1%nat)
    = Some {| Habit.totalCompletions := 5; Habit.currentStreak := 1;
              Habit.longestStreak := 3; Habit.completionRate := 0;
              Habit.lastCompleted := Some 172800500 |}
  ∧ r'.2 = r.2
  ∧ Habits.entries r'.1 = Habits.entries r.1
  ∧ Habits.habits r'.1 !! 1%nat = Some h.
Proof. vm_compute. repeat split; reflexivity. Qed.

(** ** Instances of the properties above on small databases *)

Section Samples.

Let walk : Habit.t :=
  {| Habit.user := 7; Habit.name := "Walk"; Habit.isActive := true;
     Habit.stats := {| Habit.totalCompletions := 4; Habit.currentStreak := 2;
                       Habit.longestStreak := 3; Habit.completionRate := 0;
                       Habit.lastCompleted := Some 86400700 |} |}.

Let swim : Habit.t :=
  {| Habit.user := 8; Habit.name := "Swim"; Habit.isActive := true;
     Habit.stats := {| Habit.totalCompletions := 1; Habit.currentStreak := 1;
                       Habit.longestStreak := 1; Habit.completionRate := 0;
                       Habit.lastCompleted := Some 86400900 |} |}.

Let walked : HabitEntry.t :=
  {| HabitEntry._id := 0; HabitEntry.habit := 1; HabitEntry.user := 7;
     HabitEntry.date := 86400000; HabitEntry.completed := true;
     HabitEntry.value := 1; HabitEntry.notes := None |}.

Let swum : HabitEntry.t :=
  {| HabitEntry._id := 1; HabitEntry.habit := 2; HabitEntry.user := 8;
     HabitEntry.date := 86400000; HabitEntry.completed := true;
     HabitEntry.value := 1; HabitEntry.notes := None |}.

Let hdb : Habits.Db :=
  {| Habits.habits := {[ 1%nat := walk; 2%nat := swim ]};
     Habits.entries := [walked; swum]; Habits.nextId := 2 |}.

Let done1 : Habits.Body :=
  {| Habits.completed := true; Habits.value := Some 3; Habits.notes := None |}.

Lemma hdb_wf : Habits.wf 0 hdb.
Proof.
  repeat split; simpl; repeat constructor;
    intros Hin; repeat (apply elem_of_cons in Hin as [Hin|Hin]; [discriminate|]);
    by apply elem_of_nil in Hin.
Qed.

Lemma postEntry_writes_own_key_only_witness :
  let b := {| Habits.raw_completed := JS.VStr "true";
              Habits.raw_value := Some (JS.VNum 3); Habits.raw_notes := None;
              Habits.raw_habit := None; Habits.raw_user := None;
              Habits.raw_date := Some 0 |} in
  filter (λ e, Habits.owner e ≠ (7%nat, 1%nat))
    (Habits.entries (Habits.postEntryRaw 0 hdb 7 1 b 172800500).1) = [swum]
  ∧ Habits.habits (Habits.postEntryRaw 0 hdb 7 1 b 172800500).1 !! 2%nat = Some swim.
Proof.
  intros b.
  destruct (postEntry_writes_own_key_only 0 hdb 7 1 b 172800500 (proj1 hdb_wf))
    as (_ & Hentries & Hother & _).
  split.
  - rewrite Hentries by reflexivity. vm_compute. reflexivity.
  - rewrite Hother by discriminate. vm_compute. reflexivity.
Defined.


Lemma postEntry_stats_monotone_witness :
  ∃ h', Habits.habits (Habits.postEntry 0 hdb 7 1 done1 172800500).1 !! 1%nat = Some h'
        ∧ 3 ≤ Habit.longestStreak (Habit.stats h')
        ∧ Habit.currentStreak (Habit.stats h') ≤ Habit.longestStreak (Habit.stats h').
Proof.
  assert (Habits.habits hdb !! 1%nat = Some walk) as Hh by (vm_compute; reflexivity).
  destruct (postEntry_stats_monotone 0 hdb 7 1 done1 172800500 1 walk Hh)
    as (h' & Hh' & _ & Hlong & Hinv & _).
  exists h'. split; [exact Hh'|]. split; [exact Hlong|]. apply Hinv. discriminate.
Defined.

Lemma deleteHabit_cascade_witness :
  Habits.entries (Habits.deleteHabit hdb 7 1).1 = [swum]
  ∧ Habits.postEntry 0 (Habits.deleteHabit hdb 7 1).1 7 1 done1 172800500
    = ((Habits.deleteHabit hdb 7 1).1, NotFound).
Proof.
  assert (Habits.findHabit (Habits.habits hdb) 1 7 = Some walk) as Hf
    by (vm_compute; reflexivity).
  destruct (deleteHabit_cascade 0 hdb 7 1 hdb_wf) as (_ & _ & Hdel).
  destruct (Hdel walk Hf) as (_ & _ & _ & Hentries & _ & Hpost).
  split.
  - rewrite Hentries. vm_compute. reflexivity.
  - by apply Hpost.
Defined.

Lemma habit_completionRate_bounds_witness :
  200 ≤ Habits.completionRate
          (Habits.stats [(1%nat, walk)] (replicate 15 walked)).
Proof.
  apply (habit_completionRate_bounds [(1%nat, walk)] (replicate 15 walked));
    simpl; lia.
Defined.

Let calm : Mood.t :=
  {| Mood._id := 0; Mood.user := 7; Mood.date := 172800000;
     Mood.mood := Mood.good; Mood.energy := Some 5; Mood.stress := Some 4;
     Mood.sleep := {| Mood.hours := None; Mood.quality := None |};
     Mood.notes := None |}.

Let tired : Mood.t :=
  {| Mood._id := 1; Mood.user := 8; Mood.date := 172800000;
     Mood.mood := Mood.poor; Mood.energy := Some 2; Mood.stress := Some 8;
     Mood.sleep := {| Mood.hours := None; Mood.quality := None |};
     Mood.notes := None |}.

Let mdb : Moods.Db := {| Moods.moods := [calm; tired]; Moods.nextId := 2 |}.

Lemma mdb_wf : Moods.wf 0 mdb.
Proof.
  repeat split; simpl; repeat constructor;
    intros Hin; repeat (apply elem_of_cons in Hin as [Hin|Hin]; [discriminate|]);
    by apply elem_of_nil in Hin.
Qed.

Lemma postMood_read_back_witness :
  let b := {| Moods.raw_mood := Mood.excellent;
              Moods.raw_energy := Some (JS.VStr "9"); Moods.raw_stress := None;
              Moods.raw_notes := Some " slept well "%string;
              Moods.raw_user := None; Moods.raw_date := Some 5;
              Moods.raw_sleep := Some {| Mood.hours := Some (15 # 2);
                                         Mood.quality := Some Mood.sleepGood |} |} in
  ∃ m, Moods.getToday 0 (Moods.postMoodRaw 0 mdb 7 b 172800500).1 7 172850000 = Some m
       ∧ Mood.date m = 172800000
       ∧ Mood.mood m = Mood.excellent ∧ Mood.energy m = Some 9
       ∧ Mood.notes m = Some "slept well"%string
       ∧ Mood.hours (Mood.sleep m) = Some (15 # 2).
Proof.
  intros b.
  destruct (postMood_read_back 0 mdb 7 b 172800500 172850000 mdb_wf eq_refl)
    as (_ & _ & _ & _ & Hok).
  destruct (Hok eq_refl eq_refl eq_refl)
    as (m & _ & Hget & _ & Hd & Hm & He & _ & Hn & Hs).
  exists m. split; [exact Hget|]. split; [exact Hd|]. split; [exact Hm|].
  assert (JS.toNumber (JS.VStr "9") = Some 9) as Hnine
    by (vm_compute; reflexivity).
  destruct (He _ eq_refl) as [_ He'].
  split; [exact (eq_trans He' Hnine)|]. split; [exact (Hn _ eq_refl)|].
  by rewrite (Hs _ eq_refl).
Defined.

Lemma putMood_spec_witness :
  let b := {| Moods.rput_mood := Some Mood.okay;
              Moods.rput_energy := Some (JS.VNum 7); Moods.rput_stress := None;
              Moods.rput_notes := Some " better "%string;
              Moods.rput_user := None; Moods.rput_date := None;
              Moods.rput_sleep := None |} in
  Moods.putMoodRaw mdb 7 1 b = (mdb, NotFound)
  ∧ Moods.wf 0 (Moods.putMoodRaw mdb 7 0 b).1
  ∧ ∃ m', (Moods.putMoodRaw mdb 7 0 b).2 = Ok m'
          ∧ Mood.user m' = 7%nat ∧ Mood.mood m' = Mood.okay
          ∧ Mood.energy m' = Some 7
          ∧ Mood.notes m' = Some "better"%string
          ∧ Moods.moods (Moods.putMoodRaw mdb 7 0 b).1 = [m'; tired].
Proof.
  intros b.
  destruct (putMood_spec 0 mdb 7 1 b mdb_wf) as (_ & _ & _ & _ & Hnone & _).
  destruct (putMood_spec 0 mdb 7 0 b mdb_wf) as (_ & _ & Hwf & _ & _ & _ & Hok).
  split.
  { apply Hnone; [reflexivity|reflexivity|].
    intros m [->|[->|[]%elem_of_nil]%elem_of_cons]%elem_of_cons; reflexivity. }
  split; [by apply Hwf|].
  assert (∃ m', (Moods.putMoodRaw mdb 7 0 b).2 = Ok m') as [m' Hm']
    by (vm_compute; eexists; reflexivity).
  destruct (Hok m' Hm') as (m & _ & _ & _ & _ & Hu & _ & Hmood & He & _ & _ & Hn & Hms & _).
  exists m'. split; [exact Hm'|]. split; [exact Hu|]. split; [exact Hmood|].
  split; [exact He|]. split; [exact Hn|].
  rewrite Hms. reflexivity.
Defined.

Lemma deleteMood_spec_witness :
  Moods.moods (Moods.deleteMood mdb 7 0).1 = [tired]
  ∧ Moods.getToday 0 (Moods.deleteMood mdb 7 0).1 7 172850000 = None.
Proof.
  destruct (deleteMood_spec 0 mdb 7 0 mdb_wf) as (_ & _ & Hdel).
  destruct (Hdel calm (list_elem_of_here _ _) eq_refl) as (_ & Hmoods & _ & Hget).
  split.
  - rewrite Hmoods. vm_compute. reflexivity.
  - by apply Hget.
Defined.

Lemma mood_averages_in_scale_witness :
  (1 <= Moods.averageEnergy (Moods.stats [calm; tired]) <= 10)%Q.
Proof.
  apply (mood_averages_in_scale [calm; tired]); [discriminate|].
  repeat constructor; discriminate.
Defined.

End Samples.
